(** * dataaug.data.data_preparation: data loading and augmentation pipelines

    A shallow embedding of [src/dataaug/data/data_preparation.py] and the
    properties of its dataset wrapping, statistics, augmentation pipeline
    and batching code.

    Conventions.
    - Python exceptions are values of [exn]; fallible code lives in the
      [result] monad.
    - Python [float] is IEEE binary64, modelled by [spec_float] with
      precision 53 and maximal exponent 1024 (module [PyFloat]).
    - Everything the module obtains from outside (the torch runtime, the
      files on disk, the torchvision transform namespace) is a field of the
      record [World]. *)

From Stdlib Require Import ZArith List Bool Lia.
From Stdlib Require Import SpecFloat.
From stdpp Require Import gmap strings list.

Open Scope Z_scope.

(** ** Exceptions and the error monad *)

Inductive exn : Type :=
| NameError (name : string)
| ValueError (msg : string)
| TypeError
| AttributeError (name : string)
| AssertionError
| OverflowError
| RuntimeError (msg : string)
| IndexError.

Inductive result (A : Type) : Type :=
| Ok (a : A)
| Raise (e : exn).
Arguments Ok {A} a.
Arguments Raise {A} e.

Definition rbind {A B} (r : result A) (k : A -> result B) : result B :=
  match r with
  | Ok a => k a
  | Raise e => Raise e
  end.

Declare Scope py_scope.
Delimit Scope py_scope with py.
#[local] Set Warnings "-notation-incompatible-prefix".
Notation "x '<~' c ';;' k" := (rbind c (fun x => k))
  (at level 100, c at next level, right associativity) : py_scope.
Notation "' p '<~' c ';;' k" := (rbind c (fun p => k))
  (at level 100, p strict pattern, c at next level, right associativity)
  : py_scope.
Open Scope py_scope.

(** [[f(x) for x in l]]: the body is evaluated left to right and the first
    exception leaves the comprehension. *)
Fixpoint mapM {A B} (f : A -> result B) (l : list A) : result (list B) :=
  match l with
  | [] => Ok []
  | x :: l' => y <~ f x ;; ys <~ mapM f l' ;; Ok (y :: ys)
  end.

Definition is_ok {A} (r : result A) : bool :=
  match r with Ok _ => true | Raise _ => false end.

(** ** Python floats and the built-ins [int], [round], [min] *)

Module PyFloat.

Definition prec : Z := 53.
Definition emax : Z := 1024.

Definition mul : spec_float -> spec_float -> spec_float := SFmul prec emax.
Definition div : spec_float -> spec_float -> spec_float := SFdiv prec emax.

(** [float(z)] for a Python int: the nearest double, ties to even;
    [OverflowError] beyond the range of doubles. *)
Definition of_int (z : Z) : result spec_float :=
  match binary_normalize prec emax z 0 false with
  | S754_infinity _ => Raise OverflowError
  | f => Ok f
  end.

(** [int(f)]: truncation toward zero. *)
Definition to_int (f : spec_float) : result Z :=
  match f with
  | S754_zero _ => Ok 0
  | S754_finite s m e => Ok (cond_Zopp s (Z.shiftl (Zpos m) e))
  | S754_infinity _ => Raise OverflowError
  | S754_nan => Raise (ValueError "cannot convert float NaN to integer")
  end.

(** Rounding of the magnitude [m * 2^e] to the nearest integer, a tie
    going to the even neighbour. *)
Definition round_mag (m : positive) (e : Z) : Z :=
  if 0 <=? e then Z.shiftl (Zpos m) e
  else
    let d := 2 ^ (- e) in
    let q := Zpos m / d in
    let r := Zpos m mod d in
    match Z.compare (2 * r) d with
    | Lt => q
    | Gt => q + 1
    | Eq => if Z.even q then q else q + 1
    end.

(** [round(f)] with a single argument: an int, ties to even. *)
Definition round (f : spec_float) : result Z :=
  match f with
  | S754_zero _ => Ok 0
  | S754_finite s m e => Ok (cond_Zopp s (round_mag m e))
  | S754_infinity _ => Raise OverflowError
  | S754_nan => Raise (ValueError "cannot convert float NaN to integer")
  end.

(** The literals of the source, as the parser reads them: the double
    nearest to the decimal. *)
Definition lit_ratio (num den : Z) : spec_float :=
  div (binary_normalize prec emax num 0 false)
      (binary_normalize prec emax den 0 false).

Definition f0_45 : spec_float := Eval vm_compute in lit_ratio 45 100.
Definition f0_3 : spec_float := Eval vm_compute in lit_ratio 3 10.
Definition f0_5 : spec_float := Eval vm_compute in lit_ratio 1 2.

Definition sign_bit (f : spec_float) : bool :=
  match f with
  | S754_zero s | S754_infinity s | S754_finite s _ _ => s
  | S754_nan => false
  end.

End PyFloat.

(** Python numbers as they occur in the configuration. *)
Inductive pynum : Type :=
| PInt (z : Z)
| PFloat (f : spec_float).

(** [a * b] on numbers: int arithmetic is exact, a mixed product converts
    the int operand to a float first. *)
Definition py_mul (a b : pynum) : result pynum :=
  match a, b with
  | PInt x, PInt y => Ok (PInt (x * y))
  | PInt x, PFloat g => f <~ PyFloat.of_int x ;; Ok (PFloat (PyFloat.mul f g))
  | PFloat f, PInt y => g <~ PyFloat.of_int y ;; Ok (PFloat (PyFloat.mul f g))
  | PFloat f, PFloat g => Ok (PFloat (PyFloat.mul f g))
  end.

Definition py_int (a : pynum) : result Z :=
  match a with
  | PInt z => Ok z
  | PFloat f => PyFloat.to_int f
  end.

Definition py_round (a : pynum) : result Z :=
  match a with
  | PInt z => Ok z
  | PFloat f => PyFloat.round f
  end.

(** ** Configuration values and the configuration records *)

#[local] Set Warnings "-register-all".

Inductive pyval : Type :=
| VNone
| VBool (b : bool)
| VNum (n : pynum)
| VStr (s : string)
| VList (l : list pyval)
| VDict (d : list (string * pyval)).

(** [*v] in a call: the items of an iterable, [TypeError] otherwise.  A
    string yields its characters, a mapping its keys. *)
Fixpoint chars (s : string) : list pyval :=
  match s with
  | EmptyString => []
  | String c s' => VStr (String c EmptyString) :: chars s'
  end.

Definition py_unpack (v : pyval) : result (list pyval) :=
  match v with
  | VList l => Ok l
  | VStr s => Ok (chars s)
  | VDict d => Ok (map (fun kv => VStr (fst kv)) d)
  | VNone | VBool _ | VNum _ => Raise TypeError
  end.

(** [cfg.data.db] *)
Record cfg_db : Type := {
  db_name : option string;
  db_rounds : Z;
}.

(** [cfg.data].  A mapping such as [augmentations_train] is an association
    list in iteration order; [None] stands for a value without [keys]. *)
Record cfg_data : Type := {
  data_name : string;
  data_path : string;
  data_split : string;
  data_pixels : Z;
  data_mean : option (list pynum);
  data_std : option (list pynum);
  data_augmentations_train : option (list (string * pyval));
  data_augmentations_val : option (list (string * pyval));
  data_normalize : bool;
  data_size : Z;
  data_deterministic_subsets : bool;
  data_extra_validation : list string;
  data_batch_size : Z;
  data_caching : bool;
  data_db : cfg_db;
}.

(** [cfg.impl], with [impl_setup_dist] for [cfg.impl.setup.dist]. *)
Record cfg_impl : Type := {
  impl_threads : Z;
  impl_pin_memory : bool;
  impl_persistent_workers : bool;
  impl_setup_dist : bool;
}.

(** [cfg.hyp] *)
Record cfg_hyp : Type := {
  hyp_shuffle : bool;
  hyp_sample_with_replacement : bool;
}.

(** ** Transforms *)

(** The [aa_params] dict of [_get_autoaugment_timm]. *)
Record aa_params : Type := {
  translate_const : Z;
  img_mean : list Z;
  translate_pct : option spec_float;
}.

(** The transform objects the module constructs, by constructor call. *)
Inductive transform : Type :=
| rand_augment_transform (config_str : string) (hparams : aa_params)
| augment_and_mix_transform (config_str : string) (hparams : aa_params)
| auto_augment_transform (config_str : string) (hparams : aa_params)
| tvAutoAugment (policy : string)
| tvRandAugment
| ToRGB
| Resize (size : list pyval)
| Cutout (args : list pyval) (mask_color : option (list pynum))
| TorchvisionTransform (name : string) (args : list pyval)
| ToTensor
| Normalize (mean std : option (list pynum)).

(** [transforms.Compose(list)] *)
Definition Compose : Type := list transform.

(** ** Datasets *)

Inductive dataset_class : Type :=
| CIFAR10 | MNIST | EMNIST | SVHN | CINIC10 | CIFAR100 | ImageNet
| TinyImageNet | CIFAR10C.

(** One dataset constructor call: the class, [root] and the keyword
    arguments written at the call site, [transform] apart. *)
Record open_call : Type := {
  oc_class : dataset_class;
  oc_root : string;
  oc_kwargs : list (string * pyval);
}.

(** What an opened dataset exposes: its length and, when the class has the
    attribute, its [classes]. *)
Record dataset_info : Type := {
  info_len : nat;
  info_classes : option (list pyval);
}.

Inductive dataset : Type :=
| VisionDataset (call : open_call) (info_length : nat)
    (transform : option Compose) (classes : option (list pyval))
| SubsetObj (inner : dataset) (indices : list nat)
    (transform : option Compose) (classes : list pyval)
| LMDBDataset (inner : dataset) (db : cfg_db) (name : string) (can_create : bool)
| CachedDataset (inner : dataset) (num_workers : Z) (pin_memory : bool).

(** ** Samples *)

(** What a pipeline stage can observe of a sample: whether it is a PIL
    image or a tensor, its size, and whether its colour mode is RGB. *)
Inductive sample_kind : Type := PILImage | TensorSample.

Record sample : Type := {
  kind : sample_kind;
  height : Z;
  width : Z;
  is_rgb : bool;
}.

(** ** The world outside the module *)

(** The state of a [torch.Generator]. *)
Definition rng : Type := Z.

Record World : Type := {
  (* torch.distributed *)
  dist_is_initialized : bool;
  dist_get_world_size : Z;
  dist_get_rank : Z;
  (* torch *)
  torch_get_num_threads : Z;
  cuda_device_count : Z;
  (* random number generation: the state of the default generator when
     the module is entered, the state [manual_seed] puts a fresh generator
     in, and the algorithms: entry [i] of [randperm(n)] and draw [i] of
     [randint(n)] from a generator state *)
  default_generator : rng;
  manual_seed : Z -> rng;
  randperm_at : rng -> nat -> nat -> nat;
  randint_at : rng -> nat -> nat -> nat;
  (* os.path *)
  expanduser : string -> string;
  (* the dataset files: what a constructor call finds *)
  open_dataset : open_call -> result dataset_info;
  (* torchvision.transforms: the names it has, and whether a constructor
     accepts its arguments *)
  transforms_hasattr : string -> bool;
  transforms_call : string -> list pyval -> result unit;
  (* the dataset files: sample [i] of an opened dataset, before any
     transform *)
  read_sample : open_call -> nat -> sample;
  (* torch.mean and torch.std along dim 1 of the concatenated samples *)
  torch_mean_std : dataset -> list pynum * list pynum;
  (* what the transforms built outside the module do to a sample: the
     auto-augmentation policies, Cutout and the torchvision transforms
     found by name *)
  apply_external : transform -> sample -> result sample;
  (* torch.utils.data.default_collate on the samples of one batch *)
  default_collate : list sample -> result unit;
}.

(** The same world entered with the default generator in state [g]: two
    runs of the program differ in nothing else that the module reads. *)
Definition with_default_generator (g : rng) (W : World) : World := {|
  dist_is_initialized := dist_is_initialized W;
  dist_get_world_size := dist_get_world_size W;
  dist_get_rank := dist_get_rank W;
  torch_get_num_threads := torch_get_num_threads W;
  cuda_device_count := cuda_device_count W;
  default_generator := g;
  manual_seed := manual_seed W;
  randperm_at := randperm_at W;
  randint_at := randint_at W;
  expanduser := expanduser W;
  open_dataset := open_dataset W;
  transforms_hasattr := transforms_hasattr W;
  transforms_call := transforms_call W;
  read_sample := read_sample W;
  torch_mean_std := torch_mean_std W;
  apply_external := apply_external W;
  default_collate := default_collate W;
|}.

(** [torch.randperm(n, generator=g)] *)
Definition randperm (W : World) (g : rng) (n : nat) : list nat :=
  map (randperm_at W g n) (seq 0 n).

(** [torch.arange(0, k)]: refuses a negative bound. *)
Definition arange (k : Z) : result (list nat) :=
  if k <? 0 then
    Raise (RuntimeError "upper bound and larger bound inconsistent with step sign")
  else Ok (seq 0 (Z.to_nat k)).

(** [l[:k]] *)
Definition py_slice_to {A} (l : list A) (k : Z) : list A :=
  if 0 <=? k then take (Z.to_nat k) l
  else take (Z.to_nat (Z.of_nat (length l) + k)) l.

(** ** Name resolution *)

(** The names bound at the top level of the module: its imports, functions
    and classes. *)
Definition module_globals : list string :=
  [ "torch"; "torchvision"; "transforms"; "TinyImageNet"; "CINIC10";
    "CIFAR10C"; "rand_augment_transform"; "augment_and_mix_transform";
    "auto_augment_transform"; "Cutout"; "os"; "contextlib"; "CachedDataset";
    "warnings"; "construct_dataloader"; "construct_subset_dataloader";
    "_build_datasets"; "_get_meanstd"; "_get_autoaugment_timm";
    "_get_autoaugment_torchvision"; "_parse_data_augmentations"; "Subset";
    "ToRGB"; "main_process_first" ]%string.

(** Loading a name that no assignment of the function binds: the module
    globals are searched.  None of them is a dataset, so a name that is
    found has no [len()]. *)
Definition load_global (name : string) : result dataset :=
  if existsb (String.eqb name) module_globals then Raise TypeError
  else Raise (NameError name).

(** Loading a local variable of the enclosing function: unbound until an
    assignment has run. *)
Definition load_deref {A} (name : string) (cell : option A) : result A :=
  match cell with
  | Some v => Ok v
  | None => Raise (NameError name)
  end.

(** ** Dataset attributes *)

(** Modelled from the spec: [LMDBDataset] and [CachedDataset]
    (lmdb_datasets.py and cached_dataset.py are not among the sources)
    keep the length, the transform and the class list of the dataset they
    wrap: "wrapping never changes dataset length or label semantics".  The
    length of a [Subset] is the number of its indices. *)
Fixpoint len (d : dataset) : nat :=
  match d with
  | VisionDataset _ n _ _ => n
  | SubsetObj _ indices _ _ => length indices
  | LMDBDataset d' _ _ _ => len d'
  | CachedDataset d' _ _ => len d'
  end.

(** Modelled from the spec: [dataset.transform], forwarded by the wrappers
    that are not among the sources. *)
Fixpoint get_transform (d : dataset) : option Compose :=
  match d with
  | VisionDataset _ _ t _ => t
  | SubsetObj _ _ t _ => t
  | LMDBDataset d' _ _ _ => get_transform d'
  | CachedDataset d' _ _ => get_transform d'
  end.

(** Modelled from the spec: [dataset.classes], forwarded by the wrappers
    that are not among the sources; [AttributeError] on a dataset class
    without the attribute. *)
Fixpoint get_classes (d : dataset) : result (list pyval) :=
  match d with
  | VisionDataset _ _ _ (Some c) => Ok c
  | VisionDataset _ _ _ None => Raise (AttributeError "classes")
  | SubsetObj _ _ _ c => Ok c
  | LMDBDataset d' _ _ _ => get_classes d'
  | CachedDataset d' _ _ => get_classes d'
  end.

(** [dataset.transform = t] and [dataset.classes = c] on a freshly opened
    dataset. *)
Definition set_transform (d : dataset) (t : option Compose) : dataset :=
  match d with
  | VisionDataset call n _ c => VisionDataset call n t c
  | _ => d
  end.

Definition set_classes (d : dataset) (c : list pyval) : dataset :=
  match d with
  | VisionDataset call n t _ => VisionDataset call n t (Some c)
  | _ => d
  end.

(** [Subset.__init__]: the subset copies the two references
    [dataset.transform] and [dataset.classes] when it is built. *)
Definition Subset (ds : dataset) (indices : list nat) : result dataset :=
  let transform := get_transform ds in
  classes <~ get_classes ds ;;
  Ok (SubsetObj ds indices transform classes).

(** ** The statistics resolver *)

(** [_get_meanstd(dataset)].  The body reads [trainset], a name that the
    function does not bind (its parameter is [dataset]). *)
Definition _get_meanstd (W : World) (ds : dataset)
  : result (list pynum * list pynum) :=
  trainset <~ load_global "trainset" ;;
  Ok (torch_mean_std W trainset).

(** ** Auto-augmentation parameters *)

Definition str_in (s : string) (l : list string) : bool :=
  existsb (String.eqb s) l.

(** [sub in s] on strings *)
Fixpoint substring_in (sub s : string) : bool :=
  String.prefix sub s ||
  match s with
  | EmptyString => false
  | String _ s' => substring_in sub s'
  end.

(** [for x in mean] inside a comprehension: [None] is not iterable. *)
Definition py_iter {A} (v : option (list A)) : result (list A) :=
  match v with
  | Some l => Ok l
  | None => Raise TypeError
  end.

(** [int(img_size_min * 0.45)] *)
Definition translate_of (img_size_min : Z) : result Z :=
  p <~ py_mul (PInt img_size_min) (PFloat PyFloat.f0_45) ;; py_int p.

(** [min(255, round(255 * x))] *)
Definition img_mean_channel (x : pynum) : result Z :=
  y <~ py_mul (PInt 255) x ;;
  r <~ py_round y ;;
  Ok (Z.min 255 r).

(** The [aa_params] dict of [_get_autoaugment_timm]:
    [translate_const=int(img_size_min * 0.45)] and
    [img_mean=tuple([min(255, round(255 * x)) for x in mean])]. *)
Definition timm_aa_params (img_size_min : Z) (mean : option (list pynum))
  : result aa_params :=
  tc <~ translate_of img_size_min ;;
  xs <~ py_iter mean ;;
  im <~ mapM img_mean_channel xs ;;
  Ok {| translate_const := tc; img_mean := im; translate_pct := None |}.

(** [_get_autoaugment_timm(auto_augment, img_size_min, mean)].

    Modelled from the spec: [rand_augment_transform],
    [augment_and_mix_transform] and [auto_augment_transform] come from
    auto_augment.py, which is not among the sources; each "resolves to a
    policy-driven composite operation" built from the configuration string
    and [aa_params], kept here as a constructor of [transform]. *)
Definition _get_autoaugment_timm (auto_augment : pyval) (img_size_min : Z)
    (mean : option (list pynum)) : result transform :=
  match auto_augment with
  | VStr s =>
      aa <~ timm_aa_params img_size_min mean ;;
      if String.prefix "rand" s then Ok (rand_augment_transform s aa)
      else if String.prefix "augmix" s then
        Ok (augment_and_mix_transform s
              {| translate_const := translate_const aa;
                 img_mean := img_mean aa;
                 translate_pct := Some PyFloat.f0_3 |})
      else Ok (auto_augment_transform s aa)
  | _ => Raise AssertionError
  end.

(** [_get_autoaugment_torchvision(type, auto_augment_policy)] *)
Definition _get_autoaugment_torchvision (type : string) (auto_augment_policy : pyval)
  : result transform :=
  match auto_augment_policy with
  | VStr p =>
      if str_in p ["IMAGENET"; "CIFAR10"; "SVHN"]%string then
        if substring_in "AutoAugment" type then Ok (tvAutoAugment p)
        else if substring_in "RandAugment" type then Ok tvRandAugment
        else Raise (ValueError "Invalid torchvision auto augmentation.")
      else Raise AssertionError
  | _ => Raise AssertionError
  end.

(** ** The augmentation pipeline builder *)

(** [getattr(transforms, key)] *)
Definition transforms_getattr (W : World) (key : string) : result unit :=
  if transforms_hasattr W key then Ok tt else Raise (AttributeError key).

(** The last branch of the dispatch:
    [[
    try:
        transform = getattr(transforms, key)( *cfg_dict[key])
    except TypeError:
        transform = getattr(transforms, key)(cfg_dict[key])
    ]] *)
Definition torchvision_by_name (W : World) (key : string) (v : pyval)
  : result transform :=
  let unpacked :=
    _ <~ transforms_getattr W key ;;
    args <~ py_unpack v ;;
    _ <~ transforms_call W key args ;;
    Ok (TorchvisionTransform key args) in
  match unpacked with
  | Raise TypeError =>
      _ <~ transforms_getattr W key ;;
      _ <~ transforms_call W key [v] ;;
      Ok (TorchvisionTransform key [v])
  | r => r
  end.

(** The body of the loop of [_parse_cfg_dict]: one mapping entry to one
    transform.

    Modelled from the spec: [Cutout] comes from cutout.py, which is not
    among the sources: "a masking operation taking the spec's parameters
    as positional arguments plus the normalization mean as mask-fill
    color". *)
Definition parse_entry (W : World) (cfg : cfg_data) (key : string) (v : pyval)
  : result transform :=
  if str_in key ["RandAugment"; "AutoAugment"; "AugMix"]%string then
    _get_autoaugment_timm v (data_pixels cfg) (data_mean cfg)
  else if str_in key ["tvRandAugment"; "tvAutoAugment"]%string then
    _get_autoaugment_torchvision key v
  else if String.eqb key "ToRGB" then Ok ToRGB
  else if String.eqb key "Resize" then Ok (Resize [v; v])
  else if String.eqb key "Cutout" then
    args <~ py_unpack v ;; Ok (Cutout args (data_mean cfg))
  else torchvision_by_name W key v.

(** [_parse_cfg_dict(cfg_dict)]: one transform per key, in the order of
    [cfg_dict.keys()]; nothing for a value without [keys]. *)
Definition _parse_cfg_dict (W : World) (cfg : cfg_data)
    (cfg_dict : option (list (string * pyval))) : result (list transform) :=
  match cfg_dict with
  | Some d => mapM (fun kv => parse_entry W cfg (fst kv) (snd kv)) d
  | None => Ok []
  end.

(** [_parse_data_augmentations(cfg_data, PIL_only=False)] *)
Definition _parse_data_augmentations (W : World) (cfg : cfg_data) (PIL_only : bool)
  : result (Compose * Compose) :=
  train_transforms <~ _parse_cfg_dict W cfg (data_augmentations_train cfg) ;;
  valid_transforms <~ _parse_cfg_dict W cfg (data_augmentations_val cfg) ;;
  let tail :=
    if PIL_only then []
    else ToTensor ::
         (if data_normalize cfg
          then [Normalize (data_mean cfg) (data_std cfg)] else []) in
  Ok (train_transforms ++ tail, valid_transforms ++ tail).

(** ** Building the datasets *)

(** A dict with string keys, in insertion order.  [d[k] = v] replaces the
    value of a key that is present and appends a new key. *)
Fixpoint dict_set {A} (d : list (string * A)) (k : string) (v : A)
  : list (string * A) :=
  match d with
  | [] => [(k, v)]
  | (k', v') :: d' =>
      if String.eqb k' k then (k', v) :: d' else (k', v') :: dict_set d' k v
  end.

(** A dataset constructor call: the files are looked up in the world and
    the object carries the [transform] it was given. *)
Definition open_vision (W : World) (cls : dataset_class) (root : string)
    (kwargs : list (string * pyval)) (transform : option Compose)
  : result dataset :=
  let call := {| oc_class := cls; oc_root := root; oc_kwargs := kwargs |} in
  info <~ open_dataset W call ;;
  Ok (VisionDataset call (info_len info) transform (info_classes info)).

Definition kw_download (can_download : bool) : string * pyval :=
  ("download"%string, VBool can_download).

(** [list(range(10))] *)
Definition range10 : list pyval :=
  map (fun i => VNum (PInt (Z.of_nat i))) (seq 0 10).

(** The dispatch on [cfg_data.name] of [_build_datasets]: the train and the
    validation dataset. *)
Definition open_primary (W : World) (cfg : cfg_data) (root : string)
    (can_download : bool) : result (dataset * dataset) :=
  let name := data_name cfg in
  let dl := kw_download can_download in
  let tt := Some [ToTensor] in
  if String.eqb name "CIFAR10" then
    trainset <~ open_vision W CIFAR10 root [("train", VBool true); dl]%string tt ;;
    validset <~ open_vision W CIFAR10 root [("train", VBool false); dl]%string None ;;
    Ok (trainset, validset)
  else if String.eqb name "MNIST" then
    trainset <~ open_vision W MNIST root [("train", VBool true); dl]%string tt ;;
    validset <~ open_vision W MNIST root [("train", VBool false); dl]%string None ;;
    Ok (trainset, validset)
  else if String.eqb name "EMNIST" then
    trainset <~ open_vision W EMNIST root
      [("split", VStr (data_split cfg)); ("train", VBool true); dl]%string tt ;;
    validset <~ open_vision W EMNIST root
      [("split", VStr (data_split cfg)); ("train", VBool false); dl]%string None ;;
    Ok (trainset, validset)
  else if String.eqb name "SVHN" then
    trainset <~ open_vision W SVHN root [("split", VStr "train"); dl]%string tt ;;
    validset <~ open_vision W SVHN root [("split", VStr "test"); dl]%string None ;;
    Ok (set_classes trainset range10, set_classes validset range10)
  else if String.eqb name "CINIC10" then
    trainset <~ open_vision W CINIC10 root
      [("split", VStr "train"); dl; ("deduplicate", VBool true)]%string tt ;;
    validset <~ open_vision W CINIC10 root
      [("split", VStr "valid"); dl; ("deduplicate", VBool true)]%string tt ;;
    Ok (trainset, validset)
  else if String.eqb name "CIFAR100" then
    trainset <~ open_vision W CIFAR100 root [("train", VBool true); dl]%string tt ;;
    validset <~ open_vision W CIFAR100 root [("train", VBool false); dl]%string None ;;
    Ok (trainset, validset)
  else if String.eqb name "ImageNet" then
    trainset <~ open_vision W ImageNet root [("split", VStr "train")]%string tt ;;
    validset <~ open_vision W ImageNet root [("split", VStr "val")]%string None ;;
    Ok (trainset, validset)
  else if String.eqb name "TinyImageNet" then
    trainset <~ open_vision W TinyImageNet root
      [("split", VStr "train"); dl; ("cached", VBool true)]%string tt ;;
    validset <~ open_vision W TinyImageNet root
      [("split", VStr "val"); dl; ("cached", VBool true)]%string None ;;
    Ok (trainset, validset)
  else Raise (ValueError "Invalid dataset provided.").

(** The body of the loop over [cfg_data.extra_validation]. *)
Definition open_extra_validset (W : World) (root : string) (can_download : bool)
    (valid_transforms : Compose) (extra_valid_name : string) : result dataset :=
  let dl := kw_download can_download in
  if String.eqb extra_valid_name "CINIC10" then
    open_vision W CINIC10 root
      [("split", VStr "valid"); dl; ("deduplicate", VBool true)]%string
      (Some valid_transforms)
  else if String.eqb extra_valid_name "CIFAR10-C" then
    open_vision W CIFAR10C root
      [("split", VStr "valid"); dl; ("severity", VNum (PInt 3))]%string
      (Some valid_transforms)
  else if String.eqb extra_valid_name "CIFAR10" then
    open_vision W CIFAR10 root [("train", VBool false); dl]%string
      (Some valid_transforms)
  else Raise (ValueError "Invalid extra validation set given.").

Fixpoint extra_validation_loop (W : World) (root : string) (can_download : bool)
    (valid_transforms : Compose) (names : list string)
    (validsets : list (string * dataset)) : result (list (string * dataset)) :=
  match names with
  | [] => Ok validsets
  | extra_valid_name :: names' =>
      extra_validset <~
        open_extra_validset W root can_download valid_transforms extra_valid_name ;;
      extra_validation_loop W root can_download valid_transforms names'
        (dict_set validsets extra_valid_name extra_validset)
  end.

(** The seed of the deterministic subset draw. *)
Definition subset_seed : Z := 89.

(** The last block of [_build_datasets]: the random reduction of the train
    set to [cfg_data.size] samples. *)
Definition reduce_trainset (W : World) (cfg : cfg_data) (trainset : dataset)
  : result dataset :=
  if data_size cfg <? Z.of_nat (len trainset) then
    let generator :=
      if data_deterministic_subsets cfg then manual_seed W subset_seed
      else default_generator W in
    let indices := randperm W generator (len trainset) in
    Subset trainset (py_slice_to indices (data_size cfg))
  else Ok trainset.

(** The statistics resolver of [_build_datasets]:
    [[
    if cfg_data.mean is None:
        data_mean, data_std = _get_meanstd(trainset)
    else:
        data_mean, data_std = cfg_data.mean, cfg_data.std
    ]] *)
Definition resolve_stats (W : World) (cfg : cfg_data) (trainset : dataset)
  : result (option (list pynum) * option (list pynum)) :=
  match data_mean cfg with
  | None => '(m, s) <~ _get_meanstd W trainset ;; Ok (Some m, Some s)
  | Some _ => Ok (data_mean cfg, data_std cfg)
  end.

(** [_build_datasets(cfg_data, can_download=True)].  The resolved
    [data_mean] and [data_std] are not read again. *)
Definition _build_datasets (W : World) (cfg : cfg_data) (can_download : bool)
  : result (dataset * list (string * dataset)) :=
  let path := expanduser W (data_path cfg) in
  '(trainset, validset) <~ open_primary W cfg path can_download ;;
  '(data_mean, data_std) <~ resolve_stats W cfg trainset ;;
  '(train_transforms, valid_transforms) <~
    _parse_data_augmentations W cfg false ;;
  let trainset := set_transform trainset (Some train_transforms) in
  let validset := set_transform validset (Some valid_transforms) in
  let validsets := [(data_name cfg, validset)] in
  validsets <~
    extra_validation_loop W path can_download valid_transforms
      (data_extra_validation cfg) validsets ;;
  trainset <~ reduce_trainset W cfg trainset ;;
  Ok (trainset, validsets).

(** ** Samplers and data loaders (torch.utils.data) *)

Inductive sampler : Type :=
| DistributedSamplerObj (ds : dataset) (num_replicas rank : Z) (shuffle : bool)
| RandomSamplerObj (ds : dataset) (replacement : bool)
| SequentialSampler (ds : dataset).

(** [DistributedSampler(dataset, shuffle=...)]: the number of replicas and
    the rank are read from the process group, which must exist. *)
Definition DistributedSampler (W : World) (ds : dataset) (shuffle : bool)
  : result sampler :=
  if negb (dist_is_initialized W) then
    Raise (RuntimeError "Default process group has not been initialized")
  else
    let num_replicas := dist_get_world_size W in
    let rank := dist_get_rank W in
    if (num_replicas <=? rank) || (rank <? 0) then
      Raise (ValueError "Invalid rank")
    else Ok (DistributedSamplerObj ds num_replicas rank shuffle).

(** [RandomSampler(dataset, replacement=...)]: refuses an empty data
    source. *)
Definition RandomSampler (ds : dataset) (replacement : bool) : result sampler :=
  if (len ds =? 0)%nat then
    Raise (ValueError "num_samples should be a positive integer value")
  else Ok (RandomSamplerObj ds replacement).

Record dataloader : Type := {
  dl_dataset : dataset;
  dl_batch_size : Z;
  dl_sampler : sampler;
  dl_drop_last : bool;
  dl_num_workers : Z;
  dl_pin_memory : bool;
  dl_persistent_workers : bool;
}.

(** [DataLoader(dataset, batch_size=..., sampler=..., drop_last=..., ...)] *)
Definition DataLoader (ds : dataset) (batch_size : Z) (smp : sampler)
    (drop_last : bool) (num_workers : Z) (pin_memory persistent_workers : bool)
  : result dataloader :=
  if num_workers <? 0 then
    Raise (ValueError "num_workers option should be non-negative")
  else if persistent_workers && (num_workers =? 0) then
    Raise (ValueError "persistent_workers option needs num_workers > 0")
  else if batch_size <=? 0 then
    Raise (ValueError "batch_size should be a positive integer value")
  else
    Ok {| dl_dataset := ds; dl_batch_size := batch_size; dl_sampler := smp;
          dl_drop_last := drop_last; dl_num_workers := num_workers;
          dl_pin_memory := pin_memory;
          dl_persistent_workers := persistent_workers |}.

(** [math.ceil(a / b)] on naturals *)
Definition ceil_div (a b : nat) : nat := ((a + b - 1) / b)%nat.

(** [l[start::step]] *)
Fixpoint every_nth_aux (step : nat) (skip : nat) (l : list nat) : list nat :=
  match l with
  | [] => []
  | x :: l' =>
      match skip with
      | O => x :: every_nth_aux step (step - 1) l'
      | S k => every_nth_aux step k l'
      end
  end.

Definition py_slice_step (l : list nat) (start step : nat) : list nat :=
  every_nth_aux step start l.

(** The index sequence a sampler yields in one pass, in epoch [epoch] of a
    distributed sampler (whose seed is 0). *)
Definition sampler_indices (W : World) (epoch : Z) (s : sampler) : list nat :=
  match s with
  | SequentialSampler ds => seq 0 (len ds)
  | RandomSamplerObj ds replacement =>
      let n := len ds in
      if replacement
      then map (randint_at W (default_generator W) n) (seq 0 n)
      else randperm W (default_generator W) n
  | DistributedSamplerObj ds num_replicas rank shuffle =>
      let n := len ds in
      let k := Z.to_nat num_replicas in
      let indices :=
        if shuffle then randperm W (manual_seed W (0 + epoch)) n else seq 0 n in
      let num_samples := ceil_div n k in
      let total_size := (num_samples * k)%nat in
      let padding_size := (total_size - n)%nat in
      let padded :=
        if (padding_size <=? n)%nat then indices ++ take padding_size indices
        else indices ++
             take padding_size
               (concat (replicate (ceil_div padding_size n) indices)) in
      py_slice_step (take total_size padded) (Z.to_nat rank) k
  end.

(** [BatchSampler.__iter__]: indices are collected into a batch, a full
    batch is yielded, and what is left at the end is yielded only without
    [drop_last]. *)
Fixpoint batch_sampler (batch_size : nat) (drop_last : bool)
    (indices : list nat) (batch : list nat) : list (list nat) :=
  match indices with
  | [] => if negb drop_last && (0 <? length batch)%nat then [batch] else []
  | idx :: indices' =>
      let batch' := batch ++ [idx] in
      if (length batch' =? batch_size)%nat
      then batch' :: batch_sampler batch_size drop_last indices' []
      else batch_sampler batch_size drop_last indices' batch'
  end.

(** The batches (as index lists) of one full pass over a loader. *)
Definition iter_batches (W : World) (epoch : Z) (dl : dataloader)
  : list (list nat) :=
  batch_sampler (Z.to_nat (dl_batch_size dl)) (dl_drop_last dl)
    (sampler_indices W epoch (dl_sampler dl)) [].

(** The number of batches of one pass, and the number of full batches the
    dataset of the loader holds: [floor(dataset_length / batch_size)]. *)
Definition batches_per_pass (W : World) (epoch : Z) (dl : dataloader) : nat :=
  length (iter_batches W epoch dl).



(** ** [construct_dataloader] *)

(** [{k: CachedDataset(validset, ...) for k, v in validsets.items()}]: the
    value expression reads [validset], a local variable of
    [construct_dataloader] that only the [for] statement further down
    binds; [validset_cell] is that variable when the comprehension runs. *)
Definition cache_validsets (validset_cell : option dataset)
    (num_workers : Z) (pin_memory : bool) (validsets : list (string * dataset))
  : result (list (string * dataset)) :=
  mapM (fun kv : string * dataset =>
          let k := fst kv in
          validset <~ load_deref "validset" validset_cell ;;
          Ok (k, CachedDataset validset num_workers pin_memory))
       validsets.

(** [{k: Subset(v, torch.arange(0, n)) for k, v in validsets.items()}] *)
Definition truncate_validsets (n : Z) (validsets : list (string * dataset))
  : result (list (string * dataset)) :=
  mapM (fun kv : string * dataset =>
          indices <~ arange n ;;
          s <~ Subset (snd kv) indices ;; Ok (fst kv, s))
       validsets.

(** The loop that builds the validation loaders. *)
Fixpoint validloaders_loop (cfg : cfg_data) (impl : cfg_impl) (num_workers : Z)
    (items : list (string * dataset)) (validloaders : list (string * dataloader))
  : result (list (string * dataloader)) :=
  match items with
  | [] => Ok validloaders
  | (name, validset) :: items' =>
      validloader <~
        DataLoader validset
          (Z.min (data_batch_size cfg) (Z.of_nat (len validset)))
          (SequentialSampler validset) true num_workers
          (impl_pin_memory impl) false ;;
      validloaders_loop cfg impl num_workers items'
        (dict_set validloaders name validloader)
  end.

(** The two local variables of [construct_dataloader] that the wrapper
    statements reassign. *)
Record locals : Type := {
  trainset : dataset;
  validsets : list (string * dataset);
}.

(** [if cfg_data.db.name == "LMDB": trainset = LMDBDataset(trainset, ...)].
    The barrier of [main_process_first] orders processes and is not part
    of this single-process view. *)
Definition wrap_lmdb (W : World) (cfg : cfg_data) (st : locals) : locals :=
  if bool_decide (db_name (data_db cfg) = Some "LMDB"%string) then
    let can_create := negb (dist_is_initialized W) || (dist_get_rank W =? 0) in
    {| trainset := LMDBDataset (trainset st) (data_db cfg) "train" can_create;
       validsets := validsets st |}
  else st.

(** [num_machines] of the dry run *)
Definition num_machines (W : World) : Z :=
  if dist_is_initialized W then dist_get_world_size W else 1.

(** [if dryrun: trainset = Subset(...); validsets = {...}] *)
Definition wrap_dryrun (W : World) (cfg : cfg_data) (dryrun : bool) (st : locals)
  : result locals :=
  if dryrun then
    indices <~ arange (data_batch_size cfg * num_machines W) ;;
    t <~ Subset (trainset st) indices ;;
    vs <~ truncate_validsets (data_batch_size cfg * num_machines W) (validsets st) ;;
    Ok {| trainset := t; validsets := vs |}
  else Ok st.

(** [if cfg_data.caching:], first statement:
    [trainset = CachedDataset(trainset, ...)] *)
Definition wrap_caching_train (cfg : cfg_data) (impl : cfg_impl) (st : locals)
  : locals :=
  if data_caching cfg then
    {| trainset :=
         CachedDataset (trainset st) (impl_threads impl) (impl_pin_memory impl);
       validsets := validsets st |}
  else st.

(** [if cfg_data.caching:], second statement: [validsets = {...}].  The
    local variable [validset] is still unbound here. *)
Definition wrap_caching_valid (cfg : cfg_data) (impl : cfg_impl) (st : locals)
  : result locals :=
  if data_caching cfg then
    vs <~ cache_validsets None (impl_threads impl) (impl_pin_memory impl)
            (validsets st) ;;
    Ok {| trainset := trainset st; validsets := vs |}
  else Ok st.

(** [num_workers] *)
Definition choose_num_workers (W : World) (impl : cfg_impl) : Z :=
  if (0 <? impl_threads impl) && (1 <? torch_get_num_threads W) then
    Z.min (torch_get_num_threads W) (impl_threads impl)
    / Z.max 1 (cuda_device_count W)
  else 0.

(** [train_sampler] *)
Definition choose_train_sampler (W : World) (impl : cfg_impl) (hyp : cfg_hyp)
    (ds : dataset) : result sampler :=
  if impl_setup_dist impl then DistributedSampler W ds (hyp_shuffle hyp)
  else if hyp_shuffle hyp then
    RandomSampler ds (hyp_sample_with_replacement hyp)
  else Ok (SequentialSampler ds).

(** [construct_dataloader(cfg_data, cfg_impl, cfg_hyp, dryrun=False)] *)
Definition construct_dataloader (W : World) (cfg : cfg_data) (impl : cfg_impl)
    (hyp : cfg_hyp) (dryrun : bool)
  : result (dataloader * list (string * dataloader)) :=
  '(t0, vs0) <~ _build_datasets W cfg (negb (impl_setup_dist impl)) ;;
  let st := wrap_lmdb W cfg {| trainset := t0; validsets := vs0 |} in
  st <~ wrap_dryrun W cfg dryrun st ;;
  let st := wrap_caching_train cfg impl st in
  st <~ wrap_caching_valid cfg impl st ;;
  let num_workers := choose_num_workers W impl in
  train_sampler <~ choose_train_sampler W impl hyp (trainset st) ;;
  trainloader <~
    DataLoader (trainset st)
      (Z.min (data_batch_size cfg) (Z.of_nat (len (trainset st))))
      train_sampler true num_workers (impl_pin_memory impl)
      (if 0 <? num_workers then impl_persistent_workers impl else false) ;;
  validloaders <~ validloaders_loop cfg impl num_workers (validsets st) [] ;;
  Ok (trainloader, validloaders).

(** ** The dataset constructor calls

    [_build_datasets] once more, with the dataset constructor calls it
    makes written down in the order they are made.  A call is written
    down when it is made, also when it raises, and nothing is called after
    an exception.  [construct_dataloader] calls dataset constructors only
    through [_build_datasets], its first statement. *)
Definition logged (A : Type) : Type := (list open_call * result A)%type.

Definition lbind {A B} (m : logged A) (k : A -> logged B) : logged B :=
  match snd m with
  | Ok a => (fst m ++ fst (k a), snd (k a))
  | Raise e => (fst m, Raise e)
  end.

(** A step that calls no constructor. *)
Definition unlogged {A} (r : result A) : logged A := ([], r).

Definition open_vision_logged (W : World) (cls : dataset_class) (root : string)
    (kwargs : list (string * pyval)) (transform : option Compose)
  : logged dataset :=
  ([{| oc_class := cls; oc_root := root; oc_kwargs := kwargs |}],
   open_vision W cls root kwargs transform).

(** One branch of the dispatch: the train set is opened, then the
    validation set. *)
Definition open_two_logged (W : World) (cls : dataset_class) (root : string)
    (kw_train : list (string * pyval)) (tr_train : option Compose)
    (kw_valid : list (string * pyval)) (tr_valid : option Compose)
  : logged (dataset * dataset) :=
  lbind (open_vision_logged W cls root kw_train tr_train) (fun trainset =>
  lbind (open_vision_logged W cls root kw_valid tr_valid) (fun validset =>
  unlogged (Ok (trainset, validset)))).

Definition open_primary_logged (W : World) (cfg : cfg_data) (root : string)
    (can_download : bool) : logged (dataset * dataset) :=
  let name := data_name cfg in
  let dl := kw_download can_download in
  let tt := Some [ToTensor] in
  if String.eqb name "CIFAR10" then
    open_two_logged W CIFAR10 root
      [("train", VBool true); dl]%string tt
      [("train", VBool false); dl]%string None
  else if String.eqb name "MNIST" then
    open_two_logged W MNIST root
      [("train", VBool true); dl]%string tt
      [("train", VBool false); dl]%string None
  else if String.eqb name "EMNIST" then
    open_two_logged W EMNIST root
      [("split", VStr (data_split cfg)); ("train", VBool true); dl]%string tt
      [("split", VStr (data_split cfg)); ("train", VBool false); dl]%string None
  else if String.eqb name "SVHN" then
    lbind (open_two_logged W SVHN root
             [("split", VStr "train"); dl]%string tt
             [("split", VStr "test"); dl]%string None) (fun tv =>
    unlogged (Ok (set_classes (fst tv) range10, set_classes (snd tv) range10)))
  else if String.eqb name "CINIC10" then
    open_two_logged W CINIC10 root
      [("split", VStr "train"); dl; ("deduplicate", VBool true)]%string tt
      [("split", VStr "valid"); dl; ("deduplicate", VBool true)]%string tt
  else if String.eqb name "CIFAR100" then
    open_two_logged W CIFAR100 root
      [("train", VBool true); dl]%string tt
      [("train", VBool false); dl]%string None
  else if String.eqb name "ImageNet" then
    open_two_logged W ImageNet root
      [("split", VStr "train")]%string tt
      [("split", VStr "val")]%string None
  else if String.eqb name "TinyImageNet" then
    open_two_logged W TinyImageNet root
      [("split", VStr "train"); dl; ("cached", VBool true)]%string tt
      [("split", VStr "val"); dl; ("cached", VBool true)]%string None
  else unlogged (Raise (ValueError "Invalid dataset provided.")).

Definition open_extra_validset_logged (W : World) (root : string)
    (can_download : bool) (valid_transforms : Compose)
    (extra_valid_name : string) : logged dataset :=
  let dl := kw_download can_download in
  if String.eqb extra_valid_name "CINIC10" then
    open_vision_logged W CINIC10 root
      [("split", VStr "valid"); dl; ("deduplicate", VBool true)]%string
      (Some valid_transforms)
  else if String.eqb extra_valid_name "CIFAR10-C" then
    open_vision_logged W CIFAR10C root
      [("split", VStr "valid"); dl; ("severity", VNum (PInt 3))]%string
      (Some valid_transforms)
  else if String.eqb extra_valid_name "CIFAR10" then
    open_vision_logged W CIFAR10 root [("train", VBool false); dl]%string
      (Some valid_transforms)
  else unlogged (Raise (ValueError "Invalid extra validation set given.")).

Fixpoint extra_validation_loop_logged (W : World) (root : string)
    (can_download : bool) (valid_transforms : Compose) (names : list string)
    (validsets : list (string * dataset)) : logged (list (string * dataset)) :=
  match names with
  | [] => unlogged (Ok validsets)
  | extra_valid_name :: names' =>
      lbind (open_extra_validset_logged W root can_download valid_transforms
               extra_valid_name) (fun extra_validset =>
      extra_validation_loop_logged W root can_download valid_transforms names'
        (dict_set validsets extra_valid_name extra_validset))
  end.

Definition _build_datasets_logged (W : World) (cfg : cfg_data)
    (can_download : bool) : logged (dataset * list (string * dataset)) :=
  let path := expanduser W (data_path cfg) in
  lbind (open_primary_logged W cfg path can_download) (fun tv =>
  lbind (unlogged (resolve_stats W cfg (fst tv))) (fun _ =>
  lbind (unlogged (_parse_data_augmentations W cfg false)) (fun tfs =>
  let trainset := set_transform (fst tv) (Some (fst tfs)) in
  let validset := set_transform (snd tv) (Some (snd tfs)) in
  let validsets := [(data_name cfg, validset)] in
  lbind (extra_validation_loop_logged W path can_download (snd tfs)
           (data_extra_validation cfg) validsets) (fun validsets =>
  lbind (unlogged (reduce_trainset W cfg trainset)) (fun trainset =>
  unlogged (Ok (trainset, validsets))))))).

(** The dataset constructor calls [construct_dataloader] makes, in order,
    whether it returns or not. *)
Definition construct_dataloader_calls (W : World) (cfg : cfg_data)
    (impl : cfg_impl) : list open_call :=
  fst (_build_datasets_logged W cfg (negb (impl_setup_dist impl))).

(** The [download] keyword a constructor call has to carry: none for the
    ImageNet class, [can_download] for every other class. *)
Definition download_of_call (can_download : bool) (call : open_call)
  : option pyval :=
  match oc_class call with
  | ImageNet => None
  | _ => Some (VBool can_download)
  end.

(** ** Applying a pipeline *)

(** One stage applied to a sample.  [Resize] with an integer size forces
    that height and width; [ToRGB] calls [convert] of a PIL image;
    [ToTensor] accepts a PIL image only and [Normalize] a tensor only, and
    [Normalize] converts its statistics with [torch.as_tensor], which
    refuses [None]. *)
Definition apply_transform (W : World) (t : transform) (x : sample)
  : result sample :=
  match t with
  | Resize [VNum (PInt h); VNum (PInt w)] =>
      Ok {| kind := kind x; height := h; width := w; is_rgb := is_rgb x |}
  | Resize _ => Raise TypeError
  | ToRGB =>
      match kind x with
      | PILImage =>
          Ok {| kind := PILImage; height := height x; width := width x;
                is_rgb := true |}
      | TensorSample => Raise (AttributeError "convert")
      end
  | ToTensor =>
      match kind x with
      | PILImage =>
          Ok {| kind := TensorSample; height := height x; width := width x;
                is_rgb := is_rgb x |}
      | TensorSample => Raise TypeError
      end
  | Normalize mean std =>
      match kind x with
      | TensorSample =>
          match mean, std with
          | Some _, Some _ => Ok x
          | _, _ => Raise TypeError
          end
      | PILImage => Raise TypeError
      end
  | _ => apply_external W t x
  end.

(** [Compose.__call__]: the stages in list order. *)
Fixpoint apply_compose (W : World) (ts : Compose) (x : sample) : result sample :=
  match ts with
  | [] => Ok x
  | t :: ts' => y <~ apply_transform W t x ;; apply_compose W ts' y
  end.

(** The sample after each stage of the pipeline, in order. *)
Fixpoint compose_trace (W : World) (ts : Compose) (x : sample)
  : result (list sample) :=
  match ts with
  | [] => Ok []
  | t :: ts' =>
      y <~ apply_transform W t x ;;
      ys <~ compose_trace W ts' y ;;
      Ok (y :: ys)
  end.



(** ** Reading samples *)

(** [dataset[i]].  An opened dataset reads sample [i] from its files and
    runs its [transform] on it; a [Subset] reads
    [self.dataset[self.indices[i]]], so it is the transform of the wrapped
    dataset that runs, and an index past the end raises [IndexError].

    Modelled from the spec: [LMDBDataset] and [CachedDataset] serve the
    sample of the dataset they wrap: "intercepting indexed access to
    serve from a cache or a durable store keyed by index, falling back to
    the wrapped dataset on miss". *)
Fixpoint getitem (W : World) (d : dataset) (i : nat) : result sample :=
  match d with
  | VisionDataset call n transform _ =>
      if (i <? n)%nat then
        match transform with
        | Some ts => apply_compose W ts (read_sample W call i)
        | None => Ok (read_sample W call i)
        end
      else Raise IndexError
  | SubsetObj d' indices _ _ =>
      match indices !! i with
      | Some j => getitem W d' j
      | None => Raise IndexError
      end
  | LMDBDataset d' _ _ _ => getitem W d' i
  | CachedDataset d' _ _ => getitem W d' i
  end.

(** One batch of a loader: the samples of its indices, fetched in order
    and collated. *)
Definition fetch_batch (W : World) (d : dataset) (batch : list nat)
  : result (list sample) :=
  samples <~ mapM (getitem W d) batch ;;
  _ <~ default_collate W samples ;;
  Ok samples.

(** One full pass over a loader: every batch of the batch sampler is
    fetched, and the first batch that cannot be fetched ends the pass with
    its exception. *)
Definition run_pass (W : World) (epoch : Z) (dl : dataloader)
  : result (list (list sample)) :=
  mapM (fetch_batch W (dl_dataset dl)) (iter_batches W epoch dl).

(** Every batch of a pass can be fetched. *)
Definition fetchable (W : World) (epoch : Z) (dl : dataloader) : Prop :=
  Forall (fun batch => is_ok (fetch_batch W (dl_dataset dl) batch) = true)
    (iter_batches W epoch dl).

(** A pass that completes, with [n] batches of the batch size each. *)
Definition pass_yields (W : World) (epoch : Z) (dl : dataloader) (n : nat)
  : Prop :=
  exists batches,
    run_pass W epoch dl = Ok batches
    /\ length batches = n
    /\ Forall (fun b => length b = Z.to_nat (dl_batch_size dl)) batches.

(** What a pass over a loader comes to, for a number [n] of batches: it
    completes exactly when every batch can be fetched, and then it yields
    [n] batches of the batch size each. *)
Definition pass_spec (W : World) (epoch : Z) (dl : dataloader) (n : nat)
  : Prop :=
  (fetchable W epoch dl -> pass_yields W epoch dl n)
  /\ (forall batches,
        run_pass W epoch dl = Ok batches ->
        fetchable W epoch dl /\ length batches = n).

(** ** Reading the wrapper layers off a dataset *)

Inductive layer : Type :=
| LayerSubset (indices : list nat)
| LayerLMDB
| LayerCached.

(** The wrappers around the opened dataset, the innermost (the one applied
    first) at the head. *)
Fixpoint layers (d : dataset) : list layer :=
  match d with
  | VisionDataset _ _ _ _ => []
  | SubsetObj d' indices _ _ => layers d' ++ [LayerSubset indices]
  | LMDBDataset d' _ _ _ => layers d' ++ [LayerLMDB]
  | CachedDataset d' _ _ => layers d' ++ [LayerCached]
  end.

(** The opened dataset underneath all wrappers. *)
Fixpoint base_of (d : dataset) : dataset :=
  match d with
  | VisionDataset _ _ _ _ => d
  | SubsetObj d' _ _ _ => base_of d'
  | LMDBDataset d' _ _ _ => base_of d'
  | CachedDataset d' _ _ => base_of d'
  end.

(** The [download] keyword of the constructor call that opened the
    dataset, if the call has one. *)
Fixpoint kw_lookup (k : string) (kwargs : list (string * pyval)) : option pyval :=
  match kwargs with
  | [] => None
  | (k', v) :: kwargs' => if String.eqb k' k then Some v else kw_lookup k kwargs'
  end.

Definition download_flag (d : dataset) : option pyval :=
  match base_of d with
  | VisionDataset call _ _ _ => kw_lookup "download" (oc_kwargs call)
  | _ => None
  end.

(** The [download] keyword [_build_datasets] passes for the dataset it
    stores under [key]: [can_download], except for ImageNet, whose
    constructor is called without the keyword. *)
Definition passed_download (can_download : bool) (key : string) : option pyval :=
  if String.eqb key "ImageNet" then None else Some (VBool can_download).

(** Every entry of a mapping of datasets was opened with the keyword
    passed for its key. *)
Definition flags_ok (can_download : bool) (vs : list (string * dataset)) : Prop :=
  Forall (fun kv => download_flag (snd kv) = passed_download can_download (fst kv))
         vs.

(** A dataset as its constructor returns it, without any wrapper. *)
Definition is_base (d : dataset) : Prop :=
  match d with
  | VisionDataset _ _ _ _ => True
  | _ => False
  end.

(** The layers of the train dataset, each present or absent by
    configuration, for a train set opened with [n] samples. *)
Definition size_reduction_layer (W : World) (cfg : cfg_data) (n : nat) : list layer :=
  if data_size cfg <? Z.of_nat n then
    let generator :=
      if data_deterministic_subsets cfg then manual_seed W subset_seed
      else default_generator W in
    [LayerSubset (py_slice_to (randperm W generator n) (data_size cfg))]
  else [].

Definition lmdb_layer (cfg : cfg_data) : list layer :=
  if bool_decide (db_name (data_db cfg) = Some "LMDB"%string)
  then [LayerLMDB] else [].

Definition dryrun_layer (W : World) (cfg : cfg_data) (dryrun : bool) : list layer :=
  if dryrun
  then [LayerSubset (seq 0 (Z.to_nat (data_batch_size cfg * num_machines W)))]
  else [].

Definition caching_layer (cfg : cfg_data) : list layer :=
  if data_caching cfg then [LayerCached] else [].

(** The order in which the source applies the layers. *)
Definition source_layer_order (W : World) (cfg : cfg_data) (dryrun : bool)
    (n : nat) : list layer :=
  size_reduction_layer W cfg n ++ lmdb_layer cfg
  ++ dryrun_layer W cfg dryrun ++ caching_layer cfg.

(** The order of the specification, section 4.4: durable index, dry-run
    truncation, caching, and the size reduction last, drawn over the
    dataset as it is by then. *)
Definition spec_layer_order (W : World) (cfg : cfg_data) (dryrun : bool)
    (n : nat) : list layer :=
  let n' :=
    if dryrun then Z.to_nat (data_batch_size cfg * num_machines W) else n in
  lmdb_layer cfg ++ dryrun_layer W cfg dryrun ++ caching_layer cfg
  ++ size_reduction_layer W cfg n'.

(** ** The specification's reading of the auto-augmentation parameters *)

(** [round(0.45 * min_image_dimension)] *)
Definition spec_translate_const (img_size_min : Z) : result Z :=
  p <~ py_mul (PFloat PyFloat.f0_45) (PInt img_size_min) ;;
  py_round p.

(** [round(255 * channel_mean)] clamped to [[0, 255]] *)
Definition spec_img_mean_channel (x : pynum) : result Z :=
  y <~ py_mul (PInt 255) x ;;
  r <~ py_round y ;;
  Ok (Z.max 0 (Z.min 255 r)).

Definition spec_aa_params (img_size_min : Z) (mean : option (list pynum))
  : result aa_params :=
  tc <~ spec_translate_const img_size_min ;;
  xs <~ py_iter mean ;;
  im <~ mapM spec_img_mean_channel xs ;;
  Ok {| translate_const := tc; img_mean := im; translate_pct := None |}.

(** The hyper-parameters a TIMM-style operation was built with. *)
Definition hparams_of (t : transform) : option aa_params :=
  match t with
  | rand_augment_transform _ aa
  | augment_and_mix_transform _ aa
  | auto_augment_transform _ aa => Some aa
  | _ => None
  end.

(** A number that is not negative: an int [>= 0], or a float whose sign
    bit is clear. *)
Definition nonneg (x : pynum) : Prop :=
  match x with
  | PInt z => 0 <= z
  | PFloat f => PyFloat.sign_bit f = false
  end.

(** ** Bounded search *)

(** A boolean property holds for the [k] integers from [lo] on. *)
Fixpoint all_from (P : Z -> bool) (lo : Z) (k : nat) : bool :=
  match k with
  | O => true
  | S k' => P lo && all_from P (lo + 1) k'
  end.

(** The truncated double product is the floor of the exact [9 n / 20]. *)
Definition translate_is_floor (n : Z) : bool :=
  match translate_of n with
  | Ok v => v =? 9 * n / 20
  | Raise _ => false
  end.

(** ** Objects and attribute references

    The attributes [transform] and [classes] hold references to objects
    that the dataset and its subsets share.  In this module an object is
    its attribute dict, an attribute holds a reference, and [Subset] runs
    against the heap; the values [SubsetObj] carries above are what these
    references point to. *)

Module PyObj.

(** References to objects. *)
Abbreviation ref := positive.

(** An object is its attribute dict; the heap maps references to objects. *)
Abbreviation heap := (gmap positive (gmap string positive)).

(** [o.a] *)
Definition getattr (h : heap) (o : ref) (a : string) : result ref :=
  match h !! o with
  | Some attrs =>
      match attrs !! a with
      | Some r => Ok r
      | None => Raise (AttributeError a)
      end
  | None => Raise (AttributeError a)
  end.

(** [o.a = r] *)
Definition setattr (h : heap) (o : ref) (a : string) (r : ref) : heap :=
  match h !! o with
  | Some attrs => <[o := <[a := r]> attrs]> h
  | None => h
  end.

(** A new object without attributes. *)
Definition alloc (h : heap) : heap * ref :=
  let o := fresh (dom h) in (<[o := ∅]> h, o).

(** [Subset.__init__(self, dataset, indices)] *)
Definition Subset__init__ (h : heap) (self dataset indices : ref) : result heap :=
  let h := setattr h self "dataset" dataset in
  let h := setattr h self "indices" indices in
  t <~ getattr h dataset "transform" ;;
  let h := setattr h self "transform" t in
  c <~ getattr h dataset "classes" ;;
  let h := setattr h self "classes" c in
  Ok h.

(** [Subset(dataset, indices)] *)
Definition Subset (h : heap) (dataset indices : ref) : result (heap * ref) :=
  let '(h, self) := alloc h in
  h <~ Subset__init__ h self dataset indices ;;
  Ok (h, self).

End PyObj.

(** ** A concrete world and concrete configurations *)

Module Demo.

(** A single process with 105 training samples behind every dataset
    class, a generator whose permutation rotates by its state, and a
    transform namespace with two names. *)
Definition world : World := {|
  dist_is_initialized := false;
  dist_get_world_size := 1;
  dist_get_rank := 0;
  torch_get_num_threads := 4;
  cuda_device_count := 1;
  default_generator := 7;
  manual_seed := fun seed => seed;
  randperm_at := fun g n i => ((i + Z.to_nat g) mod n)%nat;
  randint_at := fun g n i => ((i * i + Z.to_nat g) mod n)%nat;
  expanduser := fun p => p;
  open_dataset := fun call =>
    Ok {| info_len := 105;
          info_classes := Some [VStr "cat"; VStr "dog"] |};
  transforms_hasattr := fun key =>
    str_in key ["RandomCrop"; "RandomHorizontalFlip"]%string;
  transforms_call := fun _ _ => Ok tt;
  read_sample := fun _ _ =>
    {| kind := PILImage; height := 32; width := 32; is_rgb := false |};
  torch_mean_std := fun _ => ([], []);
  apply_external := fun _ x => Ok x;
  default_collate := fun _ => Ok tt;
|}.

(** The same machine as one of two processes of a process group. *)
Definition world_dist (rank : Z) : World := {|
  dist_is_initialized := true;
  dist_get_world_size := 2;
  dist_get_rank := rank;
  torch_get_num_threads := torch_get_num_threads world;
  cuda_device_count := cuda_device_count world;
  default_generator := default_generator world;
  manual_seed := manual_seed world;
  randperm_at := randperm_at world;
  randint_at := randint_at world;
  expanduser := expanduser world;
  open_dataset := open_dataset world;
  transforms_hasattr := transforms_hasattr world;
  transforms_call := transforms_call world;
  read_sample := read_sample world;
  torch_mean_std := torch_mean_std world;
  apply_external := apply_external world;
  default_collate := default_collate world;
|}.

Definition half : pynum := PFloat PyFloat.f0_5.

(** A configuration with the train pipeline [{"Resize": 64, "ToRGB": {}}],
    normalization, batches of 32 and deterministic subsets. *)
Definition config (name : string) (mean : option (list pynum)) (size : Z)
    (caching : bool) (db : option string) : cfg_data := {|
  data_name := name;
  data_path := "~/data";
  data_split := "";
  data_pixels := 32;
  data_mean := mean;
  data_std := mean;
  data_augmentations_train :=
    Some [("Resize"%string, VNum (PInt 64)); ("ToRGB"%string, VDict [])];
  data_augmentations_val := Some [];
  data_normalize := true;
  data_size := size;
  data_deterministic_subsets := true;
  data_extra_validation := [];
  data_batch_size := 32;
  data_caching := caching;
  data_db := {| db_name := db; db_rounds := 1 |};
|}.

Definition stats : option (list pynum) := Some [half; half; half].

(** CIFAR10, explicit statistics, nothing wrapped. *)
Definition data : cfg_data := config "CIFAR10" stats 1000 false None.

(** No explicit statistics. *)
Definition data_no_mean : cfg_data := config "CIFAR10" None 1000 false None.

(** Caching enabled. *)
Definition data_caching_on : cfg_data := config "CIFAR10" stats 1000 true None.

(** A train set reduced to 10 samples behind an LMDB store. *)
Definition data_reduced : cfg_data :=
  config "CIFAR10" stats 10 false (Some "LMDB"%string).


(** The same reduction with [deterministic_subsets] off. *)
Definition data_unseeded : cfg_data := {|
  data_name := data_name data_reduced;
  data_path := data_path data_reduced;
  data_split := data_split data_reduced;
  data_pixels := data_pixels data_reduced;
  data_mean := data_mean data_reduced;
  data_std := data_std data_reduced;
  data_augmentations_train := data_augmentations_train data_reduced;
  data_augmentations_val := data_augmentations_val data_reduced;
  data_normalize := data_normalize data_reduced;
  data_size := data_size data_reduced;
  data_deterministic_subsets := false;
  data_extra_validation := data_extra_validation data_reduced;
  data_batch_size := data_batch_size data_reduced;
  data_caching := data_caching data_reduced;
  data_db := data_db data_reduced;
|}.

(** ImageNet. *)
Definition data_imagenet : cfg_data := config "ImageNet" stats 1000 false None.

Definition impl_of (setup_dist : bool) : cfg_impl := {|
  impl_threads := 0;
  impl_pin_memory := true;
  impl_persistent_workers := false;
  impl_setup_dist := setup_dist;
|}.

Definition impl : cfg_impl := impl_of false.

Definition hyp : cfg_hyp := {|
  hyp_shuffle := false;
  hyp_sample_with_replacement := false;
|}.

(** A heap with a dataset object 1 whose [transform] is object 3 and
    whose [classes] is object 4; object 2 is an index tensor and object
    5 another transform. *)
Definition heap : PyObj.heap :=
  {[ 1%positive := {[ "transform"%string := 3%positive;
                      "classes"%string := 4%positive ]};
     2%positive := ∅; 3%positive := ∅; 4%positive := ∅; 5%positive := ∅ ]}.

End Demo.

(** ** Reading a dict *)

(** [d[k]], [None] for a key that is absent. *)
Fixpoint dict_get {A} (d : list (string * A)) (k : string) : option A :=
  match d with
  | [] => None
  | (k', v) :: d' => if String.eqb k' k then Some v else dict_get d' k
  end.

(** The dataset names [_build_datasets] dispatches on, and the names it
    accepts in [cfg_data.extra_validation]. *)
Definition supported_datasets : list string :=
  [ "CIFAR10"; "MNIST"; "EMNIST"; "SVHN"; "CINIC10"; "CIFAR100"; "ImageNet";
    "TinyImageNet" ]%string.

Definition supported_extra_validation : list string :=
  [ "CINIC10"; "CIFAR10-C"; "CIFAR10" ]%string.

(** The length [l[:k]] has for a list of length [n]. *)
Definition py_slice_to_length (n : nat) (k : Z) : nat :=
  if 0 <=? k then Nat.min (Z.to_nat k) n
  else Z.to_nat (Z.of_nat n + k).

(** The keys [_parse_cfg_dict] handles itself; every other key is looked
    up in [torchvision.transforms]. *)
Definition timm_keys : list string :=
  [ "RandAugment"; "AutoAugment"; "AugMix" ]%string.

Definition tv_keys : list string := [ "tvRandAugment"; "tvAutoAugment" ]%string.

Definition special_keys : list string :=
  timm_keys ++ tv_keys ++ [ "ToRGB"; "Resize"; "Cutout" ]%string.

(** One pass over a loader yields batches of exactly the batch size that,
    put end to end, are the index sequence of the sampler without a tail
    shorter than one batch. *)
Definition drops_only_tail (W : World) (epoch : Z) (dl : dataloader) : Prop :=
  let b := Z.to_nat (dl_batch_size dl) in
  Forall (fun batch => length batch = b) (iter_batches W epoch dl)
  /\ exists tail,
       sampler_indices W epoch (dl_sampler dl)
       = concat (iter_batches W epoch dl) ++ tail
       /\ (length tail < b)%nat.

(** ** More concrete inputs *)

Module Demo2.

(** An opened dataset of 105 samples with two classes. *)
Definition opened (train : bool) : dataset :=
  VisionDataset
    {| oc_class := CIFAR10; oc_root := "~/data";
       oc_kwargs := [("train"%string, VBool train);
                     ("download"%string, VBool true)] |}
    105 (Some [ToTensor]) (Some [VStr "cat"; VStr "dog"]).

(** The locals of [construct_dataloader] before any wrapper. *)
Definition st0 : locals :=
  {| trainset := opened true;
     validsets := [("CIFAR10"%string, opened false)] |}.

(** CIFAR10 with the extra validation sets CINIC10, CIFAR10 and CINIC10
    again. *)
Definition data_extra : cfg_data := {|
  data_name := data_name Demo.data;
  data_path := data_path Demo.data;
  data_split := data_split Demo.data;
  data_pixels := data_pixels Demo.data;
  data_mean := data_mean Demo.data;
  data_std := data_std Demo.data;
  data_augmentations_train := data_augmentations_train Demo.data;
  data_augmentations_val := data_augmentations_val Demo.data;
  data_normalize := data_normalize Demo.data;
  data_size := data_size Demo.data;
  data_deterministic_subsets := data_deterministic_subsets Demo.data;
  data_extra_validation := ["CINIC10"; "CIFAR10"; "CINIC10"]%string;
  data_batch_size := data_batch_size Demo.data;
  data_caching := data_caching Demo.data;
  data_db := data_db Demo.data;
|}.

(** A train pipeline with a misspelt torchvision name. *)
Definition data_typo : cfg_data := {|
  data_name := data_name Demo.data;
  data_path := data_path Demo.data;
  data_split := data_split Demo.data;
  data_pixels := data_pixels Demo.data;
  data_mean := data_mean Demo.data;
  data_std := data_std Demo.data;
  data_augmentations_train :=
    Some [("RandomCrop"%string, VNum (PInt 32));
          ("GaussianBlurr"%string, VNum (PInt 3))];
  data_augmentations_val := data_augmentations_val Demo.data;
  data_normalize := data_normalize Demo.data;
  data_size := data_size Demo.data;
  data_deterministic_subsets := data_deterministic_subsets Demo.data;
  data_extra_validation := data_extra_validation Demo.data;
  data_batch_size := data_batch_size Demo.data;
  data_caching := data_caching Demo.data;
  data_db := data_db Demo.data;
|}.

(** A budget of three threads with persistent workers, in distributed
    mode. *)
Definition impl_workers : cfg_impl := {|
  impl_threads := 3;
  impl_pin_memory := false;
  impl_persistent_workers := true;
  impl_setup_dist := true;
|}.

End Demo2.

(** * Subset loaders and the ordering of processes *)

(** ** Exceptions beside those of the dataset code *)

Inductive exception : Type :=
| Builtin (e : exn)
| ZeroDivisionError
| KeyError (key : string)
| FileNotFoundError (path : string)
| FileExistsError (path : string).

Inductive outcome (A : Type) : Type :=
| Return (a : A)
| Throw (e : exception).
Arguments Return {A} a.
Arguments Throw {A} e.

Definition lift {A} (r : result A) : outcome A :=
  match r with
  | Ok a => Return a
  | Raise e => Throw (Builtin e)
  end.

Definition obind {A B} (o : outcome A) (k : A -> outcome B) : outcome B :=
  match o with
  | Return a => k a
  | Throw e => Throw e
  end.

(** ** [construct_subset_dataloader] *)

(** [a % b] on Python integers: the sign of the divisor. *)
Definition py_mod (a b : Z) : outcome Z :=
  if b =? 0 then Throw ZeroDivisionError else Return (a mod b).

(** A 64-bit integer tensor element: two's complement wrap-around. *)
Definition wrap64 (z : Z) : Z := (z + 2 ^ 63) mod 2 ^ 64 - 2 ^ 63.

Definition fits64 (z : Z) : bool := (- 2 ^ 63 <=? z) && (z <? 2 ^ 63).

(** [torch.arange(0, k) + c] for Python integers [k] and [c]: an int64
    tensor; [arange] refuses a negative bound, and the scalar must fit
    the element type. *)
Definition arange_plus (k c : Z) : result (list Z) :=
  ids <~ arange k ;;
  if negb (fits64 c) then
    Raise (RuntimeError "value cannot be converted to type int64 without overflow")
  else Ok (map (fun i : nat => wrap64 (Z.of_nat i + c)) ids).

(** [torch.utils.data.Subset(dataset, indices)]: unlike the [Subset] of
    this module it has no [transform] and no [classes]. *)
Record torch_Subset : Type := {
  sub_dataset : dataset;
  sub_indices : list Z;
}.

(** [len(subset)] *)
Definition sub_len (s : torch_Subset) : nat := length (sub_indices s).

(** [subset[i]] reads [subset.dataset[subset.indices[i]]]: the index of
    the parent that position [i] of the subset reads. *)
Definition sub_getitem (s : torch_Subset) (i : nat) : option Z :=
  sub_indices s !! i.

(** The samplers of a subset loader.  Outside distributed mode the
    sampler has its [set_epoch] replaced by a function that does
    nothing. *)
Inductive subset_sampler : Type :=
| SubsetDistributedSampler (ds : torch_Subset) (num_replicas rank : Z)
    (shuffle : bool)
| SubsetRandomSampler (ds : torch_Subset)
| SubsetSequentialSampler (ds : torch_Subset).

Record localloader : Type := {
  ll_dataset : torch_Subset;
  ll_batch_size : Z;
  ll_sampler : subset_sampler;
  ll_drop_last : bool;
  ll_num_workers : Z;
  ll_pin_memory : bool;
}.

(** The sampler statement of [construct_subset_dataloader]; the
    constructors check what [DistributedSampler] and [RandomSampler]
    check above. *)
Definition choose_subset_sampler (W : World) (impl : cfg_impl) (hyp : cfg_hyp)
    (ds : torch_Subset) : result subset_sampler :=
  if impl_setup_dist impl then
    if negb (dist_is_initialized W) then
      Raise (RuntimeError "Default process group has not been initialized")
    else
      let num_replicas := dist_get_world_size W in
      let rank := dist_get_rank W in
      if (num_replicas <=? rank) || (rank <? 0) then
        Raise (ValueError "Invalid rank")
      else Ok (SubsetDistributedSampler ds num_replicas rank (hyp_shuffle hyp))
  else if hyp_shuffle hyp then
    if (sub_len ds =? 0)%nat then
      Raise (ValueError "num_samples should be a positive integer value")
    else Ok (SubsetRandomSampler ds)
  else Ok (SubsetSequentialSampler ds).

(** [DataLoader(dataset, batch_size=..., sampler=..., drop_last=True,
    num_workers=..., pin_memory=...)] on a subset. *)
Definition SubsetDataLoader (ds : torch_Subset) (batch_size : Z)
    (smp : subset_sampler) (drop_last : bool) (num_workers : Z)
    (pin_memory : bool) : result localloader :=
  if num_workers <? 0 then
    Raise (ValueError "num_workers option should be non-negative")
  else if batch_size <=? 0 then
    Raise (ValueError "batch_size should be a positive integer value")
  else
    Ok {| ll_dataset := ds; ll_batch_size := batch_size; ll_sampler := smp;
          ll_drop_last := drop_last; ll_num_workers := num_workers;
          ll_pin_memory := pin_memory |}.

(** [construct_subset_dataloader(dataloader, cfg, step)] *)
Definition construct_subset_dataloader (W : World) (dl : dataloader)
    (cfg : cfg_data) (impl : cfg_impl) (hyp : cfg_hyp) (step : Z)
  : outcome localloader :=
  obind (py_mod step (db_rounds (data_db cfg))) (fun random_idx =>
  obind (lift (arange_plus (data_size cfg) (random_idx * data_size cfg)))
    (fun dataset_subset_ids =>
  let ds := {| sub_dataset := dl_dataset dl;
               sub_indices := dataset_subset_ids |} in
  obind (lift (choose_subset_sampler W impl hyp ds)) (fun smp =>
  lift (SubsetDataLoader ds
          (Z.min (data_batch_size cfg) (Z.of_nat (sub_len ds)))
          smp true (dl_num_workers dl) (impl_pin_memory impl))))).

(** The block of parent indices round [r] reads. *)
Definition block (size r : Z) : list Z :=
  map (fun i : nat => Z.of_nat i + r * size) (seq 0 (Z.to_nat size)).

(** ** [main_process_first] *)

(** What a process does that the others can observe: it reaches
    [torch.distributed.barrier()], or it runs statement [label] of the
    block under the [with]. *)
Inductive action : Type :=
| barrier
| work (label : nat).

(** A block of code: what it does, in order, and how it ends. *)
Definition traced (A : Type) : Type := (list action * result A)%type.

(** [with main_process_first(): body] on one process.  The generator runs
    to its [yield] on entry; on exit it is resumed, with the exception of
    the body when it raised one, so the [finally] clause runs either way
    and the outcome of the body is the outcome of the statement. *)
Definition main_process_first {A} (W : World) (body : traced A) : traced A :=
  if dist_is_initialized W then
    let is_main_process := dist_get_rank W =? 0 in
    let enter := if negb is_main_process then [barrier] else [] in
    let exit := if is_main_process then [barrier] else [] in
    (enter ++ fst body ++ exit, snd body)
  else body.

(** The process group: what every rank has left to do.  A rank works on
    its own; [barrier] blocks every rank that reaches it until all ranks
    of the group have reached it, and then releases them together. *)
Abbreviation group := (list (list action)).

Inductive group_event : Type :=
| Did (rank : nat) (label : nat)
| Released.

Inductive group_step : group -> group_event -> group -> Prop :=
| step_work g r l rest :
    g !! r = Some (work l :: rest) ->
    group_step g (Did r l) (<[r := rest]> g)
| step_barrier g :
    g <> [] ->
    Forall (fun p => head p = Some barrier) g ->
    group_step g Released (map (fun p => tail p) g).

Inductive group_run : group -> list group_event -> group -> Prop :=
| run_done g : group_run g [] g
| run_step g e g' tr g'' :
    group_step g e g' -> group_run g' tr g'' -> group_run g (e :: tr) g''.

(** The world of rank [r] in an initialized group of [n] processes. *)
Definition as_rank (W : World) (n r : nat) : World := {|
  dist_is_initialized := true;
  dist_get_world_size := Z.of_nat n;
  dist_get_rank := Z.of_nat r;
  torch_get_num_threads := torch_get_num_threads W;
  cuda_device_count := cuda_device_count W;
  default_generator := default_generator W;
  manual_seed := manual_seed W;
  randperm_at := randperm_at W;
  randint_at := randint_at W;
  expanduser := expanduser W;
  open_dataset := open_dataset W;
  transforms_hasattr := transforms_hasattr W;
  transforms_call := transforms_call W;
  read_sample := read_sample W;
  torch_mean_std := torch_mean_std W;
  apply_external := apply_external W;
  default_collate := default_collate W;
|}.

(** Every rank of the group runs [with main_process_first(): body], each
    with a body of its own. *)
Definition all_main_process_first {A} (W : World) (bodies : list (traced A))
  : group :=
  imap (fun r body =>
          fst (main_process_first (as_rank W (length bodies) r) body))
       bodies.

Definition no_barrier (p : list action) : Prop :=
  Forall (fun a => a <> barrier) p.

Definition finished (g : group) : Prop := Forall (fun p => p = []) g.

(** A trace in which everything rank 0 does comes before anything another
    rank does. *)
Definition main_first (tr : list group_event) : Prop :=
  exists pre post,
    tr = pre ++ post
    /\ Forall (fun e => match e with Did r _ => r = 0%nat | Released => True end)
         pre
    /\ Forall (fun e => match e with Did r _ => r <> 0%nat | Released => True end)
         post.

(** Where a group running [all_main_process_first] can be: before the
    barrier rank 0 has the rest of its body and the barrier left and every
    other rank waits at its barrier; after it rank 0 is through and the
    other ranks have what is left of their bodies. *)
Inductive phase : group -> Prop :=
| before_barrier w bs :
    no_barrier w -> Forall no_barrier bs ->
    phase ((w ++ [barrier]) :: map (cons barrier) bs)
| after_barrier bs :
    Forall no_barrier bs -> phase ([] :: bs).

Module Demo3.

(** A loader over the 105 samples of [Demo2.opened], two workers. *)
Definition bigloader : dataloader := {|
  dl_dataset := Demo2.opened true;
  dl_batch_size := 32;
  dl_sampler := SequentialSampler (Demo2.opened true);
  dl_drop_last := true;
  dl_num_workers := 2;
  dl_pin_memory := true;
  dl_persistent_workers := false;
|}.

(** Subsets of [size] samples in [rounds] rounds, batches of 8. *)
Definition data_rounds (size rounds : Z) : cfg_data := {|
  data_name := data_name Demo.data;
  data_path := data_path Demo.data;
  data_split := data_split Demo.data;
  data_pixels := data_pixels Demo.data;
  data_mean := data_mean Demo.data;
  data_std := data_std Demo.data;
  data_augmentations_train := data_augmentations_train Demo.data;
  data_augmentations_val := data_augmentations_val Demo.data;
  data_normalize := data_normalize Demo.data;
  data_size := size;
  data_deterministic_subsets := data_deterministic_subsets Demo.data;
  data_extra_validation := data_extra_validation Demo.data;
  data_batch_size := 8;
  data_caching := data_caching Demo.data;
  data_db := {| db_name := None; db_rounds := rounds |};
|}.

(** Two ranks; the body of rank 0 raises after its first statement. *)
Definition bodies : list (traced unit) :=
  [ ([work 0], Raise (RuntimeError "disk full"));
    ([work 0; work 1], Ok tt) ].

End Demo3.

(** * dataaug.utils: start-up, seeding and result tables

    A shallow embedding of [src/dataaug/utils.py].  Logging calls are left
    out; what the functions obtain from the machine is a field of the
    record [Host]. *)

From Stdlib Require DecimalString.

(** [str(z)] for a Python integer. *)
Definition py_str_int (z : Z) : string :=
  DecimalString.NilZero.string_of_int (Z.to_int z).

(** ** Random seeds *)

(** The seed each random number generator of a process was last given:
    the default CPU generator of torch, the generator of each CUDA device,
    numpy's global generator and the generator of [random]. *)
Record rng_seeds : Type := {
  torch_seed : option Z;
  cuda_seeds : Z -> option Z;
  numpy_seed : option Z;
  python_seed : option Z;
}.

(** A torch generator takes a seed that fits 64 bits, signed or unsigned,
    and uses it as an unsigned 64-bit number. *)
Definition torch_seed_ok (s : Z) : bool := (- 2 ^ 63 <=? s) && (s <? 2 ^ 64).

(** [torch.manual_seed(s)]: the CPU generator and every CUDA device. *)
Definition torch_manual_seed (s : Z) (st : rng_seeds) : outcome rng_seeds :=
  if torch_seed_ok s then
    Return {| torch_seed := Some (s mod 2 ^ 64);
              cuda_seeds := fun _ => Some (s mod 2 ^ 64);
              numpy_seed := numpy_seed st;
              python_seed := python_seed st |}
  else Throw (Builtin (RuntimeError "Overflow when unpacking long")).

(** [torch.cuda.manual_seed(s)]: the current device. *)
Definition cuda_manual_seed (device : Z) (s : Z) (st : rng_seeds)
  : outcome rng_seeds :=
  if torch_seed_ok s then
    Return {| torch_seed := torch_seed st;
              cuda_seeds := fun d => if d =? device then Some (s mod 2 ^ 64)
                                     else cuda_seeds st d;
              numpy_seed := numpy_seed st;
              python_seed := python_seed st |}
  else Throw (Builtin (RuntimeError "Overflow when unpacking long")).

(** [torch.cuda.manual_seed_all(s)] *)
Definition cuda_manual_seed_all (s : Z) (st : rng_seeds) : outcome rng_seeds :=
  if torch_seed_ok s then
    Return {| torch_seed := torch_seed st;
              cuda_seeds := fun _ => Some (s mod 2 ^ 64);
              numpy_seed := numpy_seed st;
              python_seed := python_seed st |}
  else Throw (Builtin (RuntimeError "Overflow when unpacking long")).

(** [np.random.seed(s)]: the legacy generator takes 32 bits. *)
Definition numpy_random_seed (s : Z) (st : rng_seeds) : outcome rng_seeds :=
  if (0 <=? s) && (s <? 2 ^ 32) then
    Return {| torch_seed := torch_seed st;
              cuda_seeds := cuda_seeds st;
              numpy_seed := Some s;
              python_seed := python_seed st |}
  else Throw (Builtin (ValueError "Seed must be between 0 and 2**32 - 1")).

(** [random.seed(s)]: an integer of any size, used by absolute value. *)
Definition random_seed (s : Z) (st : rng_seeds) : outcome rng_seeds :=
  Return {| torch_seed := torch_seed st;
            cuda_seeds := cuda_seeds st;
            numpy_seed := numpy_seed st;
            python_seed := Some (Z.abs s) |}.

(** [set_random_seed(seed)], on a process whose current CUDA device is
    [device]. *)
Definition set_random_seed (device : Z) (seed : Z) (st : rng_seeds)
  : outcome rng_seeds :=
  obind (torch_manual_seed (seed + 1) st) (fun st =>
  obind (cuda_manual_seed device (seed + 2) st) (fun st =>
  obind (cuda_manual_seed_all (seed + 3) st) (fun st =>
  obind (numpy_random_seed (seed + 4) st) (fun st =>
  obind (cuda_manual_seed_all (seed + 5) st) (fun st =>
  random_seed (seed + 6) st))))).

(** ** The state of a process and its configuration *)

Record process : Type := {
  seeds : rng_seeds;
  cudnn_benchmark : bool;
  cudnn_deterministic : bool;
  deterministic_algorithms : bool;
  sharing_strategy : string;
  environ : list (string * string);
  current_device : Z;
  (* the world size and rank [init_process_group] was called with *)
  process_group : option (Z * Z);
}.

(** [cfg.impl.setup.rank]: the name of a scheduler or a number. *)
Inductive rank_spec : Type :=
| RankSLURM
| RankPBS
| RankInt (r : Z).

(** [cfg.impl.setup] *)
Record cfg_setup : Type := {
  setup_dist : bool;
  setup_url : string;
  setup_world_size : Z;
  setup_rank : rank_spec;
  setup_backend : string;
  setup_strategy : string;
  setup_MASTER_PORT : option Z;
  setup_MASTER_ADDR : option string;
}.

(** The fields of [cfg] the start-up code reads. *)
Record cfg_run : Type := {
  run_seed : option Z;
  run_dryrun : bool;
  run_benchmark : bool;
  run_deterministic : bool;
  run_dtype : string;
  run_memory : string;
  run_setup : cfg_setup;
}.

Definition with_setup (cfg : cfg_run) (s : cfg_setup) : cfg_run := {|
  run_seed := run_seed cfg;
  run_dryrun := run_dryrun cfg;
  run_benchmark := run_benchmark cfg;
  run_deterministic := run_deterministic cfg;
  run_dtype := run_dtype cfg;
  run_memory := run_memory cfg;
  run_setup := s;
|}.

Definition with_seed (cfg : cfg_run) (seed : Z) : cfg_run := {|
  run_seed := Some seed;
  run_dryrun := run_dryrun cfg;
  run_benchmark := run_benchmark cfg;
  run_deterministic := run_deterministic cfg;
  run_dtype := run_dtype cfg;
  run_memory := run_memory cfg;
  run_setup := run_setup cfg;
|}.

Definition with_rank (s : cfg_setup) (r : Z) : cfg_setup := {|
  setup_dist := setup_dist s;
  setup_url := setup_url s;
  setup_world_size := setup_world_size s;
  setup_rank := RankInt r;
  setup_backend := setup_backend s;
  setup_strategy := setup_strategy s;
  setup_MASTER_PORT := setup_MASTER_PORT s;
  setup_MASTER_ADDR := setup_MASTER_ADDR s;
|}.

Definition with_world_size (s : cfg_setup) (n : Z) : cfg_setup := {|
  setup_dist := setup_dist s;
  setup_url := setup_url s;
  setup_world_size := n;
  setup_rank := setup_rank s;
  setup_backend := setup_backend s;
  setup_strategy := setup_strategy s;
  setup_MASTER_PORT := setup_MASTER_PORT s;
  setup_MASTER_ADDR := setup_MASTER_ADDR s;
|}.

Definition with_url (s : cfg_setup) (url : string) : cfg_setup := {|
  setup_dist := setup_dist s;
  setup_url := url;
  setup_world_size := setup_world_size s;
  setup_rank := setup_rank s;
  setup_backend := setup_backend s;
  setup_strategy := setup_strategy s;
  setup_MASTER_PORT := setup_MASTER_PORT s;
  setup_MASTER_ADDR := setup_MASTER_ADDR s;
|}.

(** What the start-up code asks of the machine. *)
Record Host : Type := {
  cuda_is_available : bool;
  host_device_count : Z;
  (* [hasattr(torch, name)] *)
  torch_hasattr : string -> bool;
  (* [int(s)] on a string, [None] where it raises [ValueError] *)
  int_of_str : string -> option Z;
  (* [torch.randint(low, high, (1,)).item()] *)
  randint_item : Z -> Z -> Z;
}.

(** [os.environ[key]] *)
Definition environ_get (p : process) (key : string) : outcome string :=
  match dict_get (environ p) key with
  | Some v => Return v
  | None => Throw (KeyError key)
  end.

(** [int(os.environ[key])] *)
Definition environ_int (H : Host) (p : process) (key : string) : outcome Z :=
  obind (environ_get p key) (fun v =>
  match int_of_str H v with
  | Some z => Return z
  | None => Throw (Builtin (ValueError "invalid literal for int()"))
  end).

Definition environ_set (p : process) (key value : string) : process := {|
  seeds := seeds p;
  cudnn_benchmark := cudnn_benchmark p;
  cudnn_deterministic := cudnn_deterministic p;
  deterministic_algorithms := deterministic_algorithms p;
  sharing_strategy := sharing_strategy p;
  environ := dict_set (environ p) key value;
  current_device := current_device p;
  process_group := process_group p;
|}.

(** [set_deterministic()] *)
Definition set_deterministic (p : process) : process :=
  environ_set
    {| seeds := seeds p;
       cudnn_benchmark := false;
       cudnn_deterministic := true;
       deterministic_algorithms := true;
       sharing_strategy := sharing_strategy p;
       environ := environ p;
       current_device := current_device p;
       process_group := process_group p |}
    "CUBLAS_WORKSPACE_CONFIG" ":4096:8".

(** ** [system_startup] *)

Inductive memory_format : Type := contiguous_format | channels_last.

Inductive device : Type := cuda (index : Z) | cpu.

(** The [setup] dict [system_startup] returns. *)
Record setup : Type := {
  setup_device : device;
  setup_dtype : string;
  setup_memory_format : memory_format;
}.

(** The rank statement of [system_startup] (lines 91-98). *)
Definition resolve_rank (H : Host) (p : process) (s : cfg_setup)
    (process_idx local_group_size : Z) : outcome Z :=
  obind
    (match setup_rank s with
     | RankSLURM => environ_int H p "SLURM_NODEID"
     | RankPBS => environ_int H p "PBS_NODENUM"
     | RankInt r =>
         if String.eqb (setup_url s) "env://" && (r =? -1)
         then environ_int H p "RANK"
         else Return r
     end) (fun rank =>
  Return (if 1 <? local_group_size
          then rank * local_group_size + process_idx
          else rank)).

(** [system_startup(process_idx, local_group_size, cfg)]: the [setup] it
    returns, [cfg] as it leaves it and the process as it leaves it. *)
Definition system_startup (H : Host) (process_idx local_group_size : Z)
    (cfg : cfg_run) (p : process) : outcome (setup * cfg_run * process) :=
  let p := {| seeds := seeds p;
              cudnn_benchmark := run_benchmark cfg;
              cudnn_deterministic := cudnn_deterministic p;
              deterministic_algorithms := deterministic_algorithms p;
              sharing_strategy := setup_strategy (run_setup cfg);
              environ := environ p;
              current_device := current_device p;
              process_group := process_group p |} in
  let p := if run_deterministic cfg then set_deterministic p else p in
  obind
    (match run_seed cfg with
     | Some seed =>
         obind (set_random_seed (current_device p) (seed + 10 * process_idx)
                  (seeds p)) (fun sd =>
         Return {| seeds := sd;
                   cudnn_benchmark := cudnn_benchmark p;
                   cudnn_deterministic := cudnn_deterministic p;
                   deterministic_algorithms := deterministic_algorithms p;
                   sharing_strategy := sharing_strategy p;
                   environ := environ p;
                   current_device := current_device p;
                   process_group := process_group p |})
     | None => Return p
     end) (fun p =>
  if negb (torch_hasattr H (run_dtype cfg)) then
    Throw (Builtin (AttributeError (run_dtype cfg)))
  else
  let dtype := run_dtype cfg in
  let memory_format :=
    if String.eqb (run_memory cfg) "contiguous" then contiguous_format
    else channels_last in
  let device := if cuda_is_available H then cuda process_idx else cpu in
  let setup := {| setup_device := device; setup_dtype := dtype;
                  setup_memory_format := memory_format |} in
  obind
    (if cuda_is_available H then
       if (0 <=? process_idx) && (process_idx <? host_device_count H) then
         Return {| seeds := seeds p;
                   cudnn_benchmark := cudnn_benchmark p;
                   cudnn_deterministic := cudnn_deterministic p;
                   deterministic_algorithms := deterministic_algorithms p;
                   sharing_strategy := sharing_strategy p;
                   environ := environ p;
                   current_device := process_idx;
                   process_group := process_group p |}
       else Throw (Builtin (RuntimeError "CUDA error: invalid device ordinal"))
     else Return p) (fun p =>
  if negb (cuda_is_available H) && negb (run_dryrun cfg) then
    Throw (Builtin (ValueError "No GPU allocated to this process. Training in CPU-mode is likely a bad idea. Complain to your admin."))
  else if setup_dist (run_setup cfg) then
    let s := run_setup cfg in
    let p := match setup_MASTER_PORT s with
             | Some port => environ_set p "MASTER_PORT" (py_str_int port)
             | None => p
             end in
    let p := match setup_MASTER_ADDR s with
             | Some addr => environ_set p "MASTER_ADDR" addr
             | None => p
             end in
    obind (resolve_rank H p s process_idx local_group_size) (fun rank =>
    let s := with_rank s rank in
    match process_group p with
    | Some _ =>
        Throw (Builtin (RuntimeError
                 "trying to initialize the default process group twice!"))
    | None =>
        Return (setup, with_setup cfg s,
                {| seeds := seeds p;
                   cudnn_benchmark := cudnn_benchmark p;
                   cudnn_deterministic := cudnn_deterministic p;
                   deterministic_algorithms := deterministic_algorithms p;
                   sharing_strategy := sharing_strategy p;
                   environ := environ p;
                   current_device := current_device p;
                   process_group := Some (setup_world_size s, rank) |})
    end)
  else Return (setup, cfg, p))).

(** [is_main_process()] *)
Definition is_main_process (W : World) : bool :=
  negb (dist_is_initialized W) || (dist_get_rank W =? 0).

(** ** [job_startup] *)

(** [url.replace("?", port)]; character 63 is the question mark. *)
Fixpoint replace_question (url port : string) : string :=
  match url with
  | EmptyString => EmptyString
  | String c url' =>
      if Ascii.eqb c (Ascii.ascii_of_nat 63) then port ++ replace_question url' port
      else String c (replace_question url' port)
  end.

(** [job_startup(main_process, cfg, log, name)]: [cfg] as it hands it to
    the processes, and the calls of [main_process] it makes, each with its
    [process_idx] and [local_group_size]; with [torch.multiprocessing.spawn]
    every process gets a copy of [cfg]. *)
Definition job_startup (H : Host) (p : process) (cfg : cfg_run)
  : outcome (cfg_run * list (Z * Z)) :=
  let cfg := match run_seed cfg with
             | None => with_seed cfg (randint_item H 0 (2 ^ 32 - 1))
             | Some _ => cfg
             end in
  let ngpus_per_node := host_device_count H in
  obind
    (if setup_dist (run_setup cfg) then
       obind
         (if String.eqb (setup_url (run_setup cfg)) "env://"
             && (setup_world_size (run_setup cfg) =? -1)
          then obind (environ_int H p "WORLD_SIZE") (fun n =>
               Return (with_setup cfg (with_world_size (run_setup cfg) n)))
          else Return cfg) (fun cfg =>
       if substring_in "tcp://" (setup_url (run_setup cfg))
          && substring_in "?" (setup_url (run_setup cfg))
       then
         let random_port := randint_item H 2000 (65535 - 1) in
         Return (with_setup cfg
                   (with_url (run_setup cfg)
                      (replace_question (setup_url (run_setup cfg))
                         (py_str_int random_port))))
       else Return cfg)
     else Return cfg) (fun cfg =>
  if setup_dist (run_setup cfg) && (1 <? ngpus_per_node) then
    let cfg :=
      with_setup cfg
        (with_world_size (run_setup cfg)
           (ngpus_per_node * setup_world_size (run_setup cfg))) in
    Return (cfg, map (fun i : nat => (Z.of_nat i, ngpus_per_node))
                   (seq 0 (Z.to_nat ngpus_per_node)))
  else Return (cfg, [(0, 1)])).

(** ** [save_to_table] *)

(** A table file: the rows written to it, a row being the cells handed to
    the csv writer.  The file system: the directories that exist and the
    table files with their contents.  Opening a file for writing or
    appending is taken to succeed. *)
Abbreviation table := (list (list pyval)).

Record filesystem : Type := {
  fs_dirs : list string;
  fs_files : list (string * table);
}.

(** [os.path.join(a, b)] for a relative [b]. *)
Definition path_join (a b : string) : string :=
  if String.eqb a EmptyString then b
  else if String.eqb (String.substring (String.length a - 1) 1 a) "/"
       then (a ++ b)%string
       else (a ++ "/" ++ b)%string.

(** [os.makedirs(d)] for a [d] that is no directory. *)
Definition makedirs (fs : filesystem) (d : string) : outcome filesystem :=
  if String.eqb d EmptyString then
    Throw (FileNotFoundError d)
  else if bool_decide (is_Some (dict_get (fs_files fs) d)) then
    Throw (FileExistsError d)
  else Return {| fs_dirs := d :: fs_dirs fs; fs_files := fs_files fs |}.

(** [open(fname, "w")] followed by the rows written. *)
Definition write_file (fs : filesystem) (fname : string) (rows : table)
  : filesystem :=
  {| fs_dirs := fs_dirs fs; fs_files := dict_set (fs_files fs) fname rows |}.

(** [open(fname, "a")] followed by the rows written. *)
Definition append_file (fs : filesystem) (fname : string) (rows : table)
  : filesystem :=
  write_file fs fname (default [] (dict_get (fs_files fs) fname) ++ rows).

(** [next(csv.reader(open(fname)))] succeeds: the file exists and has a
    first row. *)
Definition has_header (fs : filesystem) (fname : string) : bool :=
  match dict_get (fs_files fs) fname with
  | Some (_ :: _) => true
  | _ => false
  end.

Definition table_path (out_dir table_name : string) : string :=
  path_join out_dir ("table_" ++ table_name ++ ".csv").

(** [save_to_table(out_dir, table_name, dryrun, **kwargs)] *)
Definition save_to_table (fs : filesystem) (out_dir table_name : string)
    (dryrun : bool) (kwargs : list (string * pyval)) : outcome filesystem :=
  obind (if negb (bool_decide (out_dir ∈ fs_dirs fs))
         then makedirs fs out_dir else Return fs) (fun fs =>
  let fname := table_path out_dir table_name in
  let fieldnames := map fst kwargs in
  let fs :=
    if has_header fs fname then fs
    else if negb dryrun then write_file fs fname [map VStr fieldnames]
    else fs in
  if negb dryrun then Return (append_file fs fname [map snd kwargs])
  else Return fs).

(** The first statement of [save_summary] (lines 145-149): one call of
    [save_to_table] per training step, with the entry of every statistic
    at that step, [None] where it has none. *)
Definition iteration_at (stats : list (string * list pyval)) (step : nat)
  : list (string * pyval) :=
  map (fun kv => (fst kv, default VNone (snd kv !! step))) stats.

Fixpoint save_steps (fs : filesystem) (name : string) (dryrun : bool)
    (stats : list (string * list pyval)) (steps : list nat)
  : outcome filesystem :=
  match steps with
  | [] => Return fs
  | step :: steps' =>
      obind (save_to_table fs "." (name ++ "_convergence_results") dryrun
               (iteration_at stats step)) (fun fs =>
      save_steps fs name dryrun stats steps')
  end.

Definition save_convergence_table (fs : filesystem) (name : string)
    (dryrun : bool) (stats : list (string * list pyval)) : outcome filesystem :=
  match dict_get stats "train_loss" with
  | None => Throw (KeyError "train_loss")
  | Some train_loss =>
      save_steps fs name dryrun stats (seq 0 (length train_loss))
  end.

Module Demo4.

Definition seeds0 : rng_seeds :=
  {| torch_seed := None; cuda_seeds := fun _ => None;
     numpy_seed := None; python_seed := None |}.

(** A fresh process. *)
Definition proc : process := {|
  seeds := seeds0;
  cudnn_benchmark := false;
  cudnn_deterministic := false;
  deterministic_algorithms := false;
  sharing_strategy := "file_descriptor";
  environ := [];
  current_device := 0;
  process_group := None;
|}.

(** A node with [gpus] GPUs. *)
Definition host (gpus : Z) : Host := {|
  cuda_is_available := 0 <? gpus;
  host_device_count := gpus;
  torch_hasattr := fun name => String.eqb name "float";
  int_of_str := fun _ => None;
  randint_item := fun low high => high - 1;
|}.

Definition setup_of (dist : bool) (world_size rank : Z) : cfg_setup := {|
  setup_dist := dist;
  setup_url := "tcp://localhost:?";
  setup_world_size := world_size;
  setup_rank := RankInt rank;
  setup_backend := "nccl";
  setup_strategy := "file_descriptor";
  setup_MASTER_PORT := Some 29500;
  setup_MASTER_ADDR := None;
|}.

(** A deterministic benchmark run with seed [seed]. *)
Definition run (seed : option Z) (s : cfg_setup) : cfg_run := {|
  run_seed := seed;
  run_dryrun := false;
  run_benchmark := true;
  run_deterministic := true;
  run_dtype := "float";
  run_memory := "contiguous";
  run_setup := s;
|}.

(** A file system with the current directory and nothing in it. *)
Definition fs0 : filesystem := {| fs_dirs := ["."%string]; fs_files := [] |}.

(** Statistics of three steps; the validation accuracy was only measured
    twice. *)
Definition stats : list (string * list pyval) :=
  [ ("train_loss"%string, [VNum (PInt 3); VNum (PInt 2); VNum (PInt 1)]);
    ("valid_acc"%string, [VNum (PInt 50); VNum (PInt 60)]) ].

End Demo4.

(** * Properties *)

(** ** Auto-augmentation parameters (C5) *)

Section FloatFacts.

Lemma round_mag_nonneg m e : 0 <= PyFloat.round_mag m e.
Proof.
  unfold PyFloat.round_mag. destruct (0 <=? e) eqn:He.
  - apply Z.shiftl_nonneg. lia.
  - assert (Hd : 0 < 2 ^ (- e)) by (apply Z.pow_pos_nonneg; lia).
    assert (Hq : 0 <= Z.pos m / 2 ^ (- e)) by (apply Z.div_pos; lia).
    cbv zeta. destruct (2 * (Z.pos m mod 2 ^ (- e)) ?= 2 ^ (- e)); [|lia|lia].
    destruct (Z.even _); lia.
Qed.

(** Rounding keeps the sign it is given. *)
Lemma binary_round_aux_sign s m e l :
  let r := binary_round_aux PyFloat.prec PyFloat.emax s m e l in
  r = S754_nan \/ PyFloat.sign_bit r = s.
Proof.
  cbv zeta. unfold binary_round_aux.
  destruct (shr_fexp _ _ _ _ _) as [mrs' e'].
  destruct (shr_fexp _ _ _ _ _) as [mrs'' e''].
  destruct (shr_m mrs''); [right; reflexivity | | left; reflexivity].
  destruct (e'' <=? _); right; reflexivity.
Qed.

Lemma round_of_unsigned f v :
  PyFloat.round f = Ok v -> PyFloat.sign_bit f = false -> 0 <= v.
Proof.
  destruct f as [s|s| |s m e]; simpl; try discriminate.
  - intros [= <-] _. lia.
  - intros [= <-] ->. simpl. apply round_mag_nonneg.
Qed.

Lemma mul_finite_sign s m e g :
  PyFloat.sign_bit g = false ->
  let r := PyFloat.mul (S754_finite s m e) g in
  r = S754_nan \/ PyFloat.sign_bit r = s.
Proof.
  intros Hg. cbv zeta. unfold PyFloat.mul, SFmul.
  destruct g as [sg|sg| |sg mg eg]; simpl in Hg; subst;
    try (left; reflexivity); try (right; simpl; destruct s; reflexivity).
  replace (xorb s false) with s by (destruct s; reflexivity).
  apply binary_round_aux_sign.
Qed.

End FloatFacts.

(** [float(255)] *)
Lemma of_int_255 : PyFloat.of_int 255 = Ok (S754_finite false 8972014882652160 (-45)).
Proof. vm_compute. reflexivity. Qed.

(** The channel value is at most 255, and for a mean that is not negative
    it lies in [[0, 255]] and is the value the clamp to [[0, 255]] gives. *)
Lemma img_mean_channel_bounds x v :
  img_mean_channel x = Ok v ->
  v <= 255 /\ (nonneg x -> 0 <= v /\ spec_img_mean_channel x = Ok v).
Proof.
  unfold img_mean_channel, spec_img_mean_channel.
  destruct (py_mul (PInt 255) x) as [y|] eqn:Hy; simpl; [|discriminate].
  destruct (py_round y) as [r|] eqn:Hr; simpl; [|discriminate].
  intros [= <-]. split; [lia|]. intros Hx.
  assert (0 <= r) as Hr0.
  { destruct x as [z|f]; unfold py_mul in Hy.
    - injection Hy as <-. simpl in Hr, Hx. injection Hr as <-. lia.
    - rewrite of_int_255 in Hy. unfold rbind in Hy. injection Hy as <-.
      unfold nonneg in Hx.
      change (PyFloat.round
                (PyFloat.mul (S754_finite false 8972014882652160 (-45)) f) = Ok r)
        in Hr.
      pose proof (mul_finite_sign false 8972014882652160 (-45) f Hx) as [Hn|Hs].
      + cbv zeta in Hn. rewrite Hn in Hr. discriminate.
      + apply (round_of_unsigned _ _ Hr Hs). }
  split; [lia|]. f_equal. lia.
Qed.

Lemma all_from_spec P k :
  forall lo, all_from P lo k = true ->
  forall z, lo <= z < lo + Z.of_nat k -> P z = true.
Proof.
  induction k as [|k IH]; simpl; intros lo H z Hz; [lia|].
  apply andb_true_iff in H as [Hlo Hrest].
  destruct (decide (z = lo)) as [->|]; [done|].
  apply (IH (lo + 1)); [done|lia].
Qed.

Lemma translate_is_floor_upto :
  all_from translate_is_floor 0 (Z.to_nat 16385) = true.
Proof. vm_compute. reflexivity. Qed.

(** For an image side of at most 16384 the double product truncates to
    the floor of the exact [9 n / 20]. *)
Lemma translate_of_floor n :
  0 <= n <= 16384 -> translate_of n = Ok (9 * n / 20).
Proof.
  intros Hn.
  pose proof (all_from_spec _ _ _ translate_is_floor_upto n) as H.
  unfold translate_is_floor in H.
  destruct (translate_of n) as [v|e].
  - f_equal. apply Z.eqb_eq. apply H. lia.
  - discriminate H. lia.
Qed.

(** A comprehension that returns pairs every input with its output. *)
Lemma mapM_Forall2 {A B} (f : A -> result B) l ys :
  mapM f l = Ok ys -> Forall2 (fun x y => f x = Ok y) l ys.
Proof.
  revert ys. induction l as [|x l IH]; simpl; intros ys H.
  - injection H as <-. constructor.
  - destruct (f x) as [y|] eqn:Hx; simpl in H; [|discriminate].
    destruct (mapM f l) as [ys'|] eqn:Hl; simpl in H; [|discriminate].
    injection H as <-. constructor; [done|]. by apply IH.
Qed.

Lemma mapM_length {A B} (f : A -> result B) l ys :
  mapM f l = Ok ys -> length ys = length l.
Proof.
  intros H. apply mapM_Forall2 in H. symmetry. by eapply Forall2_length.
Qed.

Lemma mapM_Ok_all {A B} (f : A -> result B) l ys x :
  mapM f l = Ok ys -> In x l -> exists y, f x = Ok y.
Proof.
  intros H Hin. apply mapM_Forall2 in H.
  induction H as [|a b l l' Hab _ IH]; [done|].
  destruct Hin as [<-|Hin]; eauto.
Qed.

Lemma mapM_all_ok {A B} (f : A -> result B) l :
  Forall (fun x => is_ok (f x) = true) l -> exists ys, mapM f l = Ok ys.
Proof.
  induction 1 as [|x l Hx _ [ys IH]]; simpl; [eauto|].
  destruct (f x) as [y|]; [|discriminate]. simpl. rewrite IH. simpl. eauto.
Qed.

(** What [aa_params] holds when it can be built. *)
Lemma timm_aa_params_inv img_size_min mean aa :
  timm_aa_params img_size_min mean = Ok aa ->
  exists xs,
    mean = Some xs /\
    translate_of img_size_min = Ok (translate_const aa) /\
    mapM img_mean_channel xs = Ok (img_mean aa) /\
    translate_pct aa = None.
Proof.
  unfold timm_aa_params.
  destruct (translate_of img_size_min) as [tc|]; simpl; [|discriminate].
  destruct mean as [xs|]; simpl; [|discriminate].
  destruct (mapM img_mean_channel xs) as [im|] eqn:Him; simpl; [|discriminate].
  intros [= <-]. exists xs. simpl. done.
Qed.

(** The three TIMM-style constructors carry the [aa_params] of the call,
    AugMix with [translate_pct] added. *)
Lemma _get_autoaugment_timm_inv s img_size_min mean t :
  _get_autoaugment_timm (VStr s) img_size_min mean = Ok t ->
  exists aa aa',
    timm_aa_params img_size_min mean = Ok aa /\
    hparams_of t = Some aa' /\
    translate_const aa' = translate_const aa /\
    img_mean aa' = img_mean aa.
Proof.
  unfold _get_autoaugment_timm.
  destruct (timm_aa_params img_size_min mean) as [aa|] eqn:Haa; simpl;
    [|discriminate].
  destruct (String.prefix "rand" s); [|destruct (String.prefix "augmix" s)];
    intros [= <-]; exists aa; eexists; simpl; eauto.
Qed.

(** C5, counterexample: for a 64-pixel image side and a channel mean of
    -0.5 the source passes a translate distance of 28 and a mean of -128,
    where rounding gives 29 and the clamp to [[0, 255]] gives 0. *)
Lemma C5_counterexample :
  let mean := Some [PFloat (SFopp PyFloat.f0_5)] in
  timm_aa_params 64 mean
  = Ok {| translate_const := 28; img_mean := [-128]; translate_pct := None |}
  /\ spec_aa_params 64 mean
     = Ok {| translate_const := 29; img_mean := [0]; translate_pct := None |}
  /\ timm_aa_params 64 mean <> spec_aa_params 64 mean.
Proof.
  cbv zeta. split; [vm_compute; reflexivity|].
  split; [vm_compute; reflexivity|].
  vm_compute. intros H. discriminate H.
Qed.

(** C5, as the source has it: a TIMM-style operation (RandAugment,
    AutoAugment, AugMix) is built with a translate distance of
    int(img_size_min * 0.45), the product truncated toward zero, which for
    an image side of 0 to 16384 is the floor of 9 * img_size_min / 20; and
    with min(255, round(255 * x)) for every channel mean x, a value that is
    at most 255 and, when x is not negative, lies in [[0, 255]] and equals
    the rounded value clamped to [[0, 255]]. *)
Theorem C5_timm_parameters (W : World) (cfg : cfg_data) (key : string)
    (v : pyval) (t : transform) :
  str_in key ["RandAugment"; "AutoAugment"; "AugMix"]%string = true ->
  0 <= data_pixels cfg <= 16384 ->
  parse_entry W cfg key v = Ok t ->
  exists aa xs,
    hparams_of t = Some aa /\
    data_mean cfg = Some xs /\
    translate_of (data_pixels cfg) = Ok (translate_const aa) /\
    translate_const aa = 9 * data_pixels cfg / 20 /\
    Forall2 (fun x c =>
               img_mean_channel x = Ok c /\ c <= 255 /\
               (nonneg x -> 0 <= c /\ spec_img_mean_channel x = Ok c))
            xs (img_mean aa).
Proof.
  intros Hkey Hpx. unfold parse_entry. rewrite Hkey.
  destruct v as [| | |s| |]; try discriminate.
  intros Ht. apply _get_autoaugment_timm_inv in Ht
    as (aa & aa' & Haa & Hh & Htc & Him).
  apply timm_aa_params_inv in Haa as (xs & Hmean & Htr & Hmap & _).
  exists aa', xs. rewrite Htc, Him. repeat split; try done.
  - rewrite (translate_of_floor _ Hpx) in Htr. by injection Htr.
  - apply mapM_Forall2 in Hmap.
    eapply Forall2_impl; [exact Hmap|]. intros x c Hc. simpl in Hc.
    split; [done|]. by apply img_mean_channel_bounds.
Qed.

Lemma C5_timm_parameters_witness :
  let key := "AugMix"%string in
  let v := VStr "augmix-m5-w4-d2" in
  str_in key ["RandAugment"; "AutoAugment"; "AugMix"]%string = true /\
  0 <= data_pixels Demo.data <= 16384 /\
  parse_entry Demo.world Demo.data key v
  = Ok (augment_and_mix_transform "augmix-m5-w4-d2"
          {| translate_const := 14; img_mean := [128; 128; 128];
             translate_pct := Some PyFloat.f0_3 |}) /\
  exists aa xs,
    hparams_of (augment_and_mix_transform "augmix-m5-w4-d2"
          {| translate_const := 14; img_mean := [128; 128; 128];
             translate_pct := Some PyFloat.f0_3 |}) = Some aa /\
    data_mean Demo.data = Some xs /\
    translate_of (data_pixels Demo.data) = Ok (translate_const aa) /\
    translate_const aa = 9 * data_pixels Demo.data / 20 /\
    Forall2 (fun x c =>
               img_mean_channel x = Ok c /\ c <= 255 /\
               (nonneg x -> 0 <= c /\ spec_img_mean_channel x = Ok c))
            xs (img_mean aa).
Proof.
  cbv zeta.
  assert (H1 : str_in "AugMix" ["RandAugment"; "AutoAugment"; "AugMix"]%string = true)
    by reflexivity.
  assert (H2 : 0 <= data_pixels Demo.data <= 16384) by (simpl; lia).
  assert (H3 : parse_entry Demo.world Demo.data "AugMix" (VStr "augmix-m5-w4-d2")
     = Ok (augment_and_mix_transform "augmix-m5-w4-d2"
          {| translate_const := 14; img_mean := [128; 128; 128];
             translate_pct := Some PyFloat.f0_3 |})) by (vm_compute; reflexivity).
  split; [exact H1|]. split; [exact H2|]. split; [exact H3|].
  exact (C5_timm_parameters Demo.world Demo.data "AugMix" _ _ H1 H2 H3).
Defined.

(** ** Subsets and attribute references (C9) *)

Section PyObjFacts.
Import PyObj.
Implicit Types (h : heap) (o r : ref) (a b : string).

Lemma getattr_setattr_same h o a r :
  is_Some (h !! o) -> getattr (setattr h o a r) o a = Ok r.
Proof.
  intros [attrs Ho]. unfold getattr, setattr. rewrite Ho.
  rewrite lookup_insert_eq. by rewrite lookup_insert_eq.
Qed.

Lemma getattr_setattr_other_obj h o o' a b r :
  o <> o' -> getattr (setattr h o a r) o' b = getattr h o' b.
Proof.
  intros Hne. unfold getattr, setattr.
  destruct (h !! o) eqn:Ho; [|done]. by rewrite lookup_insert_ne.
Qed.

Lemma getattr_setattr_other_attr h o a b r :
  a <> b -> getattr (setattr h o a r) o b = getattr h o b.
Proof.
  intros Hne. unfold getattr, setattr.
  destruct (h !! o) eqn:Ho; rewrite ?Ho; [|done].
  rewrite lookup_insert_eq. by rewrite lookup_insert_ne.
Qed.

Lemma setattr_is_Some h o a r o' :
  is_Some (setattr h o a r !! o') <-> is_Some (h !! o').
Proof.
  unfold setattr. destruct (h !! o) eqn:Ho; [|done].
  destruct (decide (o = o')) as [->|Hne].
  - rewrite lookup_insert_eq, Ho. split; eauto.
  - by rewrite lookup_insert_ne.
Qed.

Lemma getattr_Ok_is_Some h o a r : getattr h o a = Ok r -> is_Some (h !! o).
Proof. unfold getattr. destruct (h !! o); [eauto|discriminate]. Qed.

Lemma alloc_fresh h : h !! (alloc h).2 = None.
Proof. simpl. apply not_elem_of_dom. apply is_fresh. Qed.

Lemma getattr_alloc_other h o a :
  o <> (alloc h).2 -> getattr (alloc h).1 o a = getattr h o a.
Proof.
  intros Hne. unfold getattr. simpl. by rewrite lookup_insert_ne.
Qed.

Lemma getattr_alloc_self h a :
  getattr (alloc h).1 (alloc h).2 a = Raise (AttributeError a).
Proof. unfold getattr. simpl. by rewrite lookup_insert_eq. Qed.

(** What [Subset(dataset, indices)] leaves in the heap. *)
Lemma Subset_inv h parent indices h' s :
  Subset h parent indices = Ok (h', s) ->
  exists t c,
    getattr h parent "transform" = Ok t /\
    getattr h parent "classes" = Ok c /\
    s <> parent /\ h !! s = None /\ is_Some (h' !! s) /\
    getattr h' s "transform" = Ok t /\
    getattr h' s "classes" = Ok c /\
    getattr h' s "dataset" = Ok parent /\
    getattr h' s "indices" = Ok indices /\
    (forall o a, o <> s -> getattr h' o a = getattr h o a).
Proof.
  unfold Subset.
  pose proof (alloc_fresh h) as Hfresh.
  pose proof (getattr_alloc_self h) as Hself.
  pose proof (getattr_alloc_other h) as Hother.
  assert (Hs1 : is_Some ((alloc h).1 !! (alloc h).2))
    by (simpl; rewrite lookup_insert_eq; eauto).
  destruct (alloc h) as [h1 self]; simpl in *.
  unfold Subset__init__.
  set (h2 := setattr h1 self "dataset" parent).
  set (h3 := setattr h2 self "indices" indices).
  assert (Hs3 : is_Some (h3 !! self))
    by (subst h3 h2; rewrite !setattr_is_Some; done).
  destruct (decide (parent = self)) as [->|Hne].
  { replace (getattr h3 self "transform") with (Raise (A:=ref) (AttributeError "transform")).
    - simpl. discriminate.
    - subst h3 h2. rewrite !getattr_setattr_other_attr by done. by rewrite Hself. }
  assert (Hp3 : forall a, getattr h3 parent a = getattr h parent a).
  { intros a. subst h3 h2.
    rewrite !getattr_setattr_other_obj by done. by apply Hother. }
  rewrite Hp3. destruct (getattr h parent "transform") as [t|e] eqn:Ht; [|discriminate].
  simpl. set (h4 := setattr h3 self "transform" t).
  assert (Hp4 : forall a, getattr h4 parent a = getattr h parent a).
  { intros a. subst h4. rewrite getattr_setattr_other_obj by done. apply Hp3. }
  rewrite Hp4. destruct (getattr h parent "classes") as [c|e] eqn:Hc; [|discriminate].
  simpl. intros [= <- <-].
  assert (Hs4 : is_Some (h4 !! self)) by (subst h4; rewrite setattr_is_Some; done).
  exists t, c. repeat split; try done.
  - by rewrite setattr_is_Some.
  - rewrite getattr_setattr_other_attr by done. subst h4.
    by rewrite getattr_setattr_same.
  - by rewrite getattr_setattr_same.
  - rewrite getattr_setattr_other_attr by done. subst h4.
    rewrite getattr_setattr_other_attr by done. subst h3.
    rewrite getattr_setattr_other_attr by done. subst h2.
    rewrite getattr_setattr_same; done.
  - rewrite getattr_setattr_other_attr by done. subst h4.
    rewrite getattr_setattr_other_attr by done. subst h3.
    rewrite getattr_setattr_same; [done|]. subst h2. by rewrite setattr_is_Some.
  - intros o a Ho. subst h4 h3 h2.
    rewrite !getattr_setattr_other_obj by done. by apply Hother.
Qed.

End PyObjFacts.

(** C9: a Subset copies the references held by the parent's [transform]
    and [classes] attributes when it is built.  Rebinding the parent's
    [transform] afterwards leaves the Subset's [transform] on the object
    it was built with, and [classes] is one and the same object on the
    parent and on the Subset. *)
Theorem C9_subset_snapshot (h : PyObj.heap)
    (parent indices new_transform : PyObj.ref) (h' : PyObj.heap) (s : PyObj.ref) :
  PyObj.Subset h parent indices = Ok (h', s) ->
  exists t c,
    PyObj.getattr h parent "transform" = Ok t /\
    PyObj.getattr h parent "classes" = Ok c /\
    let h'' := PyObj.setattr h' parent "transform" new_transform in
    PyObj.getattr h'' parent "transform" = Ok new_transform /\
    PyObj.getattr h'' s "transform" = Ok t /\
    PyObj.getattr h'' s "classes" = Ok c /\
    PyObj.getattr h'' parent "classes" = Ok c.
Proof.
  intros HS. apply Subset_inv in HS
    as (t & c & Ht & Hc & Hne & Hfresh & Hs & Hst & Hsc & _ & _ & Hframe).
  exists t, c. split; [done|]. split; [done|]. cbv zeta.
  assert (Hp : is_Some (h' !! parent)).
  { apply (getattr_Ok_is_Some h' parent "transform" t). rewrite Hframe; done. }
  repeat split.
  - by rewrite getattr_setattr_same.
  - rewrite getattr_setattr_other_obj by done. done.
  - rewrite getattr_setattr_other_obj by done. done.
  - rewrite getattr_setattr_other_attr by done. rewrite Hframe; done.
Qed.

Lemma demo_subset_ok :
  is_ok (PyObj.Subset Demo.heap 1%positive 2%positive) = true.
Proof. vm_compute. reflexivity. Qed.

Lemma C9_subset_snapshot_witness :
  match PyObj.Subset Demo.heap 1%positive 2%positive with
  | Ok (h', s) =>
      exists t c,
        PyObj.getattr Demo.heap 1%positive "transform" = Ok t /\
        PyObj.getattr Demo.heap 1%positive "classes" = Ok c /\
        let h'' := PyObj.setattr h' 1%positive "transform" 5%positive in
        PyObj.getattr h'' 1%positive "transform" = Ok 5%positive /\
        PyObj.getattr h'' s "transform" = Ok t /\
        PyObj.getattr h'' s "classes" = Ok c /\
        PyObj.getattr h'' 1%positive "classes" = Ok c
  | Raise _ => False
  end.
Proof.
  destruct (PyObj.Subset Demo.heap 1%positive 2%positive) as [[h' s]|e] eqn:E.
  - exact (C9_subset_snapshot Demo.heap 1%positive 2%positive 5%positive h' s E).
  - pose proof demo_subset_ok as Hok. rewrite E in Hok. discriminate Hok.
Defined.

(** ** Building the datasets: what a successful call went through *)

Lemma rbind_Ok {A B} (r : result A) (k : A -> result B) b :
  rbind r k = Ok b -> exists a, r = Ok a /\ k a = Ok b.
Proof. destruct r as [a|e]; simpl; [eauto|discriminate]. Qed.

Lemma arange_Ok k l : arange k = Ok l -> 0 <= k /\ l = seq 0 (Z.to_nat k).
Proof.
  unfold arange. destruct (Z.ltb_spec k 0); [discriminate|].
  intros [= <-]. done.
Qed.

Lemma arange_nonneg k : 0 <= k -> arange k = Ok (seq 0 (Z.to_nat k)).
Proof. intros H. unfold arange. by destruct (Z.ltb_spec k 0); [lia|]. Qed.

Lemma truncate_validsets_spec n vs vs' :
  truncate_validsets n vs = Ok vs' ->
  Forall2 (fun kv kv' =>
             fst kv' = fst kv
             /\ Subset (snd kv) (seq 0 (Z.to_nat n)) = Ok (snd kv'))
          vs vs'.
Proof.
  unfold truncate_validsets. intros H. apply mapM_Forall2 in H.
  eapply Forall2_impl; [exact H|]. intros [k d] [k' d'] Hkv. simpl in *.
  apply rbind_Ok in Hkv as (idx & Hidx & Hkv).
  apply arange_Ok in Hidx as [_ ->].
  apply rbind_Ok in Hkv as (s & Hs & Hkv). by injection Hkv as <- <-.
Qed.

(** A dry run that gets through its truncation: the bound of the index
    range is not negative and every dataset is wrapped in a [Subset] of
    the indices below it. *)
Lemma wrap_dryrun_inv W cfg st st' :
  wrap_dryrun W cfg true st = Ok st' ->
  0 <= data_batch_size cfg * num_machines W
  /\ exists t vs,
       Subset (trainset st)
         (seq 0 (Z.to_nat (data_batch_size cfg * num_machines W))) = Ok t
       /\ truncate_validsets (data_batch_size cfg * num_machines W)
            (validsets st) = Ok vs
       /\ st' = {| trainset := t; validsets := vs |}.
Proof.
  unfold wrap_dryrun. intros H.
  apply rbind_Ok in H as (idx & Hidx & H). apply arange_Ok in Hidx as [Hn ->].
  apply rbind_Ok in H as (t & Ht & H).
  apply rbind_Ok in H as (vs & Hvs & H). injection H as <-. eauto 10.
Qed.

Lemma _build_datasets_inv W cfg can_download t vs :
  _build_datasets W cfg can_download = Ok (t, vs) ->
  exists trainset0 validset0 stats train_transforms valid_transforms,
    let path := expanduser W (data_path cfg) in
    open_primary W cfg path can_download = Ok (trainset0, validset0) /\
    resolve_stats W cfg trainset0 = Ok stats /\
    _parse_data_augmentations W cfg false
    = Ok (train_transforms, valid_transforms) /\
    extra_validation_loop W path can_download valid_transforms
      (data_extra_validation cfg)
      [(data_name cfg, set_transform validset0 (Some valid_transforms))]
    = Ok vs /\
    reduce_trainset W cfg (set_transform trainset0 (Some train_transforms))
    = Ok t.
Proof.
  unfold _build_datasets. intros H.
  apply rbind_Ok in H as ([trainset0 validset0] & Hopen & H).
  apply rbind_Ok in H as ([dm ds] & Hstats & H).
  apply rbind_Ok in H as ([tt vt] & Hparse & H).
  apply rbind_Ok in H as (vs' & Hextra & H).
  apply rbind_Ok in H as (t' & Hred & H).
  injection H as <- <-.
  exists trainset0, validset0, (dm, ds), tt, vt. cbv zeta. done.
Qed.

(** ** The statistics resolver (C3) *)

Lemma _get_meanstd_raises W ds :
  _get_meanstd W ds = Raise (NameError "trainset").
Proof. reflexivity. Qed.

Lemma resolve_stats_cases W cfg trainset :
  resolve_stats W cfg trainset =
  match data_mean cfg with
  | Some m => Ok (Some m, data_std cfg)
  | None => Raise (NameError "trainset")
  end.
Proof.
  unfold resolve_stats. destruct (data_mean cfg); reflexivity.
Qed.

(** Without explicit statistics [_build_datasets] does not return. *)
Lemma _build_datasets_needs_mean W cfg can_download r :
  data_mean cfg = None -> _build_datasets W cfg can_download <> Ok r.
Proof.
  intros Hmean H. destruct r as [t vs].
  apply _build_datasets_inv in H as (t0 & v0 & st & tt & vt & _ & Hst & _).
  rewrite resolve_stats_cases, Hmean in Hst. discriminate.
Qed.

(** C3: with explicit statistics the resolver returns them as they are,
    whatever the dataset.  Without them it calls [_get_meanstd], whose
    body reads the unbound name [trainset] and raises [NameError] before
    any sample is read: no mean or standard deviation is computed, and
    [_build_datasets] fails, as on the configuration without statistics
    evaluated here. *)
Theorem C3_statistics_resolver :
  (forall (W : World) (cfg : cfg_data) (trainset : dataset),
     resolve_stats W cfg trainset =
     match data_mean cfg with
     | Some m => Ok (Some m, data_std cfg)
     | None => Raise (NameError "trainset")
     end)
  /\ _build_datasets Demo.world Demo.data_no_mean true
     = Raise (NameError "trainset").
Proof.
  split; [exact resolve_stats_cases|]. vm_compute. reflexivity.
Qed.

(** ** The normalization step (C4) *)


(** C4: on a configuration with normalization enabled and no explicit
    statistics, the pipeline builder appends [Normalize(None, None)]: it
    reads [cfg_data.mean] and [cfg_data.std], not the statistics resolved
    in [_build_datasets], which on this configuration raises before the
    builder is reached. *)
Theorem C4_normalize_reads_configuration :
  data_normalize Demo.data_no_mean = true
  /\ data_mean Demo.data_no_mean = None
  /\ _parse_data_augmentations Demo.world Demo.data_no_mean false
     = Ok ([Resize [VNum (PInt 64); VNum (PInt 64)]; ToRGB; ToTensor;
            Normalize None None],
           [ToTensor; Normalize None None])
  /\ _build_datasets Demo.world Demo.data_no_mean true
     = Raise (NameError "trainset").
Proof.
  repeat split; vm_compute; reflexivity.
Qed.

(** ** Caching (C2) *)

Lemma dict_set_not_nil {A} (d : list (string * A)) k v : dict_set d k v <> [].
Proof.
  destruct d as [|[k' v'] d]; simpl; [discriminate|].
  destruct (String.eqb k' k); discriminate.
Qed.

Lemma extra_validation_loop_not_nil W root cd vt names vs0 vs :
  vs0 <> [] ->
  extra_validation_loop W root cd vt names vs0 = Ok vs -> vs <> [].
Proof.
  revert vs0. induction names as [|n names IH]; simpl; intros vs0 Hne H.
  - by injection H as <-.
  - apply rbind_Ok in H as (ds & _ & H).
    eapply IH; [|exact H]. apply dict_set_not_nil.
Qed.

Lemma _build_datasets_validsets_not_nil W cfg cd t vs :
  _build_datasets W cfg cd = Ok (t, vs) -> vs <> [].
Proof.
  intros H. apply _build_datasets_inv in H
    as (t0 & v0 & st & tt & vt & _ & _ & _ & Hextra & _).
  cbv zeta in Hextra.
  eapply extra_validation_loop_not_nil; [|exact Hextra]. discriminate.
Qed.

Lemma wrap_lmdb_validsets W cfg st :
  validsets (wrap_lmdb W cfg st) = validsets st.
Proof. unfold wrap_lmdb. by destruct (bool_decide _). Qed.

Lemma wrap_dryrun_validsets_length W cfg dryrun st st' :
  wrap_dryrun W cfg dryrun st = Ok st' ->
  length (validsets st') = length (validsets st).
Proof.
  unfold wrap_dryrun. destruct dryrun; [|by intros [= <-]].
  intros H. apply rbind_Ok in H as (idx & _ & H).
  apply rbind_Ok in H as (t & _ & H).
  apply rbind_Ok in H as (vs & Hvs & H). injection H as <-. simpl.
  unfold truncate_validsets in Hvs. by apply mapM_length in Hvs.
Qed.

(** Reading the unbound [validset] fails on the first item. *)
Lemma cache_validsets_unbound num_workers pin_memory vs :
  vs <> [] ->
  cache_validsets None num_workers pin_memory vs = Raise (NameError "validset").
Proof. destruct vs as [|kv vs]; [done|reflexivity]. Qed.

(** C2: with caching enabled [construct_dataloader] does not return.  The
    train dataset is wrapped, and the comprehension over the validation
    sets then reads [validset], which is unbound at that point: once the
    datasets are built and the dry-run truncation is through, the call
    raises [NameError]. *)
Theorem C2_caching_raises (W : World) (cfg : cfg_data) (impl : cfg_impl)
    (hyp : cfg_hyp) (dryrun : bool) :
  data_caching cfg = true ->
  (forall r, construct_dataloader W cfg impl hyp dryrun <> Ok r)
  /\ (forall t0 vs0 st,
        _build_datasets W cfg (negb (impl_setup_dist impl)) = Ok (t0, vs0) ->
        wrap_dryrun W cfg dryrun
          (wrap_lmdb W cfg {| trainset := t0; validsets := vs0 |}) = Ok st ->
        construct_dataloader W cfg impl hyp dryrun
        = Raise (NameError "validset")).
Proof.
  intros Hcache.
  assert (Hraise : forall t0 vs0 st,
    _build_datasets W cfg (negb (impl_setup_dist impl)) = Ok (t0, vs0) ->
    wrap_dryrun W cfg dryrun
      (wrap_lmdb W cfg {| trainset := t0; validsets := vs0 |}) = Ok st ->
    construct_dataloader W cfg impl hyp dryrun = Raise (NameError "validset")).
  { intros t0 vs0 st Hb Hd. unfold construct_dataloader.
    rewrite Hb. simpl. rewrite Hd. simpl.
    unfold wrap_caching_valid, wrap_caching_train. rewrite Hcache. simpl.
    rewrite cache_validsets_unbound; [reflexivity|].
    apply _build_datasets_validsets_not_nil in Hb.
    apply wrap_dryrun_validsets_length in Hd.
    rewrite wrap_lmdb_validsets in Hd. simpl in Hd.
    destruct (validsets st); [|discriminate].
    destruct vs0; [done|discriminate]. }
  split; [|exact Hraise].
  intros r Hr.
  destruct (_build_datasets W cfg (negb (impl_setup_dist impl)))
    as [[t0 vs0]|] eqn:Hb.
  - destruct (wrap_dryrun W cfg dryrun
               (wrap_lmdb W cfg {| trainset := t0; validsets := vs0 |}))
      as [st|] eqn:Hd.
    + rewrite (Hraise _ _ _ eq_refl Hd) in Hr. discriminate.
    + unfold construct_dataloader in Hr. rewrite Hb in Hr. simpl in Hr.
      rewrite Hd in Hr. discriminate.
  - unfold construct_dataloader in Hr. rewrite Hb in Hr. discriminate.
Qed.

Lemma C2_caching_raises_witness :
  data_caching Demo.data_caching_on = true
  /\ (forall r,
        construct_dataloader Demo.world Demo.data_caching_on Demo.impl
          Demo.hyp false <> Ok r)
  /\ (forall t0 vs0 st,
        _build_datasets Demo.world Demo.data_caching_on
          (negb (impl_setup_dist Demo.impl)) = Ok (t0, vs0) ->
        wrap_dryrun Demo.world Demo.data_caching_on false
          (wrap_lmdb Demo.world Demo.data_caching_on
             {| trainset := t0; validsets := vs0 |}) = Ok st ->
        construct_dataloader Demo.world Demo.data_caching_on Demo.impl
          Demo.hyp false
        = Raise (NameError "validset")).
Proof.
  split; [reflexivity|].
  exact (C2_caching_raises Demo.world Demo.data_caching_on Demo.impl
           Demo.hyp false eq_refl).
Defined.

(** The failing call, evaluated. *)
Lemma caching_demo_raises :
  construct_dataloader Demo.world Demo.data_caching_on Demo.impl Demo.hyp false
  = Raise (NameError "validset").
Proof. vm_compute. reflexivity. Qed.

(** ** The order of the pipeline (C7) *)











(** On a 48 x 32 greyscale PIL image that pipeline first yields a 64 x 64
    image that is still greyscale, then the RGB image, then the tensor. *)
Lemma demo_pipeline_trace :
  compose_trace Demo.world
    [Resize [VNum (PInt 64); VNum (PInt 64)]; ToRGB; ToTensor;
     Normalize Demo.stats Demo.stats]
    {| kind := PILImage; height := 48; width := 32; is_rgb := false |}
  = Ok [ {| kind := PILImage; height := 64; width := 64; is_rgb := false |};
         {| kind := PILImage; height := 64; width := 64; is_rgb := true |};
         {| kind := TensorSample; height := 64; width := 64; is_rgb := true |};
         {| kind := TensorSample; height := 64; width := 64; is_rgb := true |} ]
  /\ apply_compose Demo.world
       [Resize [VNum (PInt 64); VNum (PInt 64)]; ToRGB; ToTensor;
        Normalize Demo.stats Demo.stats]
       {| kind := PILImage; height := 48; width := 32; is_rgb := false |}
     = Ok {| kind := TensorSample; height := 64; width := 64; is_rgb := true |}.
Proof. split; reflexivity. Qed.


(** ** The order of the wrapper layers (C1) *)

Lemma is_base_layers d : is_base d -> layers d = [] /\ base_of d = d.
Proof. destruct d; simpl; done. Qed.

Lemma open_vision_is_base W cls root kwargs transform d :
  open_vision W cls root kwargs transform = Ok d -> is_base d.
Proof.
  unfold open_vision. intros H. apply rbind_Ok in H as (info & _ & H).
  injection H as <-. exact I.
Qed.

Lemma set_classes_is_base d c : is_base d -> is_base (set_classes d c).
Proof. destruct d; simpl; done. Qed.

Lemma set_transform_is_base d t : is_base d -> is_base (set_transform d t).
Proof. destruct d; simpl; done. Qed.

Lemma set_transform_len d t : len (set_transform d t) = len d.
Proof. destruct d; reflexivity. Qed.

(** Both datasets of the dispatch are freshly opened ones. *)
Lemma open_primary_is_base W cfg root can_download t v :
  open_primary W cfg root can_download = Ok (t, v) -> is_base t /\ is_base v.
Proof.
  unfold open_primary.
  repeat (match goal with
          | |- context [if ?b then _ else _] => destruct b
          end;
          [intros H;
           apply rbind_Ok in H as (t' & Ht & H);
           apply rbind_Ok in H as (v' & Hv & H);
           injection H as <- <-;
           apply open_vision_is_base in Ht, Hv;
           split; try apply set_classes_is_base; done|]).
  discriminate.
Qed.

Lemma Subset_inv_pure ds indices s :
  Subset ds indices = Ok s ->
  exists c, get_classes ds = Ok c /\
            s = SubsetObj ds indices (get_transform ds) c.
Proof.
  unfold Subset. intros H. apply rbind_Ok in H as (c & Hc & H).
  injection H as <-. eauto.
Qed.

Lemma Subset_layers ds indices s :
  Subset ds indices = Ok s ->
  layers s = layers ds ++ [LayerSubset indices] /\ base_of s = base_of ds.
Proof.
  intros H. apply Subset_inv_pure in H as (c & _ & ->). simpl. done.
Qed.

(** The size reduction is the one layer [_build_datasets] adds, straight
    on the opened train set. *)
Lemma reduce_trainset_layers W cfg t0 t :
  reduce_trainset W cfg t0 = Ok t ->
  layers t = layers t0 ++ size_reduction_layer W cfg (len t0)
  /\ base_of t = base_of t0.
Proof.
  unfold reduce_trainset, size_reduction_layer.
  destruct (data_size cfg <? Z.of_nat (len t0)).
  - apply Subset_layers.
  - intros [= <-]. by rewrite app_nil_r.
Qed.

Lemma _build_datasets_layers W cfg can_download t vs :
  _build_datasets W cfg can_download = Ok (t, vs) ->
  is_base (base_of t) /\
  layers t = size_reduction_layer W cfg (len (base_of t)).
Proof.
  intros H. apply _build_datasets_inv in H
    as (t0 & v0 & st & tt & vt & Hopen & _ & _ & _ & Hred).
  apply open_primary_is_base in Hopen as [Ht0 _].
  apply (set_transform_is_base _ (Some tt)) in Ht0.
  apply reduce_trainset_layers in Hred as [Hl Hb].
  destruct (is_base_layers _ Ht0) as [Hl0 Hb0].
  rewrite Hb, Hb0. split; [done|]. by rewrite Hl, Hl0.
Qed.

Lemma wrap_lmdb_layers W cfg st :
  layers (trainset (wrap_lmdb W cfg st)) = layers (trainset st) ++ lmdb_layer cfg.
Proof.
  unfold wrap_lmdb, lmdb_layer. destruct (bool_decide _); simpl;
    [reflexivity|by rewrite app_nil_r].
Qed.

Lemma wrap_dryrun_layers W cfg dryrun st st' :
  wrap_dryrun W cfg dryrun st = Ok st' ->
  layers (trainset st') = layers (trainset st) ++ dryrun_layer W cfg dryrun.
Proof.
  unfold dryrun_layer. destruct dryrun.
  - intros H. apply wrap_dryrun_inv in H as (_ & t & vs & Ht & _ & ->). simpl.
    by apply Subset_layers in Ht as [-> _].
  - intros [= <-]. by rewrite app_nil_r.
Qed.

Lemma wrap_caching_train_layers cfg impl st :
  layers (trainset (wrap_caching_train cfg impl st))
  = layers (trainset st) ++ caching_layer cfg.
Proof.
  unfold wrap_caching_train, caching_layer. destruct (data_caching cfg); simpl;
    [reflexivity|by rewrite app_nil_r].
Qed.

Lemma wrap_caching_valid_trainset cfg impl st st' :
  wrap_caching_valid cfg impl st = Ok st' -> trainset st' = trainset st.
Proof.
  unfold wrap_caching_valid. destruct (data_caching cfg).
  - intros H. apply rbind_Ok in H as (vs & _ & H). by injection H as <-.
  - by intros [= <-].
Qed.

Lemma DataLoader_inv ds batch_size smp drop_last num_workers pin_memory pw dl :
  DataLoader ds batch_size smp drop_last num_workers pin_memory pw = Ok dl ->
  0 < batch_size /\
  dl = {| dl_dataset := ds; dl_batch_size := batch_size; dl_sampler := smp;
          dl_drop_last := drop_last; dl_num_workers := num_workers;
          dl_pin_memory := pin_memory; dl_persistent_workers := pw |}.
Proof.
  unfold DataLoader. destruct (num_workers <? 0); [discriminate|].
  destruct (pw && (num_workers =? 0)); [discriminate|].
  destruct (batch_size <=? 0) eqn:Hb; [discriminate|].
  intros [= <-]. split; [lia|reflexivity].
Qed.

(** What a call of [construct_dataloader] that returns went through. *)
Lemma construct_dataloader_inv W cfg impl hyp dryrun tl vl :
  construct_dataloader W cfg impl hyp dryrun = Ok (tl, vl) ->
  exists t0 vs0 st st' smp,
    _build_datasets W cfg (negb (impl_setup_dist impl)) = Ok (t0, vs0) /\
    wrap_dryrun W cfg dryrun
      (wrap_lmdb W cfg {| trainset := t0; validsets := vs0 |}) = Ok st /\
    wrap_caching_valid cfg impl (wrap_caching_train cfg impl st) = Ok st' /\
    choose_train_sampler W impl hyp (trainset st') = Ok smp /\
    DataLoader (trainset st')
      (Z.min (data_batch_size cfg) (Z.of_nat (len (trainset st'))))
      smp true (choose_num_workers W impl) (impl_pin_memory impl)
      (if 0 <? choose_num_workers W impl
       then impl_persistent_workers impl else false) = Ok tl /\
    validloaders_loop cfg impl (choose_num_workers W impl) (validsets st') []
    = Ok vl.
Proof.
  unfold construct_dataloader. intros H.
  apply rbind_Ok in H as ([t0 vs0] & Hb & H).
  apply rbind_Ok in H as (st & Hd & H).
  apply rbind_Ok in H as (st' & Hc & H).
  apply rbind_Ok in H as (smp & Hs & H).
  apply rbind_Ok in H as (tl' & Hl & H).
  apply rbind_Ok in H as (vl' & Hv & H).
  injection H as <- <-.
  exists t0, vs0, st, st', smp. done.
Qed.

(** C1, counterexample: a train set of 105 samples reduced to 10, behind
    an LMDB store, in a dry run.  The size-reduction Subset is the
    innermost layer, under the LMDB wrapper and the dry-run Subset, where
    the stated order has it outermost. *)
Lemma C1_counterexample :
  exists tl vl,
    construct_dataloader Demo.world Demo.data_reduced Demo.impl Demo.hyp true
    = Ok (tl, vl) /\
    layers (dl_dataset tl)
    = [LayerSubset (seq 89 10); LayerLMDB; LayerSubset (seq 0 32)] /\
    spec_layer_order Demo.world Demo.data_reduced true 105
    = [LayerLMDB; LayerSubset (seq 0 32); LayerSubset (seq 25 7 ++ seq 0 3)] /\
    layers (dl_dataset tl)
    <> spec_layer_order Demo.world Demo.data_reduced true 105.
Proof.
  eexists. eexists. split; [vm_compute; reflexivity|].
  split; [vm_compute; reflexivity|].
  split; [vm_compute; reflexivity|].
  vm_compute. intros H. discriminate H.
Qed.

(** C1, as the source has it: the size-reduction Subset is formed first,
    inside [_build_datasets], straight on the opened train set;
    [construct_dataloader] then adds the LMDB wrapper, the dry-run Subset
    and the cache wrapper, in that order, each one if it is configured.
    This is the layering of the train dataset after the statement that
    wraps it in the cache, and of the dataset of the train loader whenever
    [construct_dataloader] returns. *)
Theorem C1_layer_order (W : World) (cfg : cfg_data) (impl : cfg_impl)
    (hyp : cfg_hyp) (dryrun : bool) (t0 : dataset)
    (vs0 : list (string * dataset)) (st : locals) :
  _build_datasets W cfg (negb (impl_setup_dist impl)) = Ok (t0, vs0) ->
  wrap_dryrun W cfg dryrun
    (wrap_lmdb W cfg {| trainset := t0; validsets := vs0 |}) = Ok st ->
  let n := len (base_of t0) in
  layers t0 = size_reduction_layer W cfg n /\
  layers (trainset (wrap_caching_train cfg impl st))
  = size_reduction_layer W cfg n ++ lmdb_layer cfg
    ++ dryrun_layer W cfg dryrun ++ caching_layer cfg /\
  (forall tl vl,
     construct_dataloader W cfg impl hyp dryrun = Ok (tl, vl) ->
     layers (dl_dataset tl) = source_layer_order W cfg dryrun n).
Proof.
  intros Hb Hd n.
  pose proof (_build_datasets_layers _ _ _ _ _ Hb) as [_ Hl0]. fold n in Hl0.
  assert (Hall : layers (trainset (wrap_caching_train cfg impl st))
                 = source_layer_order W cfg dryrun n).
  { rewrite wrap_caching_train_layers, (wrap_dryrun_layers _ _ _ _ _ Hd).
    rewrite wrap_lmdb_layers. simpl. rewrite Hl0.
    unfold source_layer_order. by rewrite <- !app_assoc. }
  split; [done|]. split; [exact Hall|].
  intros tl vl H. apply construct_dataloader_inv in H
    as (t0' & vs0' & st1 & st' & smp & Hb' & Hd' & Hc & _ & Hl & _).
  rewrite Hb in Hb'. injection Hb' as <- <-.
  rewrite Hd in Hd'. injection Hd' as <-.
  apply DataLoader_inv in Hl as [_ ->]. simpl.
  by rewrite (wrap_caching_valid_trainset _ _ _ _ Hc).
Qed.

Lemma C1_layer_order_witness :
  exists t0 vs0 st,
    _build_datasets Demo.world Demo.data_reduced
      (negb (impl_setup_dist Demo.impl)) = Ok (t0, vs0) /\
    wrap_dryrun Demo.world Demo.data_reduced true
      (wrap_lmdb Demo.world Demo.data_reduced
         {| trainset := t0; validsets := vs0 |}) = Ok st /\
    let n := len (base_of t0) in
    layers t0 = size_reduction_layer Demo.world Demo.data_reduced n /\
    layers (trainset (wrap_caching_train Demo.data_reduced Demo.impl st))
    = size_reduction_layer Demo.world Demo.data_reduced n
      ++ lmdb_layer Demo.data_reduced
      ++ dryrun_layer Demo.world Demo.data_reduced true
      ++ caching_layer Demo.data_reduced /\
    (forall tl vl,
       construct_dataloader Demo.world Demo.data_reduced Demo.impl Demo.hyp true
       = Ok (tl, vl) ->
       layers (dl_dataset tl)
       = source_layer_order Demo.world Demo.data_reduced true n).
Proof.
  eexists. eexists. eexists.
  split; [vm_compute; reflexivity|].
  split; [vm_compute; reflexivity|].
  eapply (C1_layer_order Demo.world Demo.data_reduced Demo.impl Demo.hyp true).
  - vm_compute. reflexivity.
  - vm_compute. reflexivity.
Defined.

(** ** Download permission (C10) *)

Lemma open_vision_flag W cls root kwargs transform d :
  open_vision W cls root kwargs transform = Ok d ->
  download_flag d = kw_lookup "download" kwargs.
Proof.
  unfold open_vision. intros H. apply rbind_Ok in H as (info & _ & H).
  by injection H as <-.
Qed.

Lemma download_flag_set_classes d c :
  download_flag (set_classes d c) = download_flag d.
Proof. destruct d; reflexivity. Qed.

Lemma download_flag_set_transform d t :
  download_flag (set_transform d t) = download_flag d.
Proof. destruct d; reflexivity. Qed.

Lemma download_flag_base d d' :
  base_of d = base_of d' -> download_flag d = download_flag d'.
Proof. unfold download_flag. by intros ->. Qed.

Lemma open_primary_flags W cfg root can_download t v :
  open_primary W cfg root can_download = Ok (t, v) ->
  download_flag t = passed_download can_download (data_name cfg) /\
  download_flag v = passed_download can_download (data_name cfg).
Proof.
  unfold open_primary. cbv zeta. generalize (data_name cfg). intros name.
  repeat (match goal with
          | |- context [String.eqb name ?s] =>
              destruct (String.eqb_spec name s) as [->|?]
          end;
          [intros H;
           apply rbind_Ok in H as (t' & Ht & H);
           apply rbind_Ok in H as (v' & Hv & H);
           injection H as <- <-;
           apply open_vision_flag in Ht, Hv;
           rewrite ?download_flag_set_classes, Ht, Hv;
           split; reflexivity|]).
  discriminate.
Qed.

Lemma open_extra_validset_flag W root can_download vt name d :
  open_extra_validset W root can_download vt name = Ok d ->
  download_flag d = passed_download can_download name.
Proof.
  unfold open_extra_validset. cbv zeta.
  repeat (match goal with
          | |- context [String.eqb name ?s] =>
              destruct (String.eqb_spec name s) as [->|?]
          end;
          [intros H; apply open_vision_flag in H; rewrite H; reflexivity|]).
  discriminate.
Qed.

Lemma dict_set_Forall {A} (P : string * A -> Prop) d k v :
  Forall P d -> P (k, v) -> Forall P (dict_set d k v).
Proof.
  intros Hd Hkv. induction Hd as [|[k' v'] d Hx Hd IH]; simpl.
  - by constructor.
  - destruct (String.eqb_spec k' k) as [->|Hne]; constructor; done.
Qed.

Lemma extra_validation_loop_flags W root can_download vt names vs0 vs :
  flags_ok can_download vs0 ->
  extra_validation_loop W root can_download vt names vs0 = Ok vs ->
  flags_ok can_download vs.
Proof.
  revert vs0. induction names as [|n names IH]; simpl; intros vs0 H0 H.
  - by injection H as <-.
  - apply rbind_Ok in H as (d & Hd & H). apply (IH (dict_set vs0 n d)); [|done].
    apply dict_set_Forall; [done|].
    simpl. by eapply open_extra_validset_flag.
Qed.

Lemma _build_datasets_flags W cfg can_download t vs :
  _build_datasets W cfg can_download = Ok (t, vs) ->
  download_flag t = passed_download can_download (data_name cfg) /\
  flags_ok can_download vs.
Proof.
  intros H. apply _build_datasets_inv in H
    as (t0 & v0 & st & tt & vt & Hopen & _ & _ & Hextra & Hred).
  apply open_primary_flags in Hopen as [Ht0 Hv0].
  apply reduce_trainset_layers in Hred as [_ Hb].
  split.
  - rewrite (download_flag_base _ _ Hb). by rewrite download_flag_set_transform.
  - cbv zeta in Hextra. apply (extra_validation_loop_flags _ _ _ _ _ _ _)
      with (2 := Hextra).
    constructor; [|constructor]. simpl. by rewrite download_flag_set_transform.
Qed.

Lemma truncate_validsets_flags can_download n vs vs' :
  flags_ok can_download vs -> truncate_validsets n vs = Ok vs' ->
  flags_ok can_download vs'.
Proof.
  intros H0 H. apply truncate_validsets_spec in H.
  induction H as [|[k d] [k' d'] vs vs' [Hk Hs] _ IH]; [constructor|].
  apply Forall_cons in H0 as [Hd H0]. constructor; [|by apply IH].
  simpl in *. subst k'. apply Subset_layers in Hs as [_ Hb].
  by rewrite (download_flag_base _ _ Hb).
Qed.

Lemma cache_validsets_unbound_nil num_workers pin_memory vs vs' :
  cache_validsets None num_workers pin_memory vs = Ok vs' -> vs' = [].
Proof.
  destruct vs as [|kv vs]; simpl; [by intros [= <-]|discriminate].
Qed.

(** The wrapper statements keep the constructor calls underneath. *)
Lemma wrappers_flags W cfg impl dryrun can_download t0 vs0 st st' :
  wrap_dryrun W cfg dryrun
    (wrap_lmdb W cfg {| trainset := t0; validsets := vs0 |}) = Ok st ->
  wrap_caching_valid cfg impl (wrap_caching_train cfg impl st) = Ok st' ->
  flags_ok can_download vs0 ->
  download_flag (trainset st') = download_flag t0 /\
  flags_ok can_download (validsets st').
Proof.
  intros Hd Hc Hvs.
  assert (H1 : download_flag (trainset st) = download_flag t0
               /\ flags_ok can_download (validsets st)).
  { assert (Hl : download_flag
                   (trainset (wrap_lmdb W cfg
                      {| trainset := t0; validsets := vs0 |}))
                 = download_flag t0)
      by (unfold wrap_lmdb; destruct (bool_decide _); reflexivity).
    destruct dryrun.
    - apply wrap_dryrun_inv in Hd as (_ & t & vs & Ht & Hv & ->). simpl.
      apply Subset_layers in Ht as [_ Hb].
      rewrite (download_flag_base _ _ Hb), Hl. split; [done|].
      rewrite wrap_lmdb_validsets in Hv. by eapply truncate_validsets_flags.
    - injection Hd as <-. by rewrite Hl, wrap_lmdb_validsets. }
  destruct H1 as [Ht Hv].
  unfold wrap_caching_valid, wrap_caching_train in Hc.
  destruct (data_caching cfg).
  - apply rbind_Ok in Hc as (vs & Hvs' & Hc). injection Hc as <-. simpl.
    apply cache_validsets_unbound_nil in Hvs' as ->.
    split; [done|constructor].
  - by injection Hc as <-.
Qed.

Lemma validloaders_loop_flags can_download cfg impl nw items acc vl :
  flags_ok can_download items ->
  Forall (fun kl => download_flag (dl_dataset (snd kl))
                    = passed_download can_download (fst kl)) acc ->
  validloaders_loop cfg impl nw items acc = Ok vl ->
  Forall (fun kl => download_flag (dl_dataset (snd kl))
                    = passed_download can_download (fst kl)) vl.
Proof.
  revert acc. induction items as [|[k d] items IH]; simpl; intros acc Hi Ha H.
  - by injection H as <-.
  - apply rbind_Ok in H as (dl & Hdl & H).
    apply Forall_cons in Hi as [Hd Hi]. apply (IH _ Hi) in H; [done|].
    apply DataLoader_inv in Hdl as [_ ->].
    by apply dict_set_Forall.
Qed.

(** The calls that are written down. *)
Lemma lbind_snd {A B} (m : logged A) (k : A -> logged B) :
  snd (lbind m k) = rbind (snd m) (fun a => snd (k a)).
Proof. unfold lbind. by destruct (snd m). Qed.

Lemma lbind_calls {A B} (P : open_call -> Prop) (m : logged A)
    (k : A -> logged B) :
  Forall P (fst m) -> (forall a, Forall P (fst (k a))) ->
  Forall P (fst (lbind m k)).
Proof.
  intros Hm Hk. unfold lbind. destruct (snd m); simpl; [|done].
  apply Forall_app. by split.
Qed.

Lemma open_two_logged_snd W cls root kt trt kv trv :
  snd (open_two_logged W cls root kt trt kv trv)
  = (trainset <~ open_vision W cls root kt trt ;;
     validset <~ open_vision W cls root kv trv ;;
     Ok (trainset, validset)).
Proof.
  unfold open_two_logged. rewrite lbind_snd. simpl.
  destruct (open_vision W cls root kt trt); simpl; [|reflexivity].
  rewrite lbind_snd. reflexivity.
Qed.

Lemma open_two_logged_calls (P : open_call -> Prop) W cls root kt trt kv trv :
  P {| oc_class := cls; oc_root := root; oc_kwargs := kt |} ->
  P {| oc_class := cls; oc_root := root; oc_kwargs := kv |} ->
  Forall P (fst (open_two_logged W cls root kt trt kv trv)).
Proof.
  intros Ht Hv. unfold open_two_logged.
  apply lbind_calls; [by repeat constructor|]. intros t.
  apply lbind_calls; [by repeat constructor|]. intros v. constructor.
Qed.

(** The run with the calls written down is the run. *)
Lemma open_primary_logged_snd W cfg root can_download :
  snd (open_primary_logged W cfg root can_download)
  = open_primary W cfg root can_download.
Proof.
  unfold open_primary_logged, open_primary. cbv zeta.
  repeat (match goal with
          | |- context [String.eqb ?n ?s] => destruct (String.eqb n s)
          end;
          [rewrite ?lbind_snd, open_two_logged_snd;
           repeat (match goal with
                   | |- context [open_vision ?W ?c ?r ?k ?tr] =>
                       destruct (open_vision W c r k tr)
                   end; simpl);
           reflexivity|]).
  reflexivity.
Qed.

Lemma open_extra_validset_logged_snd W root can_download vt name :
  snd (open_extra_validset_logged W root can_download vt name)
  = open_extra_validset W root can_download vt name.
Proof.
  unfold open_extra_validset_logged, open_extra_validset. cbv zeta.
  repeat (match goal with
          | |- context [String.eqb ?n ?s] => destruct (String.eqb n s)
          end; [reflexivity|]).
  reflexivity.
Qed.

Lemma extra_validation_loop_logged_snd W root can_download vt names vs :
  snd (extra_validation_loop_logged W root can_download vt names vs)
  = extra_validation_loop W root can_download vt names vs.
Proof.
  revert vs. induction names as [|n names IH]; intros vs; simpl;
    [reflexivity|].
  rewrite lbind_snd, open_extra_validset_logged_snd.
  destruct (open_extra_validset W root can_download vt n); simpl;
    [apply IH|reflexivity].
Qed.

Lemma _build_datasets_logged_snd W cfg can_download :
  snd (_build_datasets_logged W cfg can_download)
  = _build_datasets W cfg can_download.
Proof.
  unfold _build_datasets_logged, _build_datasets. cbv zeta.
  rewrite lbind_snd, open_primary_logged_snd.
  destruct (open_primary W cfg _ can_download) as [[t v]|]; simpl;
    [|reflexivity].
  rewrite lbind_snd. simpl.
  destruct (resolve_stats W cfg t) as [[m s]|]; simpl; [|reflexivity].
  rewrite lbind_snd. simpl.
  destruct (_parse_data_augmentations W cfg false) as [[tt vt]|]; simpl;
    [|reflexivity].
  rewrite lbind_snd, extra_validation_loop_logged_snd.
  destruct (extra_validation_loop W _ can_download vt _ _); simpl;
    [|reflexivity].
  rewrite lbind_snd. simpl.
  destruct (reduce_trainset W cfg _); reflexivity.
Qed.

(** Every call that is made carries the keyword as its class has it. *)
Lemma open_primary_logged_calls W cfg root can_download :
  Forall (fun call => kw_lookup "download" (oc_kwargs call)
                      = download_of_call can_download call)
    (fst (open_primary_logged W cfg root can_download)).
Proof.
  unfold open_primary_logged. cbv zeta.
  repeat (match goal with
          | |- context [String.eqb ?n ?s] => destruct (String.eqb n s)
          end;
          [try (apply lbind_calls; [|intros; constructor]);
           apply open_two_logged_calls; reflexivity|]).
  constructor.
Qed.

Lemma open_extra_validset_logged_calls W root can_download vt name :
  Forall (fun call => kw_lookup "download" (oc_kwargs call)
                      = download_of_call can_download call)
    (fst (open_extra_validset_logged W root can_download vt name)).
Proof.
  unfold open_extra_validset_logged. cbv zeta.
  repeat (match goal with
          | |- context [String.eqb ?n ?s] => destruct (String.eqb n s)
          end; [by repeat constructor|]).
  constructor.
Qed.

Lemma extra_validation_loop_logged_calls W root can_download vt names vs :
  Forall (fun call => kw_lookup "download" (oc_kwargs call)
                      = download_of_call can_download call)
    (fst (extra_validation_loop_logged W root can_download vt names vs)).
Proof.
  revert vs. induction names as [|n names IH]; intros vs; simpl;
    [constructor|].
  apply lbind_calls; [apply open_extra_validset_logged_calls|].
  intros d. apply IH.
Qed.

Lemma _build_datasets_logged_calls W cfg can_download :
  Forall (fun call => kw_lookup "download" (oc_kwargs call)
                      = download_of_call can_download call)
    (fst (_build_datasets_logged W cfg can_download)).
Proof.
  unfold _build_datasets_logged. cbv zeta.
  apply lbind_calls; [apply open_primary_logged_calls|]. intros tv.
  apply lbind_calls; [constructor|]. intros st.
  apply lbind_calls; [constructor|]. intros tfs.
  apply lbind_calls; [apply extra_validation_loop_logged_calls|]. intros vs.
  apply lbind_calls; [constructor|]. intros t. constructor.
Qed.

(** A dispatch that returns has made its calls. *)
Lemma open_primary_logged_first W cfg root can_download tv :
  snd (open_primary_logged W cfg root can_download) = Ok tv ->
  fst (open_primary_logged W cfg root can_download) <> [].
Proof.
  unfold open_primary_logged. cbv zeta.
  repeat (match goal with
          | |- context [String.eqb ?n ?s] => destruct (String.eqb n s)
          end;
          [intros _; unfold open_two_logged, lbind; simpl;
           repeat (match goal with
                   | |- context [open_vision ?W ?c ?r ?k ?tr] =>
                       destruct (open_vision W c r k tr)
                   end; simpl);
           discriminate|]).
  simpl. intros H. discriminate H.
Qed.

(** C10, counterexample: ImageNet outside distributed mode.  The train set
    is opened without any [download] keyword, where the statement has
    download permitted; no constructor call of the run carries the
    keyword. *)
Lemma C10_counterexample :
  exists tl vl,
    impl_setup_dist Demo.impl = false /\
    construct_dataloader Demo.world Demo.data_imagenet Demo.impl Demo.hyp false
    = Ok (tl, vl) /\
    download_flag (dl_dataset tl) = None /\
    download_flag (dl_dataset tl) <> Some (VBool true) /\
    construct_dataloader_calls Demo.world Demo.data_imagenet Demo.impl
    = [ {| oc_class := ImageNet; oc_root := "~/data";
           oc_kwargs := [("split"%string, VStr "train")] |};
        {| oc_class := ImageNet; oc_root := "~/data";
           oc_kwargs := [("split"%string, VStr "val")] |} ].
Proof.
  eexists. eexists. split; [reflexivity|].
  split; [vm_compute; reflexivity|].
  split; [vm_compute; reflexivity|].
  split; [vm_compute; discriminate|].
  vm_compute. reflexivity.
Qed.

(** C10, as the source has it: [construct_dataloader] passes
    [can_download = not cfg_impl.setup.dist] to [_build_datasets], and
    every dataset constructor call that is made, for the train set, the
    validation set and every extra validation set, carries [download]
    equal to it, except the calls of the ImageNet class, which carry no
    [download] keyword.  This holds of every call in the order the calls
    are made, whether or not a call raises, whether or not
    [construct_dataloader] returns afterwards (with caching enabled it
    does not), and also for a validation set that an extra validation set
    of the same name replaces.  When [construct_dataloader] returns, the
    datasets behind the loaders were opened that way. *)
Theorem C10_download_permission (W : World) (cfg : cfg_data) (impl : cfg_impl)
    (hyp : cfg_hyp) (dryrun : bool) :
  snd (_build_datasets_logged W cfg (negb (impl_setup_dist impl)))
  = _build_datasets W cfg (negb (impl_setup_dist impl))
  /\ Forall (fun call =>
               kw_lookup "download" (oc_kwargs call)
               = match oc_class call with
                 | ImageNet => None
                 | _ => Some (VBool (negb (impl_setup_dist impl)))
                 end)
       (construct_dataloader_calls W cfg impl)
  /\ (forall tl vl,
        construct_dataloader W cfg impl hyp dryrun = Ok (tl, vl) ->
        construct_dataloader_calls W cfg impl <> []
        /\ download_flag (dl_dataset tl)
           = passed_download (negb (impl_setup_dist impl)) (data_name cfg)
        /\ Forall (fun kl =>
                     download_flag (dl_dataset (snd kl))
                     = passed_download (negb (impl_setup_dist impl)) (fst kl))
             vl)
  /\ (forall key, key <> "ImageNet"%string ->
        passed_download (negb (impl_setup_dist impl)) key
        = Some (VBool (negb (impl_setup_dist impl)))).
Proof.
  split; [apply _build_datasets_logged_snd|].
  split; [apply _build_datasets_logged_calls|].
  split.
  - intros tl vl H. apply construct_dataloader_inv in H
      as (t0 & vs0 & st & st' & smp & Hb & Hd & Hc & _ & Hl & Hv).
    split.
    { unfold construct_dataloader_calls, _build_datasets_logged. cbv zeta.
      pose proof (_build_datasets_inv _ _ _ _ _ Hb)
        as (tr0 & v0 & stt & tt & vt & Hopen & _).
      cbv zeta in Hopen.
      assert (Hfirst : fst (open_primary_logged W cfg
                              (expanduser W (data_path cfg))
                              (negb (impl_setup_dist impl))) <> []).
      { apply (open_primary_logged_first _ _ _ _ (tr0, v0)).
        by rewrite open_primary_logged_snd. }
      unfold lbind at 1. rewrite open_primary_logged_snd, Hopen. simpl.
      intros Hnil. apply app_eq_nil in Hnil as [Hnil _]. done. }
    apply _build_datasets_flags in Hb as [Ht0 Hvs0].
    destruct (wrappers_flags _ _ _ _ _ _ _ _ _ Hd Hc Hvs0) as [Ht Hvs].
    split.
    + apply DataLoader_inv in Hl as [_ ->]. simpl. by rewrite Ht.
    + eapply validloaders_loop_flags; [exact Hvs|constructor|exact Hv].
  - intros key Hkey. unfold passed_download.
    by destruct (String.eqb_spec key "ImageNet").
Qed.

Lemma C10_download_permission_witness :
  exists tl vl,
    construct_dataloader (Demo.world_dist 0) Demo.data (Demo.impl_of true)
      Demo.hyp false
    = Ok (tl, vl) /\
    construct_dataloader_calls (Demo.world_dist 0) Demo.data (Demo.impl_of true)
    = [ {| oc_class := CIFAR10; oc_root := "~/data";
           oc_kwargs := [("train"%string, VBool true);
                         ("download"%string, VBool false)] |};
        {| oc_class := CIFAR10; oc_root := "~/data";
           oc_kwargs := [("train"%string, VBool false);
                         ("download"%string, VBool false)] |} ] /\
    is_ok (construct_dataloader (Demo.world_dist 0) Demo.data_caching_on
             (Demo.impl_of true) Demo.hyp false) = false /\
    construct_dataloader_calls (Demo.world_dist 0) Demo.data_caching_on
      (Demo.impl_of true)
    = construct_dataloader_calls (Demo.world_dist 0) Demo.data
        (Demo.impl_of true) /\
    snd (_build_datasets_logged (Demo.world_dist 0) Demo.data
           (negb (impl_setup_dist (Demo.impl_of true))))
    = _build_datasets (Demo.world_dist 0) Demo.data
        (negb (impl_setup_dist (Demo.impl_of true)))
    /\ Forall (fun call =>
                 kw_lookup "download" (oc_kwargs call)
                 = match oc_class call with
                   | ImageNet => None
                   | _ => Some (VBool (negb (impl_setup_dist (Demo.impl_of true))))
                   end)
         (construct_dataloader_calls (Demo.world_dist 0) Demo.data
            (Demo.impl_of true))
    /\ (forall tl vl,
          construct_dataloader (Demo.world_dist 0) Demo.data (Demo.impl_of true)
            Demo.hyp false = Ok (tl, vl) ->
          construct_dataloader_calls (Demo.world_dist 0) Demo.data
            (Demo.impl_of true) <> []
          /\ download_flag (dl_dataset tl)
             = passed_download (negb (impl_setup_dist (Demo.impl_of true)))
                 (data_name Demo.data)
          /\ Forall (fun kl =>
                       download_flag (dl_dataset (snd kl))
                       = passed_download
                           (negb (impl_setup_dist (Demo.impl_of true))) (fst kl))
               vl)
    /\ (forall key, key <> "ImageNet"%string ->
          passed_download (negb (impl_setup_dist (Demo.impl_of true))) key
          = Some (VBool (negb (impl_setup_dist (Demo.impl_of true))))).
Proof.
  eexists. eexists. split; [vm_compute; reflexivity|].
  split; [vm_compute; reflexivity|]. split; [vm_compute; reflexivity|].
  split; [vm_compute; reflexivity|].
  exact (C10_download_permission (Demo.world_dist 0) Demo.data
           (Demo.impl_of true) Demo.hyp false).
Defined.

(** ** Determinism of the size reduction (C8) *)

(** Nothing but the unseeded draw reads the state of the default
    generator. *)
Lemma open_primary_generator g W cfg root can_download :
  open_primary (with_default_generator g W) cfg root can_download
  = open_primary W cfg root can_download.
Proof. reflexivity. Qed.

Lemma mapM_ext {A B} (f f' : A -> result B) l :
  (forall x, f x = f' x) -> mapM f l = mapM f' l.
Proof.
  intros Hf. induction l as [|x l IH]; simpl; [reflexivity|].
  by rewrite Hf, IH.
Qed.

Lemma _parse_cfg_dict_generator g W cfg cfg_dict :
  _parse_cfg_dict (with_default_generator g W) cfg cfg_dict
  = _parse_cfg_dict W cfg cfg_dict.
Proof.
  destruct cfg_dict as [d|]; simpl; [|reflexivity].
  apply mapM_ext. intros kv. reflexivity.
Qed.

Lemma _parse_data_augmentations_generator g W cfg PIL_only :
  _parse_data_augmentations (with_default_generator g W) cfg PIL_only
  = _parse_data_augmentations W cfg PIL_only.
Proof.
  unfold _parse_data_augmentations. by rewrite !_parse_cfg_dict_generator.
Qed.

Lemma extra_validation_loop_generator g W root can_download vt names vs :
  extra_validation_loop (with_default_generator g W) root can_download vt
    names vs
  = extra_validation_loop W root can_download vt names vs.
Proof.
  revert vs. induction names as [|n names IH]; simpl; intros vs; [reflexivity|].
  change (open_extra_validset (with_default_generator g W) root can_download
            vt n)
    with (open_extra_validset W root can_download vt n).
  destruct (open_extra_validset W root can_download vt n); simpl;
    [apply IH|reflexivity].
Qed.

Lemma randperm_generator g W g' n :
  randperm (with_default_generator g W) g' n = randperm W g' n.
Proof. reflexivity. Qed.

(** With [deterministic_subsets] the state of the default generator is
    not read. *)
Lemma _build_datasets_seeded W cfg can_download g :
  data_deterministic_subsets cfg = true ->
  _build_datasets (with_default_generator g W) cfg can_download
  = _build_datasets W cfg can_download.
Proof.
  intros Hdet. unfold _build_datasets, reduce_trainset. rewrite Hdet.
  rewrite open_primary_generator.
  change (expanduser (with_default_generator g W)) with (expanduser W).
  destruct (open_primary W cfg (expanduser W (data_path cfg)) can_download)
    as [[t0 v0]|]; simpl; [|reflexivity].
  change (resolve_stats (with_default_generator g W) cfg t0)
    with (resolve_stats W cfg t0).
  destruct (resolve_stats W cfg t0) as [[dm ds]|]; simpl; [|reflexivity].
  rewrite _parse_data_augmentations_generator.
  destruct (_parse_data_augmentations W cfg false) as [[tt vt]|]; simpl;
    [|reflexivity].
  rewrite extra_validation_loop_generator.
  reflexivity.
Qed.

(** Unseeded, two runs differ when their generators draw different
    permutations, and agree when the draws agree. *)
Lemma unseeded_runs_may_differ :
  data_deterministic_subsets Demo.data_unseeded = false /\
  _build_datasets (with_default_generator 7 Demo.world) Demo.data_unseeded true
  <> _build_datasets (with_default_generator 8 Demo.world) Demo.data_unseeded true.
Proof.
  split; [reflexivity|]. vm_compute. intros H. discriminate H.
Qed.

Lemma unseeded_runs_need_not_differ :
  _build_datasets (with_default_generator 7 Demo.world) Demo.data_unseeded true
  = _build_datasets (with_default_generator 112 Demo.world) Demo.data_unseeded true.
Proof. vm_compute. reflexivity. Qed.

(** C8: with [deterministic_subsets] set, two runs that differ in the
    state of the default generator build the same datasets, the index
    subset of the size reduction included: the subset is the first
    [size] entries of the permutation drawn from a generator seeded with
    the constant 89.  Without the flag the permutation is drawn from the
    default generator, and two runs can differ and can agree. *)
Theorem C8_subset_determinism (W : World) (cfg : cfg_data)
    (can_download : bool) (g1 g2 : rng) :
  data_deterministic_subsets cfg = true ->
  _build_datasets (with_default_generator g1 W) cfg can_download
  = _build_datasets (with_default_generator g2 W) cfg can_download
  /\ (forall t vs,
        _build_datasets (with_default_generator g1 W) cfg can_download
        = Ok (t, vs) ->
        layers t =
        if data_size cfg <? Z.of_nat (len (base_of t)) then
          [LayerSubset
             (py_slice_to
                (randperm W (manual_seed W 89) (len (base_of t)))
                (data_size cfg))]
        else [])
  /\ (exists W' cfg' g g',
        data_deterministic_subsets cfg' = false /\
        _build_datasets (with_default_generator g W') cfg' true
        <> _build_datasets (with_default_generator g' W') cfg' true)
  /\ (exists W' cfg' g g',
        data_deterministic_subsets cfg' = false /\ g <> g' /\
        _build_datasets (with_default_generator g W') cfg' true
        = _build_datasets (with_default_generator g' W') cfg' true).
Proof.
  intros Hdet. split; [|split; [|split]].
  - by rewrite !_build_datasets_seeded.
  - intros t vs H. apply _build_datasets_layers in H as [_ ->].
    unfold size_reduction_layer. rewrite Hdet. reflexivity.
  - exists Demo.world, Demo.data_unseeded, 7, 8. apply unseeded_runs_may_differ.
  - exists Demo.world, Demo.data_unseeded, 7, 112.
    split; [reflexivity|]. split; [discriminate|].
    apply unseeded_runs_need_not_differ.
Qed.

Lemma C8_subset_determinism_witness :
  data_deterministic_subsets Demo.data_reduced = true /\
  _build_datasets (with_default_generator 7 Demo.world) Demo.data_reduced true
  = _build_datasets (with_default_generator 8 Demo.world) Demo.data_reduced true
  /\ (forall t vs,
        _build_datasets (with_default_generator 7 Demo.world) Demo.data_reduced
          true = Ok (t, vs) ->
        layers t =
        if data_size Demo.data_reduced <? Z.of_nat (len (base_of t)) then
          [LayerSubset
             (py_slice_to
                (randperm Demo.world (manual_seed Demo.world 89)
                   (len (base_of t)))
                (data_size Demo.data_reduced))]
        else [])
  /\ (exists W' cfg' g g',
        data_deterministic_subsets cfg' = false /\
        _build_datasets (with_default_generator g W') cfg' true
        <> _build_datasets (with_default_generator g' W') cfg' true)
  /\ (exists W' cfg' g g',
        data_deterministic_subsets cfg' = false /\ g <> g' /\
        _build_datasets (with_default_generator g W') cfg' true
        = _build_datasets (with_default_generator g' W') cfg' true).
Proof.
  split; [reflexivity|].
  exact (C8_subset_determinism Demo.world Demo.data_reduced true 7 8 eq_refl).
Defined.

(** The deterministic subset of the demonstration: ten indices from 89 on,
    in both runs. *)
Lemma demo_seeded_subset :
  forall g,
    In g [7; 8; 112] ->
    match _build_datasets (with_default_generator g Demo.world)
            Demo.data_reduced true with
    | Ok (t, _) => layers t = [LayerSubset (seq 89 10)]
    | Raise _ => False
    end.
Proof.
  intros g [<-|[<-|[<-|[]]]]; vm_compute; reflexivity.
Qed.

(** ** Batches per pass (C6) *)

Section Batching.

Local Open Scope nat_scope.

(** With [drop_last], the batches are the full ones. *)
Lemma batch_sampler_length (batch_size : nat) (indices batch : list nat) :
  0 < batch_size -> length batch < batch_size ->
  length (batch_sampler batch_size true indices batch)
  = (length batch + length indices) / batch_size.
Proof.
  intros Hbs. revert batch.
  induction indices as [|idx indices IH]; simpl; intros batch Hb.
  - rewrite Nat.add_0_r. symmetry. by apply Nat.div_small.
  - rewrite length_app. simpl.
    destruct (Nat.eqb_spec (length batch + 1) batch_size) as [Heq|Hne].
    + simpl. rewrite IH by (simpl; lia). simpl.
      replace (length batch + S (length indices))
        with (length indices + 1 * batch_size) by lia.
      rewrite Nat.div_add by lia. lia.
    + rewrite IH by (rewrite length_app; simpl; lia).
      rewrite length_app. simpl. f_equal. lia.
Qed.

Lemma randperm_length W g n : length (randperm W g n) = n.
Proof. unfold randperm. by rewrite length_map, length_seq. Qed.

(** The sequential and the random sampler yield as many indices as the
    dataset has samples. *)
Lemma sampler_indices_length_local W epoch s :
  match s with
  | SequentialSampler ds | RandomSamplerObj ds _ =>
      length (sampler_indices W epoch s) = len ds
  | DistributedSamplerObj _ _ _ _ => True
  end.
Proof.
  destruct s as [| ds replacement | ds]; simpl; [done| |].
  - destruct replacement.
    + by rewrite length_map, length_seq.
    + apply randperm_length.
  - apply length_seq.
Qed.

Lemma ceil_div_mul_ge n k : 0 < k -> n <= ceil_div n k * k.
Proof.
  intros Hk. unfold ceil_div.
  pose proof (Nat.div_mod_eq (n + k - 1) k) as Hdm.
  pose proof (Nat.mod_upper_bound (n + k - 1) k ltac:(lia)) as Hub.
  nia.
Qed.

(** [l[start::step]] has one entry for [start] and one for every full
    [step] after it. *)
Lemma every_nth_aux_length step skip l :
  0 < step ->
  length (every_nth_aux step skip l)
  = if length l <=? skip then 0
    else S ((length l - skip - 1) / step).
Proof.
  intros Hstep. revert skip.
  induction l as [|x l IH]; simpl; intros skip; [reflexivity|].
  destruct skip as [|skip]; simpl.
  - rewrite IH. rewrite Nat.sub_0_r. f_equal.
    destruct (Nat.leb_spec (length l) (step - 1)) as [Hle|Hgt].
    + symmetry. apply Nat.div_small. lia.
    + replace (length l) with ((length l - (step - 1) - 1) + 1 * step) at 2
        by lia.
      rewrite Nat.div_add by lia. lia.
  - rewrite IH.
    destruct (Nat.leb_spec (length l) skip) as [Hle|Hgt]; reflexivity.
Qed.

Lemma py_slice_step_shard (l : list nat) (rank k num_samples : nat) :
  rank < k -> length l = num_samples * k ->
  length (py_slice_step l rank k) = num_samples.
Proof.
  intros Hr Hl. unfold py_slice_step.
  rewrite every_nth_aux_length by lia. rewrite Hl.
  destruct (Nat.leb_spec (num_samples * k) rank) as [Hle|Hgt].
  - destruct num_samples; [reflexivity|]. simpl in Hle. lia.
  - destruct num_samples as [|m]; [simpl in Hgt; lia|].
    f_equal. symmetry.
    apply (Nat.div_unique _ _ m (k - rank - 1)); [lia|]. nia.
Qed.

(** A distributed sampler yields the shard of its process: the dataset
    length divided by the number of replicas, rounded up. *)
Lemma sampler_indices_length_distributed W epoch ds num_replicas rank shuffle :
  (0 <= rank < num_replicas)%Z ->
  length (sampler_indices W epoch
            (DistributedSamplerObj ds num_replicas rank shuffle))
  = ceil_div (len ds) (Z.to_nat num_replicas).
Proof.
  intros Hr. simpl.
  set (n := len ds). set (k := Z.to_nat num_replicas).
  assert (Hk : 0 < k) by (subst k; lia).
  set (indices := if shuffle then _ else _).
  assert (Hi : length indices = n).
  { subst indices. destruct shuffle;
      [apply randperm_length|apply length_seq]. }
  pose proof (ceil_div_mul_ge n k Hk) as Hge.
  set (total := ceil_div n k * k) in *.
  apply py_slice_step_shard; [subst k; lia|].
  rewrite length_take. apply Nat.min_l.
  destruct (Nat.leb_spec (total - n) n) as [Hle|Hgt].
  - rewrite length_app, length_take, Hi. lia.
  - rewrite length_app, length_take, Hi.
    assert (Hc : total - n <= length
              (concat (replicate (ceil_div (total - n) n) indices))).
    { rewrite length_concat.
      assert (Hsum : forall c, list_sum (map length (replicate c indices)) = c * n).
      { induction c as [|c IHc]; simpl; [reflexivity|]. rewrite IHc, Hi. lia. }
      rewrite Hsum. apply ceil_div_mul_ge.
      destruct (decide (n = 0)) as [Hn0|]; [|lia].
      exfalso. subst total. rewrite Hn0 in Hgt. unfold ceil_div in Hgt.
      rewrite Nat.div_small in Hgt by lia. simpl in Hgt. lia. }
    lia.
Qed.

End Batching.

Lemma batch_sampler_batches (b : nat) (l acc : list nat) :
  (0 < b)%nat -> (length acc < b)%nat ->
  Forall (fun batch => length batch = b) (batch_sampler b true l acc)
  /\ exists tail,
       acc ++ l = concat (batch_sampler b true l acc) ++ tail
       /\ (length tail < b)%nat.
Proof.
  intros Hb. revert acc. induction l as [|idx l IH]; simpl; intros acc Hacc.
  - split; [constructor|]. exists acc. by rewrite app_nil_r.
  - destruct (Nat.eqb_spec (length (acc ++ [idx])) b) as [Heq|Hne].
    + destruct (IH [] ltac:(simpl; lia)) as [Hall (tail & Hc & Ht)].
      split; [by constructor|]. exists tail. split; [|exact Ht].
      simpl. simpl in Hc. rewrite <- !app_assoc. simpl. by rewrite <- Hc.
    + rewrite length_app in Hne. simpl in Hne.
      destruct (IH (acc ++ [idx]) ltac:(rewrite length_app; simpl; lia))
        as [Hall (tail & Hc & Ht)].
      split; [exact Hall|]. exists tail. split; [|exact Ht].
      by rewrite <- Hc, <- app_assoc.
Qed.

Lemma iter_batches_length W epoch ds batch_size smp nw pm pw :
  0 < batch_size ->
  batches_per_pass W epoch
    {| dl_dataset := ds; dl_batch_size := batch_size; dl_sampler := smp;
       dl_drop_last := true; dl_num_workers := nw; dl_pin_memory := pm;
       dl_persistent_workers := pw |}
  = (length (sampler_indices W epoch smp) / Z.to_nat batch_size)%nat.
Proof.
  intros Hbs. unfold batches_per_pass, iter_batches. simpl.
  rewrite batch_sampler_length; simpl; [reflexivity|lia|lia].
Qed.

Lemma DistributedSampler_inv W ds shuffle smp :
  DistributedSampler W ds shuffle = Ok smp ->
  0 <= dist_get_rank W < dist_get_world_size W /\
  smp = DistributedSamplerObj ds (dist_get_world_size W) (dist_get_rank W) shuffle.
Proof.
  unfold DistributedSampler. destruct (negb _); [discriminate|].
  destruct (dist_get_world_size W <=? dist_get_rank W) eqn:H1; [discriminate|].
  destruct (dist_get_rank W <? 0) eqn:H2; [discriminate|].
  simpl. intros [= <-]. split; [lia|reflexivity].
Qed.

Lemma choose_train_sampler_inv W impl hyp ds smp :
  choose_train_sampler W impl hyp ds = Ok smp ->
  (impl_setup_dist impl = false /\
   (smp = SequentialSampler ds \/ exists r, smp = RandomSamplerObj ds r))
  \/ (impl_setup_dist impl = true /\
      0 <= dist_get_rank W < dist_get_world_size W /\
      smp = DistributedSamplerObj ds (dist_get_world_size W) (dist_get_rank W)
              (hyp_shuffle hyp)).
Proof.
  unfold choose_train_sampler. destruct (impl_setup_dist impl).
  - intros H. apply DistributedSampler_inv in H. right. by split.
  - left. split; [reflexivity|]. destruct (hyp_shuffle hyp).
    + unfold RandomSampler in H. destruct (len ds =? 0)%nat; [discriminate|].
      injection H as <-. right. eauto.
    + injection H as <-. by left.
Qed.


(** *** Fetching the batches *)

(** An index at or past the end of a dataset raises [IndexError],
    whatever wraps the dataset. *)
Lemma getitem_out_of_range W d i :
  (len d <= i)%nat -> getitem W d i = Raise IndexError.
Proof.
  revert i. induction d as [call n tr c|d IH idx tr c|d IH db nm cc|d IH nw pm];
    simpl; intros i Hi.
  - destruct (Nat.ltb_spec i n); [lia|reflexivity].
  - by rewrite lookup_ge_None_2.
  - by apply IH.
  - by apply IH.
Qed.

Lemma fetch_batch_length W d batch samples :
  fetch_batch W d batch = Ok samples -> length samples = length batch.
Proof.
  unfold fetch_batch. intros H. apply rbind_Ok in H as (s & Hs & H).
  apply rbind_Ok in H as ([] & _ & H). injection H as <-.
  by eapply mapM_length.
Qed.

(** A batch with an index that cannot be read cannot be fetched. *)
Lemma fetch_batch_fails W d batch i e :
  In i batch -> getitem W d i = Raise e ->
  is_ok (fetch_batch W d batch) = false.
Proof.
  intros Hin Hi. unfold fetch_batch.
  destruct (mapM (getitem W d) batch) as [samples|e'] eqn:Hm; [|reflexivity].
  destruct (mapM_Ok_all _ _ _ _ Hm Hin) as [y Hy]. congruence.
Qed.

(** A pass completes exactly when every batch can be fetched. *)
Lemma run_pass_fetchable W epoch dl :
  fetchable W epoch dl <-> exists batches, run_pass W epoch dl = Ok batches.
Proof.
  unfold fetchable, run_pass. split.
  - apply mapM_all_ok.
  - intros [batches H]. apply Forall_forall. intros b Hb.
    apply list_elem_of_In in Hb.
    destruct (mapM_Ok_all _ _ _ _ H Hb) as [y ->]. reflexivity.
Qed.

Lemma run_pass_shape W epoch dl batches :
  run_pass W epoch dl = Ok batches ->
  length batches = batches_per_pass W epoch dl
  /\ Forall2 (fun idx b => length b = length idx)
       (iter_batches W epoch dl) batches.
Proof.
  unfold run_pass, batches_per_pass. intros H. split.
  - by eapply mapM_length.
  - apply mapM_Forall2 in H. eapply Forall2_impl; [exact H|].
    intros idx b Hb. simpl in Hb. exact (fetch_batch_length _ _ _ _ Hb).
Qed.

(** A pass over a loader that drops the last batch: it completes exactly
    when every batch can be fetched, with as many batches as the batch
    sampler forms, each of the batch size. *)
Lemma pass_spec_loader W epoch dl :
  0 < dl_batch_size dl -> dl_drop_last dl = true ->
  pass_spec W epoch dl (batches_per_pass W epoch dl).
Proof.
  intros Hbs Hdrop. split.
  - intros Hf. apply run_pass_fetchable in Hf as [batches H].
    exists batches. destruct (run_pass_shape _ _ _ _ H) as [Hl Hsh].
    split; [done|]. split; [done|].
    assert (Hidx : Forall (fun idx => length idx = Z.to_nat (dl_batch_size dl))
                     (iter_batches W epoch dl)).
    { unfold iter_batches. rewrite Hdrop.
      apply (batch_sampler_batches (Z.to_nat (dl_batch_size dl)) _ []);
        simpl; lia. }
    clear -Hsh Hidx. induction Hsh as [|idx b l l' Hb _ IH]; [constructor|].
    apply Forall_cons in Hidx as [Hi Hidx]. constructor; [lia|by apply IH].
  - intros batches H. split.
    + apply run_pass_fetchable. eauto.
    + by apply run_pass_shape in H as [-> _].
Qed.




(** The example of the specification: 105 samples in batches of 32 give 3
    batches per pass, with the sequential sampler, with the random sampler
    with and without replacement, and for the validation loader; every
    pass completes with 3 batches of 32 tensors. *)
Lemma demo_three_batches (shuffle replacement : bool) :
  match construct_dataloader Demo.world Demo.data Demo.impl
          {| hyp_shuffle := shuffle;
             hyp_sample_with_replacement := replacement |} false with
  | Ok (tl, vl) =>
      len (dl_dataset tl) = 105%nat /\ dl_batch_size tl = 32 /\
      batches_per_pass Demo.world 0 tl = 3%nat /\
      Forall (fun kl => batches_per_pass Demo.world 0 (snd kl) = 3%nat) vl /\
      option_map (map (fun b : list sample => length b))
        (match run_pass Demo.world 0 tl with
         | Ok batches => Some batches
         | Raise _ => None
         end)
      = Some [32; 32; 32]%nat
  | Raise _ => False
  end.
Proof.
  destruct shuffle, replacement; vm_compute;
    repeat split; repeat constructor.
Qed.

(** * Further properties of the module *)

(** ** Dry-run truncation *)

Lemma Subset_len ds indices s :
  Subset ds indices = Ok s -> len s = length indices.
Proof.
  intros H. apply Subset_inv_pure in H as (c & _ & ->). reflexivity.
Qed.

Lemma wrap_dryrun_lengths (W : World) (cfg : cfg_data) (st st' : locals) :
  wrap_dryrun W cfg true st = Ok st' ->
  let n := Z.to_nat (data_batch_size cfg * num_machines W) in
  len (trainset st') = n
  /\ map fst (validsets st') = map fst (validsets st)
  /\ Forall (fun kv => len (snd kv) = n) (validsets st').
Proof.
  intros H n. subst n.
  apply wrap_dryrun_inv in H as (_ & t & vs & Ht & Hvs & ->). simpl.
  apply Subset_len in Ht. rewrite length_seq in Ht.
  apply truncate_validsets_spec in Hvs.
  split; [exact Ht|]. split.
  - induction Hvs as [|kv kv' l l' [Hk _] _ IH]; simpl; [reflexivity|].
    by rewrite Hk, IH.
  - induction Hvs as [|kv kv' l l' [_ Hs] _ IH]; constructor; [|exact IH].
    apply Subset_len in Hs. by rewrite length_seq in Hs.
Qed.

(** Whatever holds of every validation loader as it is built holds of the
    loaders in the mapping that is returned. *)
Lemma validloaders_loop_all (Q : string * dataloader -> Prop) cfg impl nw
    items acc vl :
  (forall k d dl,
     In (k, d) items ->
     DataLoader d (Z.min (data_batch_size cfg) (Z.of_nat (len d)))
       (SequentialSampler d) true nw (impl_pin_memory impl) false = Ok dl ->
     Q (k, dl)) ->
  Forall Q acc ->
  validloaders_loop cfg impl nw items acc = Ok vl ->
  Forall Q vl.
Proof.
  revert acc. induction items as [|[k d] items IH]; simpl; intros acc HQ Ha H.
  - by injection H as <-.
  - apply rbind_Ok in H as (dl & Hdl & H).
    apply (IH (dict_set acc k dl)); [|by apply dict_set_Forall; eauto|done].
    intros k' d' dl' Hin. apply HQ. by right.
Qed.

Lemma wrappers_after_dryrun_len cfg impl st st' :
  wrap_caching_valid cfg impl (wrap_caching_train cfg impl st) = Ok st' ->
  len (trainset st') = len (trainset st)
  /\ (data_caching cfg = false -> validsets st' = validsets st).
Proof.
  intros H. rewrite (wrap_caching_valid_trainset _ _ _ _ H).
  unfold wrap_caching_valid, wrap_caching_train in *.
  destruct (data_caching cfg); [split; [reflexivity|discriminate]|].
  injection H as <-. done.
Qed.

Lemma wrap_caching_valid_validsets cfg impl st st' :
  wrap_caching_valid cfg impl (wrap_caching_train cfg impl st) = Ok st' ->
  validsets st' = validsets st \/ validsets st' = [].
Proof.
  unfold wrap_caching_valid, wrap_caching_train.
  destruct (data_caching cfg).
  - intros H. apply rbind_Ok in H as (vs & Hvs & H). injection H as <-.
    right. simpl. by eapply cache_validsets_unbound_nil.
  - intros [= <-]. by left.
Qed.

Lemma ceil_div_mul b k : (0 < k)%nat -> ceil_div (b * k) k = b.
Proof.
  intros Hk. unfold ceil_div.
  symmetry. apply (Nat.div_unique _ _ _ (k - 1)%nat); lia.
Qed.

(** A dry run that returns has the configured batch size on every loader;
    the batch sampler of the train loader forms one batch on each process,
    and the one of a validation loader [num_machines] batches. *)
Lemma dryrun_batch_counts (W : World) (cfg : cfg_data) (impl : cfg_impl)
    (hyp : cfg_hyp) (tl : dataloader) (vl : list (string * dataloader)) :
  construct_dataloader W cfg impl hyp true = Ok (tl, vl) ->
  impl_setup_dist impl = dist_is_initialized W ->
  dl_batch_size tl = data_batch_size cfg
  /\ (forall epoch, batches_per_pass W epoch tl = 1%nat)
  /\ Forall (fun kl =>
               dl_batch_size (snd kl) = data_batch_size cfg /\
               forall epoch,
                 batches_per_pass W epoch (snd kl)
                 = Z.to_nat (num_machines W)) vl.
Proof.
  intros H Hmode. apply construct_dataloader_inv in H
    as (t0 & vs0 & st & st' & smp & _ & Hd & Hc & Hs & Hl & Hv).
  pose proof (wrap_dryrun_lengths W cfg _ _ Hd) as (Hlen & _ & Hvlen).
  cbv zeta in Hlen, Hvlen.
  destruct (wrappers_after_dryrun_len _ _ _ _ Hc) as [Hlen' _].
  rewrite Hlen in Hlen'.
  set (n := Z.to_nat (data_batch_size cfg * num_machines W)) in *.
  apply DataLoader_inv in Hl as [Hpos ->].
  rewrite Hlen' in *.
  assert (Hbs : 0 < data_batch_size cfg) by lia.
  assert (Hnm : 0 < num_machines W) by (subst n; nia).
  assert (Hmin : Z.min (data_batch_size cfg) (Z.of_nat n) = data_batch_size cfg)
    by (subst n; nia).
  assert (Hvs' : Forall (fun kv : string * dataset => len (snd kv) = n)
                   (validsets st')).
  { destruct (wrap_caching_valid_validsets _ _ _ _ Hc) as [->| ->];
      [done|constructor]. }
  split; [exact Hmin|]. split.
  - intros epoch. rewrite iter_batches_length by done. rewrite Hmin.
    apply choose_train_sampler_inv in Hs as [[Hdist Hs]|(Hdist & Hr & ->)].
    + assert (Hni : dist_is_initialized W = false) by congruence.
      pose proof (sampler_indices_length_local W epoch smp) as Hl.
      assert (Hsl : length (sampler_indices W epoch smp) = n)
        by (destruct Hs as [->|[r ->]]; by rewrite Hl).
      rewrite Hsl. subst n. unfold num_machines. rewrite Hni, Z.mul_1_r.
      apply Nat.div_same. lia.
    + assert (Hi : dist_is_initialized W = true) by congruence.
      rewrite sampler_indices_length_distributed by done. rewrite Hlen'.
      subst n. unfold num_machines in *. rewrite Hi in *.
      rewrite Z2Nat.inj_mul by lia. rewrite ceil_div_mul by lia.
      apply Nat.div_same. lia.
  - eapply validloaders_loop_all; [|constructor|exact Hv].
    intros k d dl Hin Hdl. simpl.
    assert (Hd' : len d = n).
    { rewrite Forall_forall in Hvs'. apply (Hvs' (k, d)).
      by apply list_elem_of_In. }
    apply DataLoader_inv in Hdl as [Hp ->]. simpl. rewrite Hd' in *.
    split; [exact Hmin|]. intros epoch.
    rewrite iter_batches_length by done. simpl. rewrite length_seq, Hd', Hmin.
    subst n. rewrite Z2Nat.inj_mul by lia. rewrite Nat.mul_comm.
    apply Nat.div_mul. lia.
Qed.

(** ** The size reduction *)

Lemma py_slice_to_len {A} (l : list A) k :
  length (py_slice_to l k) = py_slice_to_length (length l) k.
Proof.
  unfold py_slice_to, py_slice_to_length. destruct (0 <=? k) eqn:Hk.
  - by rewrite length_take.
  - rewrite length_take. lia.
Qed.

Lemma _build_datasets_reduce W cfg can_download t vs :
  _build_datasets W cfg can_download = Ok (t, vs) ->
  exists t0, is_base t0 /\ reduce_trainset W cfg t0 = Ok t /\ base_of t = t0.
Proof.
  intros H. apply _build_datasets_inv in H
    as (t0 & v0 & st & tt & vt & Hopen & _ & _ & _ & Hred).
  apply open_primary_is_base in Hopen as [Ht0 _].
  apply (set_transform_is_base _ (Some tt)) in Ht0.
  eexists. split; [exact Ht0|]. split; [exact Hred|].
  apply reduce_trainset_layers in Hred as [_ ->].
  by apply is_base_layers.
Qed.

(** X3: The train set [_build_datasets] returns, for an opened train set of
    [n] samples: the opened set itself when [size >= n]; a subset of
    exactly [size] samples when [0 <= size < n]; and for a negative
    [size], the slice [indices[:size]] drops [-size] entries from the end
    of the permutation, leaving [n + size] samples (none if that is
    negative). *)
Theorem size_reduction_length (W : World) (cfg : cfg_data)
    (can_download : bool) (t : dataset) (vs : list (string * dataset)) :
  _build_datasets W cfg can_download = Ok (t, vs) ->
  let n := Z.of_nat (len (base_of t)) in
  (n <= data_size cfg -> t = base_of t)
  /\ (0 <= data_size cfg < n -> Z.of_nat (len t) = data_size cfg)
  /\ (data_size cfg < 0 -> Z.of_nat (len t) = Z.max 0 (n + data_size cfg)).
Proof.
  intros H n. subst n.
  apply _build_datasets_reduce in H as (t0 & Hb & Hred & ->).
  unfold reduce_trainset in Hred.
  destruct (data_size cfg <? Z.of_nat (len t0)) eqn:Hlt.
  - apply Subset_len in Hred. rewrite py_slice_to_len, randperm_length in Hred.
    unfold py_slice_to_length in Hred.
    split; [lia|]. split; intros Hs; rewrite Hred.
    + destruct (0 <=? data_size cfg) eqn:H0; lia.
    + destruct (0 <=? data_size cfg) eqn:H0; lia.
  - injection Hred as <-. split; [reflexivity|]. split; lia.
Qed.

Lemma size_reduction_length_witness :
  exists t vs,
    _build_datasets Demo.world Demo.data_reduced true = Ok (t, vs) /\
    let n := Z.of_nat (len (base_of t)) in
    (n <= data_size Demo.data_reduced -> t = base_of t)
    /\ (0 <= data_size Demo.data_reduced < n ->
        Z.of_nat (len t) = data_size Demo.data_reduced)
    /\ (data_size Demo.data_reduced < 0 ->
        Z.of_nat (len t) = Z.max 0 (n + data_size Demo.data_reduced)).
Proof.
  eexists. eexists. split; [vm_compute; reflexivity|].
  eapply (size_reduction_length Demo.world Demo.data_reduced true).
  vm_compute. reflexivity.
Defined.

(** The generator the size reduction draws from. *)
Lemma reduce_trainset_indices W cfg t0 t idx :
  reduce_trainset W cfg t0 = Ok t -> is_base t0 ->
  layers t = [LayerSubset idx] ->
  idx = py_slice_to
          (randperm W
             (if data_deterministic_subsets cfg
              then manual_seed W subset_seed else default_generator W)
             (len t0))
          (data_size cfg).
Proof.
  intros Hred Hb Hl. apply reduce_trainset_layers in Hred as [Hl' _].
  destruct (is_base_layers _ Hb) as [Hl0 _]. rewrite Hl0 in Hl'. simpl in Hl'.
  rewrite Hl' in Hl. unfold size_reduction_layer in Hl.
  destruct (data_size cfg <? Z.of_nat (len t0)); [|discriminate].
  by injection Hl as <-.
Qed.

Lemma py_slice_to_prefix {A} (l : list A) k : exists r, l = py_slice_to l k ++ r.
Proof.
  unfold py_slice_to. destruct (0 <=? k); eexists; symmetry; apply take_drop.
Qed.

(** X4: When the generator draws a permutation of [0 .. n-1] (no index twice,
    none out of range), the reduced train set reads no sample twice and
    none out of the range of the opened train set. *)
Theorem size_reduction_indices (W : World) (cfg : cfg_data)
    (can_download : bool) (t : dataset) (vs : list (string * dataset))
    (idx : list nat) :
  _build_datasets W cfg can_download = Ok (t, vs) ->
  layers t = [LayerSubset idx] ->
  let n := len (base_of t) in
  let g := if data_deterministic_subsets cfg
           then manual_seed W subset_seed else default_generator W in
  NoDup (randperm W g n) ->
  Forall (fun i => (i < n)%nat) (randperm W g n) ->
  NoDup idx /\ Forall (fun i => (i < n)%nat) idx /\ (length idx <= n)%nat.
Proof.
  intros H Hl n g Hnd Hin. subst n g.
  apply _build_datasets_reduce in H as (t0 & Hb & Hred & Hbase).
  rewrite Hbase in *.
  rewrite (reduce_trainset_indices _ _ _ _ _ Hred Hb Hl).
  destruct (py_slice_to_prefix
              (randperm W
                 (if data_deterministic_subsets cfg
                  then manual_seed W subset_seed else default_generator W)
                 (len t0)) (data_size cfg)) as [r Hr].
  rewrite Hr in Hnd, Hin.
  apply NoDup_app in Hnd as (Hnd & _ & _).
  apply Forall_app in Hin as [Hin _].
  split; [exact Hnd|]. split; [exact Hin|].
  rewrite py_slice_to_len, randperm_length.
  unfold py_slice_to_length. destruct (0 <=? data_size cfg) eqn:H0; lia.
Qed.

Lemma demo_randperm_permutation :
  NoDup (randperm Demo.world 89 105)
  /\ Forall (fun i => (i < 105)%nat) (randperm Demo.world 89 105).
Proof.
  split.
  - refine (bool_decide_unpack _ _). vm_compute. exact I.
  - refine (bool_decide_unpack _ _). vm_compute. exact I.
Qed.

Lemma size_reduction_indices_witness :
  exists t vs,
    _build_datasets Demo.world Demo.data_reduced true = Ok (t, vs) /\
    layers t = [LayerSubset (seq 89 10)] /\
    let n := len (base_of t) in
    let g := if data_deterministic_subsets Demo.data_reduced
             then manual_seed Demo.world subset_seed
             else default_generator Demo.world in
    NoDup (randperm Demo.world g n) /\
    Forall (fun i => (i < n)%nat) (randperm Demo.world g n) /\
    NoDup (seq 89 10) /\ Forall (fun i => (i < n)%nat) (seq 89 10)
    /\ (length (seq 89 10) <= n)%nat.
Proof.
  eexists. eexists. split; [vm_compute; reflexivity|].
  split; [vm_compute; reflexivity|].
  cbv zeta.
  assert (H1 : NoDup (randperm Demo.world 89 105)) by apply demo_randperm_permutation.
  assert (H2 : Forall (fun i => (i < 105)%nat) (randperm Demo.world 89 105))
    by apply demo_randperm_permutation.
  split; [exact H1|]. split; [exact H2|].
  eapply (size_reduction_indices Demo.world Demo.data_reduced true);
    [vm_compute; reflexivity|vm_compute; reflexivity|exact H1|exact H2].
Defined.

(** ** The validation mapping *)

Lemma dict_get_set_eq {A} (d : list (string * A)) k v :
  dict_get (dict_set d k v) k = Some v.
Proof.
  induction d as [|[k' v'] d IH]; simpl.
  - by rewrite String.eqb_refl.
  - destruct (String.eqb_spec k' k) as [->|Hne]; simpl.
    + by rewrite String.eqb_refl.
    + destruct (String.eqb_spec k' k); [done|exact IH].
Qed.

Lemma dict_get_set_ne {A} (d : list (string * A)) k v k' :
  k <> k' -> dict_get (dict_set d k v) k' = dict_get d k'.
Proof.
  intros Hne. induction d as [|[k0 v0] d IH]; simpl.
  - by destruct (String.eqb_spec k k').
  - destruct (String.eqb_spec k0 k) as [->|Hne0]; simpl.
    + by destruct (String.eqb_spec k k').
    + by rewrite IH.
Qed.

Lemma dict_set_keys {A} (d : list (string * A)) k v :
  map fst (dict_set d k v)
  = if bool_decide (k ∈ map fst d) then map fst d else map fst d ++ [k].
Proof.
  induction d as [|[k' v'] d IH]; simpl; [reflexivity|].
  destruct (String.eqb_spec k' k) as [->|Hne]; simpl.
  - rewrite bool_decide_eq_true_2; [reflexivity|]. apply list_elem_of_here.
  - rewrite IH. destruct (bool_decide (k ∈ map fst d)) eqn:Hin.
    + apply bool_decide_eq_true_1 in Hin.
      rewrite bool_decide_eq_true_2; [reflexivity|]. by apply list_elem_of_further.
    + apply bool_decide_eq_false_1 in Hin.
      rewrite bool_decide_eq_false_2; [reflexivity|].
      intros [Heq|Hin']%elem_of_cons; [congruence|done].
Qed.

Lemma dict_set_keys_NoDup {A} (d : list (string * A)) k v :
  NoDup (map fst d) -> NoDup (map fst (dict_set d k v)).
Proof.
  intros Hnd. rewrite dict_set_keys.
  destruct (bool_decide (k ∈ map fst d)) eqn:Hin; [done|].
  apply bool_decide_eq_false_1 in Hin.
  apply NoDup_app. split; [done|]. split; [|apply NoDup_singleton].
  intros x Hx ->%list_elem_of_singleton. done.
Qed.

Lemma dict_set_keys_elem {A} (d : list (string * A)) k v x :
  x ∈ map fst (dict_set d k v) <-> x = k \/ x ∈ map fst d.
Proof.
  rewrite dict_set_keys. destruct (bool_decide (k ∈ map fst d)) eqn:Hin.
  - apply bool_decide_eq_true_1 in Hin. split; [by right|].
    intros [->|]; done.
  - rewrite elem_of_app, list_elem_of_singleton. tauto.
Qed.

(** What the loop over [extra_validation] leaves in the mapping. *)
Lemma extra_validation_loop_spec W root can_download vt names vs0 vs :
  extra_validation_loop W root can_download vt names vs0 = Ok vs ->
  (NoDup (map fst vs0) -> NoDup (map fst vs))
  /\ (forall k, k ∈ map fst vs <-> k ∈ names \/ k ∈ map fst vs0)
  /\ (forall n, n ∈ names ->
        exists d, open_extra_validset W root can_download vt n = Ok d
                  /\ dict_get vs n = Some d)
  /\ (forall k, k ∉ names -> dict_get vs k = dict_get vs0 k).
Proof.
  revert vs0. induction names as [|n names IH]; simpl; intros vs0 H.
  - injection H as <-. split; [done|]. split; [|split].
    + intros k. rewrite elem_of_nil. tauto.
    + intros n Hn. by apply elem_of_nil in Hn.
    + done.
  - apply rbind_Ok in H as (d & Hd & H).
    destruct (IH _ H) as (Hnd & Hkeys & Hget & Hother).
    split; [|split; [|split]].
    + intros H0. apply Hnd. by apply dict_set_keys_NoDup.
    + intros k. rewrite Hkeys, dict_set_keys_elem, elem_of_cons. tauto.
    + intros n' Hn'. destruct (decide (n' ∈ names)) as [Hin|Hnin].
      * by apply Hget.
      * apply elem_of_cons in Hn' as [->|]; [|done].
        exists d. split; [done|]. rewrite Hother by done.
        apply dict_get_set_eq.
    + intros k Hk. apply not_elem_of_cons in Hk as [Hne Hk].
      rewrite Hother by done. by apply dict_get_set_ne.
Qed.



(** ** Names outside the dispatch *)

Lemma str_in_false_eqb s l x :
  str_in s l = false -> In x l -> String.eqb s x = false.
Proof.
  unfold str_in. intros H Hin.
  destruct (String.eqb s x) eqn:E; [|reflexivity].
  assert (existsb (String.eqb s) l = true)
    by (apply existsb_exists; eauto).
  congruence.
Qed.

Lemma open_primary_unsupported W cfg root can_download :
  str_in (data_name cfg) supported_datasets = false ->
  open_primary W cfg root can_download
  = Raise (ValueError "Invalid dataset provided.").
Proof.
  intros H. unfold open_primary. cbv zeta.
  rewrite !(str_in_false_eqb _ _ _ H) by (simpl; tauto). reflexivity.
Qed.

(** X6: A dataset name outside the eight supported ones makes
    [_build_datasets] raise [ValueError], whatever the files on disk and
    the rest of the configuration. *)
Theorem unsupported_dataset_raises (W : World) (cfg : cfg_data)
    (can_download : bool) :
  str_in (data_name cfg) supported_datasets = false ->
  exists msg, _build_datasets W cfg can_download = Raise (ValueError msg).
Proof.
  intros H. eexists. unfold _build_datasets.
  rewrite (open_primary_unsupported _ _ _ _ H). reflexivity.
Qed.

Lemma unsupported_dataset_raises_witness :
  str_in (data_name (Demo.config "FashionMNIST" Demo.stats 10 false None))
    supported_datasets = false /\
  exists msg,
    _build_datasets Demo.world
      (Demo.config "FashionMNIST" Demo.stats 10 false None) true
    = Raise (ValueError msg).
Proof.
  split; [reflexivity|].
  exact (unsupported_dataset_raises Demo.world
           (Demo.config "FashionMNIST" Demo.stats 10 false None) true eq_refl).
Defined.

Lemma open_extra_validset_unsupported W root can_download vt n :
  str_in n supported_extra_validation = false ->
  open_extra_validset W root can_download vt n
  = Raise (ValueError "Invalid extra validation set given.").
Proof.
  intros H. unfold open_extra_validset. cbv zeta.
  rewrite !(str_in_false_eqb _ _ _ H) by (simpl; tauto). reflexivity.
Qed.

Lemma extra_validation_loop_names W root can_download vt names vs0 vs :
  extra_validation_loop W root can_download vt names vs0 = Ok vs ->
  Forall (fun n => str_in n supported_extra_validation = true) names.
Proof.
  revert vs0. induction names as [|n names IH]; simpl; intros vs0 H;
    [constructor|].
  apply rbind_Ok in H as (d & Hd & H). constructor; [|by eapply IH].
  destruct (str_in n supported_extra_validation) eqn:E; [exact E|].
  rewrite (open_extra_validset_unsupported _ _ _ _ _ E) in Hd. discriminate.
Qed.

(** X7: When [_build_datasets] returns, the dataset name is one of the eight
    supported names and every extra validation name is one of CINIC10,
    CIFAR10-C and CIFAR10: a single name outside these, anywhere in the
    list, makes the call fail as a whole. *)
Theorem returned_names_supported (W : World) (cfg : cfg_data)
    (can_download : bool) (t : dataset) (vs : list (string * dataset)) :
  _build_datasets W cfg can_download = Ok (t, vs) ->
  str_in (data_name cfg) supported_datasets = true
  /\ Forall (fun n => str_in n supported_extra_validation = true)
            (data_extra_validation cfg).
Proof.
  intros H. split.
  - destruct (str_in (data_name cfg) supported_datasets) eqn:E; [reflexivity|].
    apply _build_datasets_inv in H as (t0 & v0 & _ & _ & _ & Hopen & _).
    cbv zeta in Hopen. rewrite open_primary_unsupported in Hopen by done.
    discriminate.
  - apply _build_datasets_inv in H
      as (t0 & v0 & st & tt & vt & _ & _ & _ & Hextra & _).
    by eapply extra_validation_loop_names.
Qed.

Lemma returned_names_supported_witness :
  exists t vs,
    _build_datasets Demo.world Demo2.data_extra true = Ok (t, vs) /\
    str_in (data_name Demo2.data_extra) supported_datasets = true
    /\ Forall (fun n => str_in n supported_extra_validation = true)
              (data_extra_validation Demo2.data_extra).
Proof.
  eexists. eexists. split; [vm_compute; reflexivity|].
  eapply (returned_names_supported Demo.world Demo2.data_extra true).
  vm_compute. reflexivity.
Defined.

(** ** The pipelines on the datasets *)

Lemma get_transform_set_transform d t :
  is_base d -> get_transform (set_transform d t) = t.
Proof. destruct d; simpl; done. Qed.

Lemma open_vision_transform W cls root kwargs transform d :
  open_vision W cls root kwargs transform = Ok d ->
  get_transform d = transform /\ is_base d.
Proof.
  unfold open_vision. intros H. apply rbind_Ok in H as (info & _ & H).
  injection H as <-. done.
Qed.

Lemma open_extra_validset_transform W root can_download vt n d :
  open_extra_validset W root can_download vt n = Ok d ->
  get_transform d = Some vt /\ is_base d.
Proof.
  unfold open_extra_validset. cbv zeta.
  repeat (match goal with
          | |- context [String.eqb n ?s] => destruct (String.eqb n s)
          end; [apply open_vision_transform|]).
  discriminate.
Qed.

Lemma extra_validation_loop_all (P : dataset -> Prop) W root can_download vt
    names vs0 vs :
  (forall n d, open_extra_validset W root can_download vt n = Ok d -> P d) ->
  Forall (fun kv => P (snd kv)) vs0 ->
  extra_validation_loop W root can_download vt names vs0 = Ok vs ->
  Forall (fun kv => P (snd kv)) vs.
Proof.
  intros HP. revert vs0. induction names as [|n names IH]; simpl; intros vs0 H0 H.
  - by injection H as <-.
  - apply rbind_Ok in H as (d & Hd & H). apply (IH (dict_set vs0 n d)); [|done].
    apply dict_set_Forall; [done|]. simpl. by eapply HP.
Qed.

(** X8: The datasets [_build_datasets] returns carry the built pipelines: the
    train set, reduced or not, has the train pipeline as its [transform],
    and the validation set and every extra validation set have the
    validation pipeline.  The [ToTensor()] and [None] the constructors
    were called with do not survive. *)
Theorem pipelines_installed (W : World) (cfg : cfg_data)
    (can_download : bool) (t : dataset) (vs : list (string * dataset)) :
  _build_datasets W cfg can_download = Ok (t, vs) ->
  exists train_transforms valid_transforms,
    _parse_data_augmentations W cfg false
    = Ok (train_transforms, valid_transforms) /\
    get_transform t = Some train_transforms /\
    Forall (fun kv => get_transform (snd kv) = Some valid_transforms) vs.
Proof.
  intros H. apply _build_datasets_inv in H
    as (t0 & v0 & st & tt & vt & Hopen & _ & Hparse & Hextra & Hred).
  apply open_primary_is_base in Hopen as [Ht0 Hv0].
  exists tt, vt. split; [done|]. split.
  - unfold reduce_trainset in Hred.
    destruct (data_size cfg <? _).
    + apply Subset_inv_pure in Hred as (c & _ & ->). simpl.
      by apply get_transform_set_transform.
    + injection Hred as <-. by apply get_transform_set_transform.
  - cbv zeta in Hextra.
    eapply (extra_validation_loop_all
              (fun d => get_transform d = Some vt)); [| |exact Hextra].
    + intros n d Hd. by apply open_extra_validset_transform in Hd as [? _].
    + constructor; [|constructor]. simpl.
      by apply get_transform_set_transform.
Qed.

Lemma pipelines_installed_witness :
  exists t vs,
    _build_datasets Demo.world Demo.data_reduced true = Ok (t, vs) /\
    exists train_transforms valid_transforms,
      _parse_data_augmentations Demo.world Demo.data_reduced false
      = Ok (train_transforms, valid_transforms) /\
      get_transform t = Some train_transforms /\
      Forall (fun kv => get_transform (snd kv) = Some valid_transforms) vs.
Proof.
  eexists. eexists. split; [vm_compute; reflexivity|].
  eapply (pipelines_installed Demo.world Demo.data_reduced true).
  vm_compute. reflexivity.
Defined.

(** ** What the wrappers leave alone *)

Lemma _build_datasets_validsets_base W cfg can_download t vs :
  _build_datasets W cfg can_download = Ok (t, vs) ->
  Forall (fun kv => is_base (snd kv)) vs.
Proof.
  intros H. apply _build_datasets_inv in H
    as (t0 & v0 & st & tt & vt & Hopen & _ & _ & Hextra & _).
  apply open_primary_is_base in Hopen as [_ Hv0]. cbv zeta in Hextra.
  eapply (extra_validation_loop_all is_base); [| |exact Hextra].
  - intros n d Hd. by apply open_extra_validset_transform in Hd as [_ ?].
  - constructor; [|constructor]. simpl. by apply set_transform_is_base.
Qed.

(** X9: The size reduction and the LMDB store are applied to the train set
    only: behind every validation loader that is returned there is the
    dataset as its constructor returned it, of full length, with the
    dry-run subset as the one possible layer around it. *)
Theorem validation_sets_not_reduced (W : World) (cfg : cfg_data)
    (impl : cfg_impl) (hyp : cfg_hyp) (dryrun : bool) (tl : dataloader)
    (vl : list (string * dataloader)) :
  construct_dataloader W cfg impl hyp dryrun = Ok (tl, vl) ->
  Forall (fun kl =>
            is_base (base_of (dl_dataset (snd kl))) /\
            layers (dl_dataset (snd kl)) = dryrun_layer W cfg dryrun) vl.
Proof.
  intros H. apply construct_dataloader_inv in H
    as (t0 & vs0 & st & st' & smp & Hb & Hd & Hc & _ & _ & Hv).
  apply _build_datasets_validsets_base in Hb.
  assert (Hst : Forall (fun kv : string * dataset =>
                          is_base (base_of (snd kv)) /\
                          layers (snd kv) = dryrun_layer W cfg dryrun)
                  (validsets st)).
  { unfold dryrun_layer in *. destruct dryrun.
    - apply wrap_dryrun_inv in Hd as (_ & t & vs & _ & Hvs & ->). simpl.
      rewrite wrap_lmdb_validsets in Hvs. simpl in Hvs.
      apply truncate_validsets_spec in Hvs.
      clear -Hb Hvs. induction Hvs as [|kv kv' l l' [_ Hs] _ IH];
        [constructor|].
      apply Forall_cons in Hb as [Hkv Hb]. constructor; [|by apply IH].
      apply Subset_layers in Hs as [-> ->].
      destruct (is_base_layers _ Hkv) as [-> ->]. done.
    - injection Hd as <-. rewrite wrap_lmdb_validsets. simpl.
      eapply Forall_impl; [exact Hb|]. intros kv Hkv. simpl in Hkv.
      destruct (is_base_layers _ Hkv) as [-> ->]. done. }
  assert (Hst' : Forall (fun kv : string * dataset =>
                           is_base (base_of (snd kv)) /\
                           layers (snd kv) = dryrun_layer W cfg dryrun)
                   (validsets st')).
  { destruct (wrap_caching_valid_validsets _ _ _ _ Hc) as [->| ->];
      [done|constructor]. }
  eapply validloaders_loop_all; [|constructor|exact Hv].
  intros k d dl Hin Hdl. apply DataLoader_inv in Hdl as [_ ->]. simpl.
  rewrite Forall_forall in Hst'. apply (Hst' (k, d)). by apply list_elem_of_In.
Qed.

Lemma validation_sets_not_reduced_witness :
  exists tl vl,
    construct_dataloader Demo.world Demo.data_reduced Demo.impl Demo.hyp false
    = Ok (tl, vl) /\
    Forall (fun kl =>
              is_base (base_of (dl_dataset (snd kl))) /\
              layers (dl_dataset (snd kl))
              = dryrun_layer Demo.world Demo.data_reduced false) vl.
Proof.
  eexists. eexists. split; [vm_compute; reflexivity|].
  eapply (validation_sets_not_reduced Demo.world Demo.data_reduced Demo.impl
            Demo.hyp false).
  vm_compute. reflexivity.
Defined.

(** ** The settings of the loaders *)

Lemma choose_num_workers_bounds W impl :
  0 <= choose_num_workers W impl
  /\ choose_num_workers W impl <= Z.max 0 (impl_threads impl)
  /\ choose_num_workers W impl <= Z.max 0 (torch_get_num_threads W)
  /\ (impl_threads impl <= 0 \/ torch_get_num_threads W <= 1 ->
      choose_num_workers W impl = 0).
Proof.
  unfold choose_num_workers.
  destruct (0 <? impl_threads impl) eqn:Ht;
    destruct (1 <? torch_get_num_threads W) eqn:Hn; simpl; try lia.
  set (a := Z.min (torch_get_num_threads W) (impl_threads impl)).
  set (b := Z.max 1 (cuda_device_count W)).
  assert (Ha : 0 <= a) by (subst a; lia).
  assert (Hb : 1 <= b) by (subst b; lia).
  pose proof (Z.div_pos a b Ha ltac:(lia)) as Hq.
  pose proof (Z.mul_div_le a b ltac:(lia)) as Hle.
  assert (a / b <= a) by nia.
  repeat split; try lia.
Qed.

(** X10: The loaders [construct_dataloader] returns.  The number of workers is
    between 0 and both the thread budget and the threads torch has, and 0
    when the budget is not positive or torch has one thread; the train
    loader keeps workers alive only with a positive number of workers and
    the flag set; the train sampler is the distributed one under the
    distributed flag, else the random one under the shuffle flag, else
    the sequential one, over the dataset of the loader.  Every validation
    loader reads its dataset sequentially, also in distributed mode, with
    the same number of workers and no persistent workers. *)
Theorem loader_settings (W : World) (cfg : cfg_data) (impl : cfg_impl)
    (hyp : cfg_hyp) (dryrun : bool) (tl : dataloader)
    (vl : list (string * dataloader)) :
  construct_dataloader W cfg impl hyp dryrun = Ok (tl, vl) ->
  let nw := dl_num_workers tl in
  0 <= nw <= Z.max 0 (impl_threads impl)
  /\ nw <= Z.max 0 (torch_get_num_threads W)
  /\ (impl_threads impl <= 0 \/ torch_get_num_threads W <= 1 -> nw = 0)
  /\ (dl_persistent_workers tl = true
      <-> 0 < nw /\ impl_persistent_workers impl = true)
  /\ dl_pin_memory tl = impl_pin_memory impl
  /\ dl_sampler tl =
     (if impl_setup_dist impl then
        DistributedSamplerObj (dl_dataset tl) (dist_get_world_size W)
          (dist_get_rank W) (hyp_shuffle hyp)
      else if hyp_shuffle hyp then
        RandomSamplerObj (dl_dataset tl) (hyp_sample_with_replacement hyp)
      else SequentialSampler (dl_dataset tl))
  /\ Forall (fun kl =>
               dl_sampler (snd kl) = SequentialSampler (dl_dataset (snd kl))
               /\ dl_num_workers (snd kl) = nw
               /\ dl_persistent_workers (snd kl) = false
               /\ dl_pin_memory (snd kl) = impl_pin_memory impl
               /\ dl_drop_last (snd kl) = true) vl.
Proof.
  intros H nw. subst nw. apply construct_dataloader_inv in H
    as (t0 & vs0 & st & st' & smp & _ & _ & _ & Hs & Hl & Hv).
  apply DataLoader_inv in Hl as [_ ->]. simpl.
  destruct (choose_num_workers_bounds W impl) as (H0 & Ht & Hn & Hz).
  split; [lia|]. split; [exact Hn|]. split; [exact Hz|]. split; [|split; [|split]].
  - destruct (0 <? choose_num_workers W impl) eqn:Hpos.
    + split; [intros ->; split; [lia|reflexivity]|tauto].
    + split; [discriminate|lia].
  - reflexivity.
  - unfold choose_train_sampler in Hs. destruct (impl_setup_dist impl).
    + by apply DistributedSampler_inv in Hs as [_ ->].
    + destruct (hyp_shuffle hyp).
      * unfold RandomSampler in Hs.
        destruct (len (trainset st') =? 0)%nat; [discriminate|].
        by injection Hs as <-.
      * by injection Hs as <-.
  - eapply validloaders_loop_all; [|constructor|exact Hv].
    intros k d dl Hin Hdl. apply DataLoader_inv in Hdl as [_ ->]. simpl. done.
Qed.

Lemma loader_settings_witness :
  exists tl vl,
    construct_dataloader (Demo.world_dist 0) Demo.data Demo2.impl_workers
      Demo.hyp false = Ok (tl, vl) /\
    dl_num_workers tl = 3 /\ dl_persistent_workers tl = true /\
    let nw := dl_num_workers tl in
    0 <= nw <= Z.max 0 (impl_threads Demo2.impl_workers)
    /\ nw <= Z.max 0 (torch_get_num_threads (Demo.world_dist 0))
    /\ (impl_threads Demo2.impl_workers <= 0
        \/ torch_get_num_threads (Demo.world_dist 0) <= 1 -> nw = 0)
    /\ (dl_persistent_workers tl = true
        <-> 0 < nw /\ impl_persistent_workers Demo2.impl_workers = true)
    /\ dl_pin_memory tl = impl_pin_memory Demo2.impl_workers
    /\ dl_sampler tl =
       (if impl_setup_dist Demo2.impl_workers then
          DistributedSamplerObj (dl_dataset tl)
            (dist_get_world_size (Demo.world_dist 0))
            (dist_get_rank (Demo.world_dist 0)) (hyp_shuffle Demo.hyp)
        else if hyp_shuffle Demo.hyp then
          RandomSamplerObj (dl_dataset tl)
            (hyp_sample_with_replacement Demo.hyp)
        else SequentialSampler (dl_dataset tl))
    /\ Forall (fun kl =>
                 dl_sampler (snd kl) = SequentialSampler (dl_dataset (snd kl))
                 /\ dl_num_workers (snd kl) = nw
                 /\ dl_persistent_workers (snd kl) = false
                 /\ dl_pin_memory (snd kl) = impl_pin_memory Demo2.impl_workers
                 /\ dl_drop_last (snd kl) = true) vl.
Proof.
  eexists. eexists. split; [vm_compute; reflexivity|].
  split; [reflexivity|]. split; [reflexivity|].
  eapply (loader_settings (Demo.world_dist 0) Demo.data Demo2.impl_workers
            Demo.hyp false).
  vm_compute. reflexivity.
Defined.

(** ** What [drop_last] drops *)

Lemma drops_only_tail_record W epoch ds batch_size smp nw pm pw :
  0 < batch_size ->
  drops_only_tail W epoch
    {| dl_dataset := ds; dl_batch_size := batch_size; dl_sampler := smp;
       dl_drop_last := true; dl_num_workers := nw; dl_pin_memory := pm;
       dl_persistent_workers := pw |}.
Proof.
  intros Hbs. unfold drops_only_tail, iter_batches. simpl.
  apply (batch_sampler_batches (Z.to_nat batch_size) _ []); simpl; lia.
Qed.

(** X11: For the train loader and every validation loader that
    [construct_dataloader] returns, with any sampler and in any epoch: a
    pass yields batches of exactly the batch size, in the order of the
    sampler, and leaves out only the last indices of the sampler's
    sequence, fewer than one batch.  A validation loader therefore serves
    the samples [0, 1, 2, ...] in order. *)
Theorem passes_drop_only_the_tail (W : World) (cfg : cfg_data)
    (impl : cfg_impl) (hyp : cfg_hyp) (dryrun : bool) (tl : dataloader)
    (vl : list (string * dataloader)) :
  construct_dataloader W cfg impl hyp dryrun = Ok (tl, vl) ->
  (forall epoch, drops_only_tail W epoch tl)
  /\ Forall (fun kl =>
               forall epoch,
                 drops_only_tail W epoch (snd kl) /\
                 exists tail,
                   seq 0 (len (dl_dataset (snd kl)))
                   = concat (iter_batches W epoch (snd kl)) ++ tail) vl.
Proof.
  intros H. apply construct_dataloader_inv in H
    as (t0 & vs0 & st & st' & smp & _ & _ & _ & _ & Hl & Hv).
  apply DataLoader_inv in Hl as [Hpos ->]. split.
  - intros epoch. by apply drops_only_tail_record.
  - eapply validloaders_loop_all; [|constructor|exact Hv].
    intros k d dl Hin Hdl epoch. apply DataLoader_inv in Hdl as [Hp ->].
    pose proof (drops_only_tail_record W epoch d _ (SequentialSampler d)
                  (choose_num_workers W impl) (impl_pin_memory impl) false Hp)
      as Hd.
    split; [exact Hd|]. destruct Hd as [_ (tail & Ht & _)]. simpl in *. eauto.
Qed.

Lemma passes_drop_only_the_tail_witness :
  exists tl vl,
    construct_dataloader Demo.world Demo.data Demo.impl Demo.hyp false
    = Ok (tl, vl) /\
    (forall epoch, drops_only_tail Demo.world epoch tl)
    /\ Forall (fun kl =>
                 forall epoch,
                   drops_only_tail Demo.world epoch (snd kl) /\
                   exists tail,
                     seq 0 (len (dl_dataset (snd kl)))
                     = concat (iter_batches Demo.world epoch (snd kl)) ++ tail)
              vl.
Proof.
  eexists. eexists. split; [vm_compute; reflexivity|].
  eapply (passes_drop_only_the_tail Demo.world Demo.data Demo.impl Demo.hyp
            false).
  vm_compute. reflexivity.
Defined.

(** ** The dispatch of the pipeline builder *)

Lemma _parse_cfg_dict_all W cfg cfg_dict ts key v :
  _parse_cfg_dict W cfg cfg_dict = Ok ts ->
  In (key, v) (default [] cfg_dict) ->
  exists t, parse_entry W cfg key v = Ok t.
Proof.
  destruct cfg_dict as [d|]; simpl; [|done].
  intros H Hin. by apply (mapM_Ok_all _ _ _ _ H) in Hin.
Qed.

Lemma parse_entry_generic W cfg key v :
  str_in key special_keys = false ->
  parse_entry W cfg key v = torchvision_by_name W key v.
Proof.
  intros H. unfold parse_entry.
  assert (Ht : str_in key ["RandAugment"; "AutoAugment"; "AugMix"]%string = false).
  { unfold str_in in *. simpl in *.
    repeat (apply orb_false_elim in H as [? H]). by repeat (apply orb_false_intro). }
  assert (Hv : str_in key ["tvRandAugment"; "tvAutoAugment"]%string = false).
  { unfold str_in in *. simpl in *.
    repeat (apply orb_false_elim in H as [? H]). by repeat (apply orb_false_intro). }
  rewrite Ht, Hv.
  rewrite !(str_in_false_eqb _ _ _ H) by (simpl; tauto). reflexivity.
Qed.

(** X12: The builder fails as a whole, for any [PIL_only], when one entry of
    either mapping cannot be resolved; in particular a key that is none of
    the special keys and that [torchvision.transforms] does not have
    raises [AttributeError] for its entry. *)
Theorem unresolvable_entry_fails (W : World) (cfg : cfg_data) (PIL_only : bool)
    (key : string) (v : pyval) :
  In (key, v) (default [] (data_augmentations_train cfg))
  \/ In (key, v) (default [] (data_augmentations_val cfg)) ->
  str_in key special_keys = false ->
  transforms_hasattr W key = false ->
  parse_entry W cfg key v = Raise (AttributeError key)
  /\ forall r, _parse_data_augmentations W cfg PIL_only <> Ok r.
Proof.
  intros Hin Hkey Hattr.
  assert (He : parse_entry W cfg key v = Raise (AttributeError key)).
  { rewrite parse_entry_generic by done.
    unfold torchvision_by_name, transforms_getattr. by rewrite Hattr. }
  split; [exact He|]. intros r H. unfold _parse_data_augmentations in H.
  apply rbind_Ok in H as (ts & Hts & H).
  apply rbind_Ok in H as (vs & Hvs & _).
  destruct Hin as [Hin|Hin].
  - destruct (_parse_cfg_dict_all _ _ _ _ _ _ Hts Hin) as [t Ht]. congruence.
  - destruct (_parse_cfg_dict_all _ _ _ _ _ _ Hvs Hin) as [t Ht]. congruence.
Qed.

Lemma unresolvable_entry_fails_witness :
  (In ("GaussianBlurr"%string, VNum (PInt 3))
      (default [] (data_augmentations_train Demo2.data_typo))
   \/ In ("GaussianBlurr"%string, VNum (PInt 3))
         (default [] (data_augmentations_val Demo2.data_typo))) /\
  str_in "GaussianBlurr" special_keys = false /\
  transforms_hasattr Demo.world "GaussianBlurr" = false /\
  parse_entry Demo.world Demo2.data_typo "GaussianBlurr" (VNum (PInt 3))
  = Raise (AttributeError "GaussianBlurr")
  /\ forall r, _parse_data_augmentations Demo.world Demo2.data_typo false <> Ok r.
Proof.
  assert (H1 : In ("GaussianBlurr"%string, VNum (PInt 3))
                 (default [] (data_augmentations_train Demo2.data_typo))
               \/ In ("GaussianBlurr"%string, VNum (PInt 3))
                     (default [] (data_augmentations_val Demo2.data_typo)))
    by (left; simpl; tauto).
  split; [exact H1|]. split; [reflexivity|]. split; [reflexivity|].
  exact (unresolvable_entry_fails Demo.world Demo2.data_typo false
           "GaussianBlurr" (VNum (PInt 3)) H1 eq_refl eq_refl).
Defined.

(** X13: Which TIMM policy an entry builds is decided by its configuration
    string alone, not by its key: under any of the keys RandAugment,
    AutoAugment and AugMix, a string starting with "rand" builds the
    RandAugment operation, one starting with "augmix" the AugMix
    operation (with a translate fraction added), and any other string the
    AutoAugment operation. *)
Theorem timm_policy_from_string (W : World) (cfg : cfg_data) (key : string)
    (s : string) (t : transform) :
  str_in key timm_keys = true ->
  parse_entry W cfg key (VStr s) = Ok t ->
  exists aa,
    timm_aa_params (data_pixels cfg) (data_mean cfg) = Ok aa /\
    t = (if String.prefix "rand" s then rand_augment_transform s aa
         else if String.prefix "augmix" s then
           augment_and_mix_transform s
             {| translate_const := translate_const aa;
                img_mean := img_mean aa;
                translate_pct := Some PyFloat.f0_3 |}
         else auto_augment_transform s aa).
Proof.
  intros Hkey. unfold parse_entry. unfold timm_keys in Hkey. rewrite Hkey.
  unfold _get_autoaugment_timm. intros H.
  apply rbind_Ok in H as (aa & Haa & H). exists aa. split; [done|].
  destruct (String.prefix "rand" s); [by injection H|].
  destruct (String.prefix "augmix" s); by injection H.
Qed.

Lemma timm_policy_from_string_witness :
  exists t,
    str_in "AugMix" timm_keys = true /\
    parse_entry Demo.world Demo.data "AugMix" (VStr "rand-m9-mstd0.5") = Ok t /\
    exists aa,
      timm_aa_params (data_pixels Demo.data) (data_mean Demo.data) = Ok aa /\
      t = (if String.prefix "rand" "rand-m9-mstd0.5"
           then rand_augment_transform "rand-m9-mstd0.5" aa
           else if String.prefix "augmix" "rand-m9-mstd0.5" then
             augment_and_mix_transform "rand-m9-mstd0.5"
               {| translate_const := translate_const aa;
                  img_mean := img_mean aa;
                  translate_pct := Some PyFloat.f0_3 |}
           else auto_augment_transform "rand-m9-mstd0.5" aa).
Proof.
  eexists. split; [reflexivity|]. split; [vm_compute; reflexivity|].
  apply (timm_policy_from_string Demo.world Demo.data "AugMix");
    [reflexivity|vm_compute; reflexivity].
Defined.

(** X14: A key resolved by name in [torchvision.transforms] yields a transform
    only if the module has the name and the constructor accepted the
    arguments it is recorded with: the unpacked value when it is iterable
    and the constructor took it that way, else the value as the one
    argument.  A value that cannot be unpacked is always passed as the one
    argument. *)
Theorem torchvision_lookup_sound (W : World) (cfg : cfg_data) (key : string)
    (v : pyval) (t : transform) :
  str_in key special_keys = false ->
  parse_entry W cfg key v = Ok t ->
  transforms_hasattr W key = true
  /\ exists args,
       t = TorchvisionTransform key args /\
       transforms_call W key args = Ok tt /\
       (py_unpack v = Ok args
        \/ args = [v]
           /\ (py_unpack v = Raise TypeError
               \/ exists l, py_unpack v = Ok l
                            /\ transforms_call W key l = Raise TypeError)).
Proof.
  intros Hkey. rewrite parse_entry_generic by done.
  unfold torchvision_by_name, transforms_getattr.
  destruct (transforms_hasattr W key); simpl; [|discriminate].
  intros H. split; [reflexivity|].
  destruct (py_unpack v) as [l|e] eqn:Hu; simpl in H.
  - destruct (transforms_call W key l) as [[]|e] eqn:Hc; simpl in H.
    + injection H as <-. exists l. eauto.
    + destruct e; try discriminate.
      apply rbind_Ok in H as ([] & Hc1 & H). injection H as <-.
      exists [v]. split; [done|]. split; [done|]. right. split; [done|].
      right. eauto.
  - destruct e; try discriminate.
    apply rbind_Ok in H as ([] & Hc1 & H). injection H as <-.
    exists [v]. split; [done|]. split; [done|]. right. split; [done|].
    left. pose proof Hu as Hu'. destruct v; simpl in Hu; try discriminate; done.
Qed.

Lemma torchvision_lookup_sound_witness :
  exists t,
    str_in "RandomCrop" special_keys = false /\
    parse_entry Demo.world Demo.data "RandomCrop" (VNum (PInt 32)) = Ok t /\
    transforms_hasattr Demo.world "RandomCrop" = true
    /\ exists args,
         t = TorchvisionTransform "RandomCrop" args /\
         transforms_call Demo.world "RandomCrop" args = Ok tt /\
         (py_unpack (VNum (PInt 32)) = Ok args
          \/ args = [VNum (PInt 32)]
             /\ (py_unpack (VNum (PInt 32)) = Raise TypeError
                 \/ exists l, py_unpack (VNum (PInt 32)) = Ok l
                              /\ transforms_call Demo.world "RandomCrop" l
                                 = Raise TypeError)).
Proof.
  eexists. split; [reflexivity|]. split; [vm_compute; reflexivity|].
  apply (torchvision_lookup_sound Demo.world Demo.data);
    [reflexivity|vm_compute; reflexivity].
Defined.

(** ** Dry runs *)

Lemma dict_set_fresh {A} (d : list (string * A)) k v :
  k ∉ map fst d -> dict_set d k v = d ++ [(k, v)].
Proof.
  induction d as [|[k' v'] d IH]; simpl; intros Hk; [reflexivity|].
  apply not_elem_of_cons in Hk as [Hne Hk].
  destruct (String.eqb_spec k' k) as [->|_]; [done|]. by rewrite IH.
Qed.

(** Over a mapping (no key twice) the loop builds one loader per item, in
    the order of the items. *)
Lemma validloaders_loop_app cfg impl nw items acc vl :
  NoDup (map fst items) ->
  (forall k, k ∈ map fst items -> k ∉ map fst acc) ->
  validloaders_loop cfg impl nw items acc = Ok vl ->
  exists new,
    vl = acc ++ new
    /\ Forall2 (fun (kv : string * dataset) (kl : string * dataloader) =>
                  fst kl = fst kv
                  /\ DataLoader (snd kv)
                       (Z.min (data_batch_size cfg) (Z.of_nat (len (snd kv))))
                       (SequentialSampler (snd kv)) true nw
                       (impl_pin_memory impl) false = Ok (snd kl))
         items new.
Proof.
  revert acc. induction items as [|[k d] items IH]; simpl; intros acc Hnd Hd H.
  - injection H as <-. exists []. split; [by rewrite app_nil_r|constructor].
  - apply rbind_Ok in H as (dl & Hdl & H).
    apply NoDup_cons in Hnd as [Hk Hnd].
    rewrite dict_set_fresh in H by (apply Hd; apply list_elem_of_here).
    assert (Hfresh : forall k', k' ∈ map fst items ->
                       k' ∉ map fst (acc ++ [(k, dl)])).
    { intros k' Hk'. rewrite map_app, elem_of_app. simpl.
      rewrite list_elem_of_singleton. intros [Hin| ->]; [|done].
      by apply (Hd k'); [apply list_elem_of_further|]. }
    destruct (IH (acc ++ [(k, dl)]) Hnd Hfresh H) as (new & -> & Hnew).
    exists ((k, dl) :: new). split; [by rewrite <- app_assoc|].
    by constructor.
Qed.

Lemma _build_datasets_keys_NoDup W cfg can_download t vs :
  _build_datasets W cfg can_download = Ok (t, vs) -> NoDup (map fst vs).
Proof.
  intros H. apply _build_datasets_inv in H
    as (t0 & v0 & st & tt & vt & _ & _ & _ & Hextra & _).
  cbv zeta in Hextra.
  apply extra_validation_loop_spec in Hextra as (Hnd & _).
  apply Hnd. simpl. apply NoDup_singleton.
Qed.

(** What a dry run that returns has behind its loaders. *)
Lemma construct_dataloader_dryrun_inv W cfg impl hyp tl vl :
  construct_dataloader W cfg impl hyp true = Ok (tl, vl) ->
  exists t0 vs0 smp,
    _build_datasets W cfg (negb (impl_setup_dist impl)) = Ok (t0, vs0)
    /\ 0 <= data_batch_size cfg * num_machines W
    /\ Subset (trainset (wrap_lmdb W cfg {| trainset := t0; validsets := vs0 |}))
         (seq 0 (Z.to_nat (data_batch_size cfg * num_machines W)))
       = Ok (dl_dataset tl)
    /\ choose_train_sampler W impl hyp (dl_dataset tl) = Ok smp
    /\ dl_sampler tl = smp /\ dl_drop_last tl = true
    /\ dl_batch_size tl
       = Z.min (data_batch_size cfg) (Z.of_nat (len (dl_dataset tl)))
    /\ 0 < dl_batch_size tl
    /\ Forall2 (fun (kv : string * dataset) (kl : string * dataloader) =>
                  fst kl = fst kv
                  /\ Subset (snd kv)
                       (seq 0 (Z.to_nat (data_batch_size cfg * num_machines W)))
                     = Ok (dl_dataset (snd kl))
                  /\ dl_sampler (snd kl) = SequentialSampler (dl_dataset (snd kl))
                  /\ dl_drop_last (snd kl) = true
                  /\ dl_batch_size (snd kl)
                     = Z.min (data_batch_size cfg)
                         (Z.of_nat (len (dl_dataset (snd kl))))
                  /\ 0 < dl_batch_size (snd kl))
         vs0 vl.
Proof.
  intros H. apply construct_dataloader_inv in H
    as (t0 & vs0 & st & st' & smp & Hb & Hd & Hc & Hs & Hl & Hv).
  apply wrap_dryrun_inv in Hd as (Hn & t & vs & Ht & Hvs & ->).
  rewrite wrap_lmdb_validsets in Hvs. simpl in Hvs.
  apply truncate_validsets_spec in Hvs.
  assert (Hkeys : map fst vs = map fst vs0).
  { clear -Hvs. induction Hvs as [|kv kv' l l' [Hk _] _ IH]; simpl;
      [reflexivity|]. by rewrite Hk, IH. }
  assert (Hst' : st' = {| trainset := t; validsets := vs |}).
  { unfold wrap_caching_valid, wrap_caching_train in Hc.
    destruct (data_caching cfg); [|by injection Hc].
    apply rbind_Ok in Hc as (cvs & Hcvs & Hc). simpl in Hcvs.
    destruct vs as [|kv vs]; [|discriminate].
    apply _build_datasets_validsets_not_nil in Hb.
    destruct vs0; [done|discriminate]. }
  subst st'. simpl in *.
  apply DataLoader_inv in Hl as [Hpos ->]. simpl.
  exists t0, vs0, smp. split; [done|]. split; [done|]. split; [done|].
  split; [done|]. split; [done|]. split; [done|]. split; [done|].
  split; [done|].
  destruct (validloaders_loop_app cfg impl (choose_num_workers W impl) vs [] vl)
    as (new & -> & Hnew);
    [|by intros k _ Hk; apply elem_of_nil in Hk|done|].
  { rewrite Hkeys. by eapply _build_datasets_keys_NoDup. }
  simpl. clear -Hvs Hnew. revert new Hnew.
  induction Hvs as [|kv kv' l l' [Hk Hsub] _ IH]; intros new Hnew.
  - inversion Hnew. constructor.
  - inversion Hnew as [|kv1 kl l1 new' [Hk' Hdl] Hrest]; subst.
    apply DataLoader_inv in Hdl as [Hp Hdl]. constructor; [|by apply IH].
    rewrite Hdl. simpl. rewrite Hk', Hk. done.
Qed.

(** X1: In a dry run that returns, [batch_size * num_machines] is not
    negative (a negative bound makes [torch.arange] raise), the dataset of
    the train loader is the [Subset] with exactly the indices
    [0 .. batch_size * num_machines - 1], in order, of the train set as
    built (behind the LMDB store when one is configured), and the dataset
    of every validation loader is the [Subset] with the same indices of
    the validation set under its key, the keys in the order of the
    mapping; each has [batch_size * num_machines] samples, whatever the
    length of the dataset it cuts. *)
Theorem dryrun_truncates (W : World) (cfg : cfg_data) (impl : cfg_impl)
    (hyp : cfg_hyp) (tl : dataloader) (vl : list (string * dataloader)) :
  construct_dataloader W cfg impl hyp true = Ok (tl, vl) ->
  exists t0 vs0,
    _build_datasets W cfg (negb (impl_setup_dist impl)) = Ok (t0, vs0)
    /\ 0 <= data_batch_size cfg * num_machines W
    /\ (exists c,
          dl_dataset tl
          = SubsetObj
              (trainset (wrap_lmdb W cfg {| trainset := t0; validsets := vs0 |}))
              (seq 0 (Z.to_nat (data_batch_size cfg * num_machines W)))
              (get_transform
                 (trainset
                    (wrap_lmdb W cfg {| trainset := t0; validsets := vs0 |})))
              c)
    /\ len (dl_dataset tl) = Z.to_nat (data_batch_size cfg * num_machines W)
    /\ Forall2 (fun (kv : string * dataset) (kl : string * dataloader) =>
                  fst kl = fst kv
                  /\ (exists c,
                        dl_dataset (snd kl)
                        = SubsetObj (snd kv)
                            (seq 0 (Z.to_nat (data_batch_size cfg
                                              * num_machines W)))
                            (get_transform (snd kv)) c)
                  /\ len (dl_dataset (snd kl))
                     = Z.to_nat (data_batch_size cfg * num_machines W))
         vs0 vl.
Proof.
  intros H. apply construct_dataloader_dryrun_inv in H
    as (t0 & vs0 & smp & Hb & Hn & Ht & _ & _ & _ & _ & _ & Hv).
  exists t0, vs0. split; [done|]. split; [done|].
  pose proof (Subset_len _ _ _ Ht) as Hlen. rewrite length_seq in Hlen.
  apply Subset_inv_pure in Ht as (c & _ & Ht).
  split; [eauto|]. split; [done|].
  eapply Forall2_impl; [exact Hv|].
  intros kv kl (Hk & Hs & _). split; [done|].
  pose proof (Subset_len _ _ _ Hs) as Hl. rewrite length_seq in Hl.
  apply Subset_inv_pure in Hs as (c' & _ & Hs). eauto.
Qed.

Lemma dryrun_truncates_witness :
  exists tl vl,
    construct_dataloader (Demo.world_dist 0) Demo.data_reduced
      (Demo.impl_of true) Demo.hyp true = Ok (tl, vl) /\
    layers (dl_dataset tl)
    = [LayerSubset [89; 90; 91; 92; 93; 94; 95; 96; 97; 98]%nat; LayerLMDB;
       LayerSubset (seq 0 64)] /\
    exists t0 vs0,
      _build_datasets (Demo.world_dist 0) Demo.data_reduced
        (negb (impl_setup_dist (Demo.impl_of true))) = Ok (t0, vs0)
      /\ 0 <= data_batch_size Demo.data_reduced
              * num_machines (Demo.world_dist 0)
      /\ (exists c,
            dl_dataset tl
            = SubsetObj
                (trainset (wrap_lmdb (Demo.world_dist 0) Demo.data_reduced
                             {| trainset := t0; validsets := vs0 |}))
                (seq 0 (Z.to_nat (data_batch_size Demo.data_reduced
                                  * num_machines (Demo.world_dist 0))))
                (get_transform
                   (trainset
                      (wrap_lmdb (Demo.world_dist 0) Demo.data_reduced
                         {| trainset := t0; validsets := vs0 |})))
                c)
      /\ len (dl_dataset tl)
         = Z.to_nat (data_batch_size Demo.data_reduced
                     * num_machines (Demo.world_dist 0))
      /\ Forall2 (fun (kv : string * dataset) (kl : string * dataloader) =>
                    fst kl = fst kv
                    /\ (exists c,
                          dl_dataset (snd kl)
                          = SubsetObj (snd kv)
                              (seq 0 (Z.to_nat
                                        (data_batch_size Demo.data_reduced
                                         * num_machines (Demo.world_dist 0))))
                              (get_transform (snd kv)) c)
                    /\ len (dl_dataset (snd kl))
                       = Z.to_nat (data_batch_size Demo.data_reduced
                                   * num_machines (Demo.world_dist 0)))
           vs0 vl.
Proof.
  eexists. eexists. split; [vm_compute; reflexivity|].
  split; [vm_compute; reflexivity|].
  apply (dryrun_truncates (Demo.world_dist 0) Demo.data_reduced
           (Demo.impl_of true) Demo.hyp).
  vm_compute. reflexivity.
Defined.

(** The batch sampler of a sequential loader over [b * m] samples takes
    every index. *)
Lemma concat_length_uniform {A} (b : nat) (l : list (list A)) :
  Forall (fun x => length x = b) l -> length (concat l) = (b * length l)%nat.
Proof.
  induction 1 as [|x l Hx _ IH]; simpl; [lia|].
  rewrite length_app, IH, Hx. lia.
Qed.

Lemma full_batches_cover (b m : nat) :
  (0 < b)%nat ->
  concat (batch_sampler b true (seq 0 (b * m)) []) = seq 0 (b * m).
Proof.
  intros Hb.
  destruct (batch_sampler_batches b (seq 0 (b * m)) [] Hb ltac:(simpl; lia))
    as [Hall (tail & Hc & Ht)].
  simpl in Hc. pose proof (f_equal length Hc) as Hlen.
  rewrite length_seq, length_app, (concat_length_uniform b) in Hlen by done.
  assert (length tail = 0)%nat as Htl.
  { pose proof (f_equal (fun n => n mod b)%nat Hlen) as Hmod. simpl in Hmod.
    rewrite (Nat.mul_comm b m), Nat.Div0.mod_mul in Hmod.
    rewrite Nat.add_comm, (Nat.mul_comm b), Nat.Div0.mod_add in Hmod.
    rewrite Nat.mod_small in Hmod by done. done. }
  destruct tail; [|discriminate]. by rewrite app_nil_r in Hc.
Qed.

(** A sequential loader over a [Subset] of the first [b * m] indices of a
    dataset with fewer samples: no pass completes. *)
Lemma short_dataset_pass_fails W epoch dl inner tr c (m : nat) :
  dl_dataset dl
  = SubsetObj inner (seq 0 (Z.to_nat (dl_batch_size dl) * m)) tr c ->
  dl_sampler dl = SequentialSampler (dl_dataset dl) ->
  dl_drop_last dl = true ->
  0 < dl_batch_size dl ->
  (len inner < Z.to_nat (dl_batch_size dl) * m)%nat ->
  ~ fetchable W epoch dl
  /\ forall batches, run_pass W epoch dl <> Ok batches.
Proof.
  intros Hd Hs Hdrop Hb Hshort.
  assert (Hnf : ~ fetchable W epoch dl).
  { unfold fetchable, iter_batches. rewrite Hs, Hdrop. simpl.
    rewrite Hd. simpl. rewrite length_seq. intros Hf.
    set (b := Z.to_nat (dl_batch_size dl)) in *.
    assert (Hin : In (len inner) (concat (batch_sampler b true (seq 0 (b * m)) []))).
    { rewrite full_batches_cover by lia. apply in_seq. lia. }
    apply in_concat in Hin as (batch & Hbatch & Hin).
    rewrite Forall_forall in Hf.
    specialize (Hf batch ltac:(by apply list_elem_of_In)).
    rewrite (fetch_batch_fails _ _ _ (len inner) IndexError) in Hf;
      [discriminate|done|].
    simpl. rewrite lookup_seq_lt by lia. simpl.
    by apply getitem_out_of_range. }
  split; [done|]. intros batches H. apply Hnf.
  apply run_pass_fetchable. eauto.
Qed.

(** X2: A dry run that returns has the configured batch size on every
    loader; the batch sampler of the train loader forms one batch on each
    process and the batch sampler of a validation loader [num_machines]
    batches.  A pass completes exactly when every batch can be fetched,
    and then yields that many batches of the batch size.  It cannot
    complete over a dataset that has fewer than
    [batch_size * num_machines] samples under the dry-run subset: for
    every validation loader, and for the train loader with the sequential
    sampler, the pass then raises, since the subset holds indices past
    the end of the dataset. *)
Theorem dryrun_batches (W : World) (cfg : cfg_data) (impl : cfg_impl)
    (hyp : cfg_hyp) (tl : dataloader) (vl : list (string * dataloader)) :
  construct_dataloader W cfg impl hyp true = Ok (tl, vl) ->
  impl_setup_dist impl = dist_is_initialized W ->
  dl_batch_size tl = data_batch_size cfg
  /\ (forall epoch, batches_per_pass W epoch tl = 1%nat)
  /\ Forall (fun kl =>
               dl_batch_size (snd kl) = data_batch_size cfg /\
               forall epoch,
                 batches_per_pass W epoch (snd kl)
                 = Z.to_nat (num_machines W)) vl
  /\ (forall epoch, pass_spec W epoch tl 1%nat)
  /\ Forall (fun kl => forall epoch,
               pass_spec W epoch (snd kl) (Z.to_nat (num_machines W))) vl
  /\ Forall (fun kl =>
               forall inner indices tr c,
                 dl_dataset (snd kl) = SubsetObj inner indices tr c ->
                 (len inner < length indices)%nat ->
                 forall epoch,
                   ~ fetchable W epoch (snd kl)
                   /\ forall batches,
                        run_pass W epoch (snd kl) <> Ok batches) vl
  /\ (impl_setup_dist impl = false -> hyp_shuffle hyp = false ->
      forall inner indices tr c,
        dl_dataset tl = SubsetObj inner indices tr c ->
        (len inner < length indices)%nat ->
        forall epoch,
          ~ fetchable W epoch tl
          /\ forall batches, run_pass W epoch tl <> Ok batches).
Proof.
  intros H Hmode.
  assert (Hold : dl_batch_size tl = data_batch_size cfg
    /\ (forall epoch, batches_per_pass W epoch tl = 1%nat)
    /\ Forall (fun kl : string * dataloader =>
                 dl_batch_size (snd kl) = data_batch_size cfg /\
                 forall epoch,
                   batches_per_pass W epoch (snd kl)
                   = Z.to_nat (num_machines W)) vl)
    by exact (dryrun_batch_counts W cfg impl hyp tl vl H Hmode).
  destruct Hold as (Hbs & Htrain & Hvalid).
  apply construct_dataloader_dryrun_inv in H
    as (t0 & vs0 & smp & Hb & Hn & Ht & Hsmp & Hs & Hdrop & Hmin & Hpos & Hv).
  assert (Hvl : Forall (fun kl : string * dataloader =>
                  (exists inner c,
                     dl_dataset (snd kl)
                     = SubsetObj inner
                         (seq 0 (Z.to_nat (data_batch_size cfg
                                           * num_machines W)))
                         (get_transform inner) c)
                  /\ dl_sampler (snd kl) = SequentialSampler (dl_dataset (snd kl))
                  /\ dl_drop_last (snd kl) = true
                  /\ 0 < dl_batch_size (snd kl)) vl).
  { clear -Hv. induction Hv as [|kv kl l l' (_ & Hsub & Hsq & Hd & _ & Hp) _ IH];
      constructor; [|exact IH].
    apply Subset_inv_pure in Hsub as (c & _ & Hsub). eauto 10. }
  assert (Hnm : 0 < num_machines W).
  { pose proof (Subset_len _ _ _ Ht) as Hlen. rewrite length_seq in Hlen.
    rewrite Hlen in Hmin. nia. }
  assert (Hmul : Z.to_nat (data_batch_size cfg * num_machines W)
                 = (Z.to_nat (data_batch_size cfg)
                    * Z.to_nat (num_machines W))%nat)
    by (rewrite Z2Nat.inj_mul; lia).
  split; [done|]. split; [done|]. split; [done|]. split; [|split; [|split]].
  - intros epoch. rewrite <- (Htrain epoch). by apply pass_spec_loader.
  - rewrite Forall_forall in Hvalid, Hvl. apply Forall_forall.
    intros kl Hkl epoch. destruct (Hvalid kl Hkl) as [_ Hcnt].
    destruct (Hvl kl Hkl) as (_ & _ & Hd & Hp).
    rewrite <- (Hcnt epoch). by apply pass_spec_loader.
  - rewrite Forall_forall in Hvalid, Hvl. apply Forall_forall.
    intros kl Hkl inner indices tr c Hds Hshort epoch.
    destruct (Hvalid kl Hkl) as [Hbk _].
    destruct (Hvl kl Hkl) as ((inner' & c' & Hds') & Hsq & Hd & Hp).
    rewrite Hds in Hds'. injection Hds' as -> -> -> ->.
    rewrite length_seq in Hshort.
    rewrite Hmul, <- Hbk in Hds, Hshort.
    exact (short_dataset_pass_fails W epoch (snd kl) _ _ _
             (Z.to_nat (num_machines W)) Hds Hsq Hd Hp Hshort).
  - intros Hdist Hshuffle inner indices tr c Hds Hshort epoch.
    unfold choose_train_sampler in Hsmp. rewrite Hdist, Hshuffle in Hsmp.
    injection Hsmp as <-.
    apply Subset_inv_pure in Ht as (c' & _ & Ht).
    rewrite Hds in Ht. injection Ht as -> -> -> ->.
    rewrite length_seq in Hshort.
    rewrite Hmul, <- Hbs in Hds, Hshort.
    exact (short_dataset_pass_fails W epoch tl _ _ _
             (Z.to_nat (num_machines W)) Hds Hs Hdrop Hpos Hshort).
Qed.

Lemma dryrun_batches_witness :
  exists tl vl batches,
    construct_dataloader (Demo.world_dist 1) Demo.data (Demo.impl_of true)
      Demo.hyp true = Ok (tl, vl) /\
    impl_setup_dist (Demo.impl_of true)
    = dist_is_initialized (Demo.world_dist 1) /\
    run_pass (Demo.world_dist 1) 0 tl = Ok batches /\
    length batches = 1%nat /\
    dl_batch_size tl = data_batch_size Demo.data
    /\ (forall epoch, batches_per_pass (Demo.world_dist 1) epoch tl = 1%nat)
    /\ Forall (fun kl =>
                 dl_batch_size (snd kl) = data_batch_size Demo.data /\
                 forall epoch,
                   batches_per_pass (Demo.world_dist 1) epoch (snd kl)
                   = Z.to_nat (num_machines (Demo.world_dist 1))) vl
    /\ (forall epoch, pass_spec (Demo.world_dist 1) epoch tl 1%nat)
    /\ Forall (fun kl => forall epoch,
                 pass_spec (Demo.world_dist 1) epoch (snd kl)
                   (Z.to_nat (num_machines (Demo.world_dist 1)))) vl
    /\ Forall (fun kl =>
                 forall inner indices tr c,
                   dl_dataset (snd kl) = SubsetObj inner indices tr c ->
                   (len inner < length indices)%nat ->
                   forall epoch,
                     ~ fetchable (Demo.world_dist 1) epoch (snd kl)
                     /\ forall batches,
                          run_pass (Demo.world_dist 1) epoch (snd kl)
                          <> Ok batches) vl
    /\ (impl_setup_dist (Demo.impl_of true) = false ->
        hyp_shuffle Demo.hyp = false ->
        forall inner indices tr c,
          dl_dataset tl = SubsetObj inner indices tr c ->
          (len inner < length indices)%nat ->
          forall epoch,
            ~ fetchable (Demo.world_dist 1) epoch tl
            /\ forall batches,
                 run_pass (Demo.world_dist 1) epoch tl <> Ok batches).
Proof.
  eexists. eexists. eexists. split; [vm_compute; reflexivity|].
  split; [reflexivity|]. split; [vm_compute; reflexivity|].
  split; [reflexivity|].
  apply (dryrun_batches (Demo.world_dist 1) Demo.data (Demo.impl_of true)
           Demo.hyp);
    [vm_compute; reflexivity|reflexivity].
Defined.

(** ** Subset loaders *)

Lemma wrap64_small z : - 2 ^ 63 <= z < 2 ^ 63 -> wrap64 z = z.
Proof. intros H. unfold wrap64. rewrite Z.mod_small; lia. Qed.

Lemma arange_plus_length k c ids :
  arange_plus k c = Ok ids -> 0 <= k /\ length ids = Z.to_nat k.
Proof.
  unfold arange_plus. intros H. apply rbind_Ok in H as (l & Hl & H).
  apply arange_Ok in Hl as [Hk ->].
  destruct (negb (fits64 c)); [discriminate|]. injection H as <-.
  split; [lia|]. by rewrite length_map, length_seq.
Qed.

Lemma block_lookup size r i :
  (i < Z.to_nat size)%nat -> block size r !! i = Some (r * size + Z.of_nat i).
Proof.
  intros H. unfold block. rewrite list_lookup_fmap, lookup_seq_lt by done.
  simpl. f_equal. lia.
Qed.

Lemma block_In size r j :
  0 <= size -> In j (block size r) <-> r * size <= j < (r + 1) * size.
Proof.
  intros Hs. unfold block. rewrite in_map_iff. split.
  - intros (i & <- & Hi). apply in_seq in Hi. lia.
  - intros H. exists (Z.to_nat (j - r * size)). split; [lia|].
    apply in_seq. lia.
Qed.

Lemma arange_plus_block rounds size r :
  0 <= r < rounds -> 0 <= size -> rounds * size <= 2 ^ 63 ->
  arange_plus size (r * size)
  = if fits64 (r * size) then Ok (block size r)
    else Raise (RuntimeError
                  "value cannot be converted to type int64 without overflow").
Proof.
  intros Hr Hs Hb. unfold arange_plus.
  rewrite arange_nonneg by lia. cbn [rbind].
  destruct (fits64 (r * size)); simpl; [|done]. f_equal.
  unfold block. apply map_ext_in. intros i Hi. apply in_seq in Hi.
  apply wrap64_small. nia.
Qed.

Lemma fits64_block rounds size r :
  0 <= r < rounds -> 0 < size -> rounds * size <= 2 ^ 63 ->
  fits64 (r * size) = true.
Proof.
  intros Hr Hs Hb. unfold fits64. apply andb_true_intro. split.
  - apply Z.leb_le. nia.
  - apply Z.ltb_lt. nia.
Qed.

Lemma obind_Return {A B} (o : outcome A) (k : A -> outcome B) b :
  obind o k = Return b -> exists a, o = Return a /\ k a = Return b.
Proof. destruct o; simpl; [eauto|discriminate]. Qed.

Lemma lift_Return {A} (r : result A) a : lift r = Return a -> r = Ok a.
Proof. destruct r; simpl; congruence. Qed.

Lemma construct_subset_dataloader_inv W dl cfg impl hyp step ll :
  construct_subset_dataloader W dl cfg impl hyp step = Return ll ->
  db_rounds (data_db cfg) <> 0
  /\ exists ids smp,
       arange_plus (data_size cfg)
         (step mod db_rounds (data_db cfg) * data_size cfg) = Ok ids
       /\ choose_subset_sampler W impl hyp
            {| sub_dataset := dl_dataset dl; sub_indices := ids |} = Ok smp
       /\ 0 <= dl_num_workers dl
       /\ 0 < Z.min (data_batch_size cfg) (Z.of_nat (length ids))
       /\ ll = {| ll_dataset := {| sub_dataset := dl_dataset dl;
                                   sub_indices := ids |};
                  ll_batch_size :=
                    Z.min (data_batch_size cfg) (Z.of_nat (length ids));
                  ll_sampler := smp; ll_drop_last := true;
                  ll_num_workers := dl_num_workers dl;
                  ll_pin_memory := impl_pin_memory impl |}.
Proof.
  unfold construct_subset_dataloader, py_mod. intros H.
  destruct (db_rounds (data_db cfg) =? 0) eqn:Hr; [discriminate|].
  simpl in H. split; [lia|].
  apply obind_Return in H as (ids & Hids & H). apply lift_Return in Hids.
  apply obind_Return in H as (smp & Hsmp & H). apply lift_Return in Hsmp.
  apply lift_Return in H. unfold SubsetDataLoader, sub_len in H. simpl in H.
  destruct (dl_num_workers dl <? 0) eqn:Hw; [discriminate|].
  destruct (Z.min _ _ <=? 0) eqn:Hb; [discriminate|].
  injection H as <-. exists ids, smp. repeat split; try done; lia.
Qed.

Lemma construct_subset_dataloader_size W dl cfg impl hyp step ll :
  construct_subset_dataloader W dl cfg impl hyp step = Return ll ->
  0 < data_size cfg /\ sub_len (ll_dataset ll) = Z.to_nat (data_size cfg).
Proof.
  intros H. apply construct_subset_dataloader_inv in H
    as (_ & ids & smp & Hids & _ & _ & Hb & ->).
  apply arange_plus_length in Hids as [Hs Hl]. unfold sub_len. simpl.
  split; [lia|done].
Qed.

Lemma construct_subset_dataloader_indices W dl cfg impl hyp step ll :
  0 < db_rounds (data_db cfg) ->
  db_rounds (data_db cfg) * data_size cfg <= 2 ^ 63 ->
  construct_subset_dataloader W dl cfg impl hyp step = Return ll ->
  sub_indices (ll_dataset ll)
  = block (data_size cfg) (step mod db_rounds (data_db cfg)).
Proof.
  intros Hr Hb H.
  destruct (construct_subset_dataloader_size _ _ _ _ _ _ _ H) as [Hs _].
  apply construct_subset_dataloader_inv in H
    as (_ & ids & smp & Hids & _ & _ & _ & ->). simpl.
  pose proof (Z.mod_pos_bound step _ Hr) as Hm.
  rewrite (arange_plus_block (db_rounds (data_db cfg))) in Hids by lia.
  rewrite (fits64_block (db_rounds (data_db cfg))) in Hids by lia.
  by injection Hids.
Qed.

(** X15: With a positive number of rounds, and [rounds * size] within the
    64-bit range of the index tensor, the loader [construct_subset_dataloader]
    returns for step [step] is over the dataset of the given loader and
    reads from it exactly the block of [size] consecutive indices that
    starts at [(step mod rounds) * size]: position [i] of the subset reads
    index [(step mod rounds) * size + i] of the parent.  The block lies
    inside [0, rounds * size). *)
Theorem subset_loader_block (W : World) (dl : dataloader) (cfg : cfg_data)
    (impl : cfg_impl) (hyp : cfg_hyp) (step : Z) (ll : localloader) :
  0 < db_rounds (data_db cfg) ->
  db_rounds (data_db cfg) * data_size cfg <= 2 ^ 63 ->
  construct_subset_dataloader W dl cfg impl hyp step = Return ll ->
  sub_dataset (ll_dataset ll) = dl_dataset dl
  /\ sub_len (ll_dataset ll) = Z.to_nat (data_size cfg)
  /\ (forall i, (i < Z.to_nat (data_size cfg))%nat ->
        sub_getitem (ll_dataset ll) i
        = Some (step mod db_rounds (data_db cfg) * data_size cfg + Z.of_nat i))
  /\ (forall j, In j (sub_indices (ll_dataset ll)) <->
        step mod db_rounds (data_db cfg) * data_size cfg <= j
        < (step mod db_rounds (data_db cfg) + 1) * data_size cfg)
  /\ 0 <= step mod db_rounds (data_db cfg) * data_size cfg
  /\ (step mod db_rounds (data_db cfg) + 1) * data_size cfg
     <= db_rounds (data_db cfg) * data_size cfg.
Proof.
  intros Hr Hb H.
  pose proof (construct_subset_dataloader_indices _ _ _ _ _ _ _ Hr Hb H) as Hi.
  destruct (construct_subset_dataloader_size _ _ _ _ _ _ _ H) as [Hs Hl].
  pose proof (Z.mod_pos_bound step _ Hr) as Hm.
  split.
  { apply construct_subset_dataloader_inv in H
      as (_ & ids & smp & _ & _ & _ & _ & ->). reflexivity. }
  split; [exact Hl|]. split.
  { intros i Hlt. unfold sub_getitem. rewrite Hi. by apply block_lookup. }
  split.
  { intros j. rewrite Hi. apply block_In. lia. }
  split; nia.
Qed.

Lemma subset_loader_block_witness :
  exists ll,
    0 < db_rounds (data_db (Demo3.data_rounds 10 3)) /\
    db_rounds (data_db (Demo3.data_rounds 10 3))
    * data_size (Demo3.data_rounds 10 3) <= 2 ^ 63 /\
    construct_subset_dataloader Demo.world Demo3.bigloader
      (Demo3.data_rounds 10 3) Demo.impl Demo.hyp 7 = Return ll /\
    sub_indices (ll_dataset ll) = [10; 11; 12; 13; 14; 15; 16; 17; 18; 19] /\
    forall j, In j (sub_indices (ll_dataset ll)) <->
      7 mod db_rounds (data_db (Demo3.data_rounds 10 3))
      * data_size (Demo3.data_rounds 10 3) <= j
      < (7 mod db_rounds (data_db (Demo3.data_rounds 10 3)) + 1)
        * data_size (Demo3.data_rounds 10 3).
Proof.
  eexists. split; [reflexivity|]. split; [vm_compute; discriminate|].
  split; [vm_compute; reflexivity|]. split; [reflexivity|].
  eapply (subset_loader_block Demo.world Demo3.bigloader
            (Demo3.data_rounds 10 3) Demo.impl Demo.hyp 7);
    [reflexivity|vm_compute; discriminate|vm_compute; reflexivity].
Defined.

(** X16: The settings of a subset loader: its batch size is the configured one
    capped by the subset size and is positive, the trailing partial batch
    is dropped, the number of workers is the one of the given loader (not
    recomputed), and pin_memory follows the configuration.  The sampler
    is over the subset: distributed with the configured shuffle flag
    under the distributed flag, else random with shuffling and
    sequential without. *)
Theorem subset_loader_settings (W : World) (dl : dataloader) (cfg : cfg_data)
    (impl : cfg_impl) (hyp : cfg_hyp) (step : Z) (ll : localloader) :
  construct_subset_dataloader W dl cfg impl hyp step = Return ll ->
  ll_batch_size ll = Z.min (data_batch_size cfg) (data_size cfg)
  /\ 0 < ll_batch_size ll
  /\ ll_drop_last ll = true
  /\ ll_num_workers ll = dl_num_workers dl
  /\ ll_pin_memory ll = impl_pin_memory impl
  /\ ll_sampler ll
     = (if impl_setup_dist impl then
          SubsetDistributedSampler (ll_dataset ll) (dist_get_world_size W)
            (dist_get_rank W) (hyp_shuffle hyp)
        else if hyp_shuffle hyp then SubsetRandomSampler (ll_dataset ll)
        else SubsetSequentialSampler (ll_dataset ll)).
Proof.
  intros H.
  destruct (construct_subset_dataloader_size _ _ _ _ _ _ _ H) as [Hs Hl].
  apply construct_subset_dataloader_inv in H
    as (_ & ids & smp & Hids & Hsmp & Hw & Hb & ->).
  unfold sub_len in Hl. simpl in *. rewrite Hl in *.
  rewrite Z2Nat.id in * by lia.
  repeat split; try done.
  unfold choose_subset_sampler in Hsmp.
  destruct (impl_setup_dist impl).
  - destruct (negb (dist_is_initialized W)); [discriminate|].
    destruct (_ || _); [discriminate|]. by injection Hsmp.
  - destruct (hyp_shuffle hyp); [|by injection Hsmp].
    destruct (_ =? _)%nat; [discriminate|]. by injection Hsmp.
Qed.

Lemma subset_loader_settings_witness :
  exists ll,
    construct_subset_dataloader (Demo.world_dist 1) Demo3.bigloader
      (Demo3.data_rounds 5 3) (Demo.impl_of true) Demo.hyp 4 = Return ll /\
    ll_batch_size ll = 5 /\ ll_num_workers ll = 2 /\
    ll_batch_size ll
    = Z.min (data_batch_size (Demo3.data_rounds 5 3))
        (data_size (Demo3.data_rounds 5 3))
    /\ 0 < ll_batch_size ll
    /\ ll_drop_last ll = true
    /\ ll_num_workers ll = dl_num_workers Demo3.bigloader
    /\ ll_pin_memory ll = impl_pin_memory (Demo.impl_of true)
    /\ ll_sampler ll
       = (if impl_setup_dist (Demo.impl_of true) then
            SubsetDistributedSampler (ll_dataset ll)
              (dist_get_world_size (Demo.world_dist 1))
              (dist_get_rank (Demo.world_dist 1)) (hyp_shuffle Demo.hyp)
          else if hyp_shuffle Demo.hyp then SubsetRandomSampler (ll_dataset ll)
          else SubsetSequentialSampler (ll_dataset ll)).
Proof.
  eexists. split; [vm_compute; reflexivity|].
  split; [reflexivity|]. split; [reflexivity|].
  eapply (subset_loader_settings (Demo.world_dist 1) Demo3.bigloader
            (Demo3.data_rounds 5 3) (Demo.impl_of true) Demo.hyp 4).
  vm_compute. reflexivity.
Defined.

Lemma choose_subset_sampler_returns W impl hyp ds :
  (0 < sub_len ds)%nat ->
  (impl_setup_dist impl = true ->
   dist_is_initialized W = true
   /\ 0 <= dist_get_rank W < dist_get_world_size W) ->
  exists smp, choose_subset_sampler W impl hyp ds = Ok smp.
Proof.
  intros Hl Hd. unfold choose_subset_sampler.
  destruct (impl_setup_dist impl).
  - destruct Hd as [-> Hrk]; [done|]. simpl.
    destruct (dist_get_world_size W <=? dist_get_rank W) eqn:E1; [lia|].
    destruct (dist_get_rank W <? 0) eqn:E2; [lia|]. simpl. eauto.
  - destruct (hyp_shuffle hyp); [|eauto].
    destruct (Nat.eqb_spec (sub_len ds) 0); [lia|eauto].
Qed.

Lemma construct_subset_dataloader_returns W dl cfg impl hyp step :
  db_rounds (data_db cfg) <> 0 ->
  0 < data_size cfg ->
  fits64 (step mod db_rounds (data_db cfg) * data_size cfg) = true ->
  0 < data_batch_size cfg ->
  0 <= dl_num_workers dl ->
  (impl_setup_dist impl = true ->
   dist_is_initialized W = true
   /\ 0 <= dist_get_rank W < dist_get_world_size W) ->
  exists ll, construct_subset_dataloader W dl cfg impl hyp step = Return ll.
Proof.
  intros Hr Hs Hf Hb Hw Hd. unfold construct_subset_dataloader, py_mod.
  destruct (Z.eqb_spec (db_rounds (data_db cfg)) 0) as [|_]; [done|]. simpl.
  destruct (arange_plus (data_size cfg) _) as [ids|e] eqn:Hids.
  2:{ unfold arange_plus in Hids. rewrite arange_nonneg in Hids by lia.
      cbn [rbind] in Hids. rewrite Hf in Hids. discriminate. }
  apply arange_plus_length in Hids as [_ Hl]. simpl.
  destruct (choose_subset_sampler_returns W impl hyp
              {| sub_dataset := dl_dataset dl; sub_indices := ids |})
    as [smp ->]; [unfold sub_len; simpl; lia|done|].
  simpl. unfold SubsetDataLoader, sub_len. simpl. rewrite Hl.
  destruct (dl_num_workers dl <? 0) eqn:Ew; [lia|].
  destruct (Z.min _ _ <=? 0) eqn:Eb; [|eauto].
  apply Z.leb_le in Eb. lia.
Qed.

Lemma subset_loader_returns_iff_aux W dl cfg impl hyp step :
  (construct_subset_dataloader W dl cfg impl hyp step = Throw ZeroDivisionError
   <-> db_rounds (data_db cfg) = 0)
  /\ ((exists ll, construct_subset_dataloader W dl cfg impl hyp step = Return ll)
      <-> db_rounds (data_db cfg) <> 0
          /\ 0 < data_size cfg
          /\ fits64 (step mod db_rounds (data_db cfg) * data_size cfg) = true
          /\ 0 < data_batch_size cfg
          /\ 0 <= dl_num_workers dl
          /\ (impl_setup_dist impl = true ->
              dist_is_initialized W = true
              /\ 0 <= dist_get_rank W < dist_get_world_size W)).
Proof.
  split.
  - unfold construct_subset_dataloader, py_mod.
    destruct (Z.eqb_spec (db_rounds (data_db cfg)) 0) as [E|E]; simpl.
    + tauto.
    + split; [|done]. intros H. exfalso.
      destruct (arange_plus _ _); simpl in H; [|discriminate].
      destruct (choose_subset_sampler _ _ _ _); simpl in H; [|discriminate].
      destruct (SubsetDataLoader _ _ _ _ _ _); simpl in H; discriminate.
  - split.
    + intros [ll H].
      destruct (construct_subset_dataloader_size _ _ _ _ _ _ _ H) as [Hs Hl].
      apply construct_subset_dataloader_inv in H
        as (Hr & ids & smp & Hids & Hsmp & Hw & Hb & ->).
      unfold sub_len in Hl. simpl in Hl. rewrite Hl in Hb.
      split; [done|]. split; [done|]. split.
      { unfold arange_plus in Hids.
        apply rbind_Ok in Hids as (l & _ & Hids).
        by destruct (fits64 _). }
      split; [lia|]. split; [done|].
      intros Hd. unfold choose_subset_sampler in Hsmp. rewrite Hd in Hsmp.
      destruct (dist_is_initialized W); [|discriminate]. simpl in Hsmp.
      destruct (_ <=? _) eqn:E1; [discriminate|].
      destruct (_ <? _) eqn:E2; [discriminate|]. split; [done|lia].
    + intros (Hr & Hs & Hf & Hb & Hw & Hd).
      by apply construct_subset_dataloader_returns.
Qed.


(** X17: [construct_subset_dataloader] raises [ZeroDivisionError] exactly when
    the number of rounds is 0, and it returns a loader exactly when the
    number of rounds is not 0, the subset size and the batch size are
    positive, the block offset fits the 64-bit index tensor, the given
    loader has no negative number of workers and, under the distributed
    flag, the process group is initialized with a rank inside it.  An
    empty subset (size 0) never gives a loader. *)
Theorem subset_loader_returns_iff (W : World) (dl : dataloader)
    (cfg : cfg_data) (impl : cfg_impl) (hyp : cfg_hyp) (step : Z) :
  (construct_subset_dataloader W dl cfg impl hyp step = Throw ZeroDivisionError
   <-> db_rounds (data_db cfg) = 0)
  /\ ((exists ll, construct_subset_dataloader W dl cfg impl hyp step = Return ll)
      <-> db_rounds (data_db cfg) <> 0
          /\ 0 < data_size cfg
          /\ fits64 (step mod db_rounds (data_db cfg) * data_size cfg) = true
          /\ 0 < data_batch_size cfg
          /\ 0 <= dl_num_workers dl
          /\ (impl_setup_dist impl = true ->
              dist_is_initialized W = true
              /\ 0 <= dist_get_rank W < dist_get_world_size W)).
Proof. exact (subset_loader_returns_iff_aux W dl cfg impl hyp step). Qed.

Lemma div_block (size r j : Z) :
  0 < size -> (r * size <= j < (r + 1) * size <-> r = j / size).
Proof.
  intros Hs. split.
  - intros H. apply (Z.div_unique j size r (j - r * size)); lia.
  - intros ->. pose proof (Z.mul_div_le j size Hs).
    pose proof (Z.mul_succ_div_gt j size Hs). lia.
Qed.

(** X18: The rounds tile the range: if the call returns for one step, then
    (with a positive number of rounds and [rounds * size] within the
    64-bit range) it returns for every step, and an index [j] of
    [0, rounds * size) is read by the loader of step [step'] exactly when
    [step' mod rounds = j // size].  So steps in the same residue class
    read the same block, steps in different classes read disjoint blocks,
    and [rounds] consecutive steps read every index below [rounds * size]
    once. *)
Theorem subset_rounds_tile (W : World) (dl : dataloader) (cfg : cfg_data)
    (impl : cfg_impl) (hyp : cfg_hyp) (step : Z) (ll : localloader)
    (step' : Z) :
  0 < db_rounds (data_db cfg) ->
  db_rounds (data_db cfg) * data_size cfg <= 2 ^ 63 ->
  construct_subset_dataloader W dl cfg impl hyp step = Return ll ->
  exists ll',
    construct_subset_dataloader W dl cfg impl hyp step' = Return ll'
    /\ forall j,
         In j (sub_indices (ll_dataset ll'))
         <-> 0 <= j < db_rounds (data_db cfg) * data_size cfg
             /\ step' mod db_rounds (data_db cfg) = j / data_size cfg.
Proof.
  intros Hr Hb H.
  destruct (construct_subset_dataloader_size _ _ _ _ _ _ _ H) as [Hs _].
  pose proof (Z.mod_pos_bound step' _ Hr) as Hm.
  destruct (proj1 (proj2 (subset_loader_returns_iff_aux W dl cfg impl hyp step))
              (ex_intro _ ll H)) as (_ & _ & _ & Hbs & Hw & Hd).
  destruct (construct_subset_dataloader_returns W dl cfg impl hyp step')
    as [ll' H']; try done; try lia.
  { by apply (fits64_block (db_rounds (data_db cfg))). }
  exists ll'. split; [exact H'|]. intros j.
  rewrite (construct_subset_dataloader_indices _ _ _ _ _ _ _ Hr Hb H').
  rewrite block_In by lia. rewrite div_block by lia. split.
  - intros Hj. split; [|done].
    apply div_block in Hj; [|lia]. nia.
  - tauto.
Qed.

Lemma subset_rounds_tile_witness :
  exists ll,
    0 < db_rounds (data_db (Demo3.data_rounds 10 3)) /\
    db_rounds (data_db (Demo3.data_rounds 10 3))
    * data_size (Demo3.data_rounds 10 3) <= 2 ^ 63 /\
    construct_subset_dataloader Demo.world Demo3.bigloader
      (Demo3.data_rounds 10 3) Demo.impl Demo.hyp 7 = Return ll /\
    exists ll',
      construct_subset_dataloader Demo.world Demo3.bigloader
        (Demo3.data_rounds 10 3) Demo.impl Demo.hyp 5 = Return ll'
      /\ forall j,
           In j (sub_indices (ll_dataset ll'))
           <-> 0 <= j < db_rounds (data_db (Demo3.data_rounds 10 3))
                        * data_size (Demo3.data_rounds 10 3)
               /\ 5 mod db_rounds (data_db (Demo3.data_rounds 10 3))
                  = j / data_size (Demo3.data_rounds 10 3).
Proof.
  eexists. split; [reflexivity|]. split; [vm_compute; discriminate|].
  split; [vm_compute; reflexivity|].
  eapply (subset_rounds_tile Demo.world Demo3.bigloader
            (Demo3.data_rounds 10 3) Demo.impl Demo.hyp 7 _ 5);
    [reflexivity|vm_compute; discriminate|vm_compute; reflexivity].
Defined.

(** X19: The length of the given dataset is never consulted: when it holds
    fewer than [rounds * size] samples and the call returns at all, some
    step gets a loader with a position that reads an index at or past the
    end of the dataset. *)
Theorem subset_loader_overruns (W : World) (dl : dataloader) (cfg : cfg_data)
    (impl : cfg_impl) (hyp : cfg_hyp) (step : Z) (ll : localloader) :
  0 < db_rounds (data_db cfg) ->
  db_rounds (data_db cfg) * data_size cfg <= 2 ^ 63 ->
  construct_subset_dataloader W dl cfg impl hyp step = Return ll ->
  Z.of_nat (len (dl_dataset dl)) < db_rounds (data_db cfg) * data_size cfg ->
  exists step' ll' i idx,
    0 <= step' < db_rounds (data_db cfg)
    /\ construct_subset_dataloader W dl cfg impl hyp step' = Return ll'
    /\ sub_getitem (ll_dataset ll') i = Some idx
    /\ Z.of_nat (len (dl_dataset dl)) <= idx.
Proof.
  intros Hr Hb H Hlen.
  destruct (construct_subset_dataloader_size _ _ _ _ _ _ _ H) as [Hs _].
  destruct (proj1 (proj2 (subset_loader_returns_iff_aux W dl cfg impl hyp step))
              (ex_intro _ ll H)) as (_ & _ & _ & Hbs & Hw & Hd).
  set (rounds := db_rounds (data_db cfg)) in *.
  assert (Hm : (rounds - 1) mod rounds = rounds - 1)
    by (apply Z.mod_small; lia).
  destruct (construct_subset_dataloader_returns W dl cfg impl hyp (rounds - 1))
    as [ll' H']; try done; try lia.
  { fold rounds. rewrite Hm. apply (fits64_block rounds); lia. }
  exists (rounds - 1), ll', (Z.to_nat (data_size cfg) - 1)%nat,
         (rounds * data_size cfg - 1).
  split; [lia|]. split; [exact H'|]. split; [|lia].
  unfold sub_getitem.
  rewrite (construct_subset_dataloader_indices _ _ _ _ _ _ _ Hr Hb H').
  fold rounds. rewrite Hm, block_lookup by lia. f_equal. lia.
Qed.

Lemma subset_loader_overruns_witness :
  exists ll,
    0 < db_rounds (data_db (Demo3.data_rounds 40 3)) /\
    db_rounds (data_db (Demo3.data_rounds 40 3))
    * data_size (Demo3.data_rounds 40 3) <= 2 ^ 63 /\
    construct_subset_dataloader Demo.world Demo3.bigloader
      (Demo3.data_rounds 40 3) Demo.impl Demo.hyp 0 = Return ll /\
    Z.of_nat (len (dl_dataset Demo3.bigloader))
    < db_rounds (data_db (Demo3.data_rounds 40 3))
      * data_size (Demo3.data_rounds 40 3) /\
    exists step' ll' i idx,
      0 <= step' < db_rounds (data_db (Demo3.data_rounds 40 3))
      /\ construct_subset_dataloader Demo.world Demo3.bigloader
           (Demo3.data_rounds 40 3) Demo.impl Demo.hyp step' = Return ll'
      /\ sub_getitem (ll_dataset ll') i = Some idx
      /\ Z.of_nat (len (dl_dataset Demo3.bigloader)) <= idx.
Proof.
  eexists. split; [reflexivity|]. split; [vm_compute; discriminate|].
  split; [vm_compute; reflexivity|]. split; [reflexivity|].
  eapply (subset_loader_overruns Demo.world Demo3.bigloader
            (Demo3.data_rounds 40 3) Demo.impl Demo.hyp 0);
    [reflexivity|vm_compute; discriminate|vm_compute; reflexivity
    |reflexivity].
Defined.

(** ** The ordering of processes under [main_process_first] *)

Lemma all_main_process_first_shape {A} W (b0 : traced A) bs :
  all_main_process_first W (b0 :: bs)
  = (fst b0 ++ [barrier]) :: map (cons barrier) (map fst bs).
Proof.
  unfold all_main_process_first. rewrite imap_cons.
  assert (Ht : imap ((fun r (body : traced A) =>
                        fst (main_process_first
                               (as_rank W (length (b0 :: bs)) r) body)) ∘ S) bs
               = map (cons barrier) (map fst bs)).
  { apply list_eq. intros i.
    rewrite list_lookup_imap, map_map, list_lookup_fmap.
    unfold traced in *.
    destruct (bs !! i) as [b|]; [|reflexivity]. simpl. f_equal.
    unfold main_process_first. simpl. by rewrite app_nil_r. }
  rewrite Ht. reflexivity.
Qed.

Lemma no_barrier_inv a w : no_barrier (a :: w) -> exists l, a = work l.
Proof.
  intros H. apply Forall_cons in H as [H _]. destruct a; [done|eauto].
Qed.

Lemma map_tail_cons_barrier (bs : list (list action)) :
  map (fun p => tail p) (map (cons barrier) bs) = bs.
Proof. rewrite map_map. simpl. apply map_id. Qed.

Lemma step_before w bs e g' :
  no_barrier w -> Forall no_barrier bs ->
  group_step ((w ++ [barrier]) :: map (cons barrier) bs) e g' ->
  (exists l w', e = Did 0 l /\ w = work l :: w'
                /\ g' = (w' ++ [barrier]) :: map (cons barrier) bs)
  \/ (e = Released /\ w = [] /\ g' = [] :: bs).
Proof.
  intros Hw Hbs Hstep.
  inversion Hstep as [g r l rest Hl | g Hne Hall]; subst.
  - destruct r as [|k]; simpl in Hl.
    + destruct w as [|a w']; simpl in Hl; [discriminate|].
      injection Hl as -> <-. left. eauto.
    + rewrite list_lookup_fmap in Hl.
      destruct (bs !! k); simpl in Hl; discriminate.
  - right. apply Forall_cons in Hall as [Hh _].
    destruct w as [|a w'].
    + simpl. by rewrite map_tail_cons_barrier.
    + destruct (no_barrier_inv _ _ Hw) as [l ->]. discriminate.
Qed.

Lemma step_after bs e g' :
  Forall no_barrier bs ->
  group_step ([] :: bs) e g' ->
  exists r l bs', e = Did (S r) l /\ g' = [] :: bs' /\ Forall no_barrier bs'.
Proof.
  intros Hbs Hstep.
  inversion Hstep as [g r l rest Hl | g Hne Hall]; subst.
  - destruct r as [|k]; simpl in Hl; [discriminate|].
    exists k, l, (<[k := rest]> bs). split; [done|]. split; [done|].
    apply Forall_insert; [done|].
    apply (Forall_lookup_1 _ _ _ _ Hbs) in Hl.
    by apply Forall_cons in Hl as [_ Hl].
  - apply Forall_cons in Hall as [Hh _]. discriminate.
Qed.

Lemma run_after bs tr g' :
  Forall no_barrier bs ->
  group_run ([] :: bs) tr g' ->
  Forall (fun e => match e with Did r _ => r <> 0%nat | Released => True end) tr
  /\ phase g'.
Proof.
  intros Hbs Hrun. remember ([] :: bs) as g eqn:Hg.
  revert bs Hbs Hg.
  induction Hrun as [g|g e g1 tr g2 Hstep Hrun IH]; intros bs Hbs ->.
  - split; [constructor|]. by constructor.
  - destruct (step_after _ _ _ Hbs Hstep) as (r & l & bs' & -> & -> & Hbs').
    destruct (IH bs' Hbs' eq_refl) as [Htr Hph]. split; [|done].
    constructor; [lia|done].
Qed.

Lemma run_phase g tr g' :
  phase g -> group_run g tr g' -> main_first tr /\ phase g'.
Proof.
  intros Hph Hrun.
  induction Hrun as [g|g e g1 tr g2 Hstep Hrun IH].
  - split; [|done]. exists [], []. repeat split; constructor.
  - destruct Hph as [w bs Hw Hbs|bs Hbs].
    + destruct (step_before _ _ _ _ Hw Hbs Hstep)
        as [(l & w' & -> & -> & ->)|(-> & -> & ->)].
      * destruct IH as [(pre & post & -> & Hpre & Hpost) Hph'].
        { constructor; [|done]. by apply Forall_cons in Hw as [_ Hw]. }
        split; [|done]. exists (Did 0 l :: pre), post.
        split; [done|]. split; [|done]. by constructor.
      * destruct (run_after _ _ _ Hbs Hrun) as [Hpost Hph']. split; [|done].
        exists [Released], tr. split; [done|]. split; [|done].
        by repeat constructor.
    + destruct (run_after bs (e :: tr) g2 Hbs) as [Hpost Hph'].
      { by econstructor. }
      split; [|done]. exists [], (e :: tr). split; [done|].
      split; [constructor|done].
Qed.

Lemma run_from_nil tr g' : group_run [] tr g' -> tr = [] /\ g' = [].
Proof.
  intros Hrun. inversion Hrun as [|g e g1 tr' g2 Hstep Hrun']; subst; [done|].
  inversion Hstep as [g r l rest Hl | g Hne Hall]; subst; [|done].
  destruct r; discriminate.
Qed.

Lemma all_main_process_first_phase {A} W (b0 : traced A) bs :
  Forall (fun b => no_barrier (fst b)) (b0 :: bs) ->
  phase (all_main_process_first W (b0 :: bs)).
Proof.
  intros H. apply Forall_cons in H as [H0 Hbs].
  rewrite all_main_process_first_shape. constructor; [done|].
  induction Hbs; by constructor.
Qed.

(** X20: When every rank of an initialized group runs a block under
    [main_process_first] (the blocks themselves not using the barrier),
    then in every execution of the group, complete or not, everything
    rank 0 does in its block comes before anything another rank does in
    its own. *)
Theorem main_process_first_orders {A} (W : World) (bodies : list (traced A))
    (tr : list group_event) (g' : group) :
  Forall (fun b => no_barrier (fst b)) bodies ->
  group_run (all_main_process_first W bodies) tr g' ->
  main_first tr.
Proof.
  intros Hb Hrun. destruct bodies as [|b0 bs].
  - apply run_from_nil in Hrun as [-> _].
    exists [], []. repeat split; constructor.
  - apply (run_phase _ _ _ (all_main_process_first_phase W b0 bs Hb) Hrun).
Qed.

Lemma main_process_first_orders_witness :
  Forall (fun b : traced unit => no_barrier (fst b)) Demo3.bodies /\
  group_run (all_main_process_first Demo.world Demo3.bodies)
    [Did 0 0; Released; Did 1 0; Did 1 1] [[]; []] /\
  main_first [Did 0 0; Released; Did 1 0; Did 1 1].
Proof.
  assert (Hb : Forall (fun b : traced unit => no_barrier (fst b)) Demo3.bodies).
  { repeat constructor; discriminate. }
  assert (Hrun : group_run (all_main_process_first Demo.world Demo3.bodies)
                   [Did 0 0; Released; Did 1 0; Did 1 1] [[]; []]).
  { apply (run_step [[work 0; barrier]; [barrier; work 0; work 1]] _
             [[barrier]; [barrier; work 0; work 1]]);
      [exact (step_work [[work 0; barrier]; [barrier; work 0; work 1]]
                0 0 [barrier] eq_refl)|].
    apply (run_step _ _ [[]; [work 0; work 1]]);
      [apply (step_barrier [[barrier]; [barrier; work 0; work 1]]);
         [discriminate|by repeat constructor]|].
    apply (run_step _ _ [[]; [work 1]]);
      [exact (step_work [[]; [work 0; work 1]] 1 0 [work 1] eq_refl)|].
    apply (run_step _ _ [[]; []]);
      [exact (step_work [[]; [work 1]] 1 1 [] eq_refl)|].
    apply run_done. }
  split; [exact Hb|]. split; [exact Hrun|].
  exact (main_process_first_orders Demo.world Demo3.bodies _ _ Hb Hrun).
Defined.

Lemma run_app g tr g' tr' g'' :
  group_run g tr g' -> group_run g' tr' g'' -> group_run g (tr ++ tr') g''.
Proof.
  intros H1 H2. induction H1; [done|]. simpl. econstructor; eauto.
Qed.

Lemma run_work_prefix w g r q :
  no_barrier w -> g !! r = Some (w ++ q) ->
  exists tr, group_run g tr (<[r := q]> g).
Proof.
  revert g. induction w as [|a w IH]; intros g Hw Hl.
  - exists []. simpl in Hl. rewrite list_insert_id by done. constructor.
  - destruct (no_barrier_inv _ _ Hw) as [l ->].
    apply Forall_cons in Hw as [_ Hw].
    destruct (IH (<[r := w ++ q]> g) Hw) as [tr Htr].
    { apply list_lookup_insert_eq. by eapply lookup_lt_Some. }
    rewrite list_insert_insert_eq in Htr.
    exists (Did r l :: tr). econstructor; [|exact Htr].
    by apply step_work.
Qed.

Lemma run_lift q g tr g' :
  Forall no_barrier g -> group_run g tr g' ->
  exists tr', group_run (q :: g) tr' (q :: g').
Proof.
  intros Hg Hrun. induction Hrun as [g|g e g1 tr g2 Hstep Hrun IH].
  - exists []. constructor.
  - inversion Hstep as [g0 r l rest Hl | g0 Hne Hall]; subst.
    + destruct IH as [tr' Htr'].
      { apply Forall_insert; [done|].
        apply (Forall_lookup_1 _ _ _ _ Hg) in Hl.
        by apply Forall_cons in Hl as [_ Hl]. }
      exists (Did (S r) l :: tr'). econstructor; [|exact Htr'].
      by apply (step_work (q :: g) (S r) l rest).
    + destruct g as [|p g]; [done|].
      apply Forall_cons in Hall as [Hh _]. apply Forall_cons in Hg as [Hp _].
      destruct p as [|a p]; [discriminate|].
      destruct (no_barrier_inv _ _ Hp) as [l ->]. discriminate.
Qed.

Lemma run_finish g :
  Forall no_barrier g ->
  exists tr g', group_run g tr g' /\ finished g'.
Proof.
  induction g as [|p g IH]; intros Hg.
  - exists [], []. split; constructor.
  - apply Forall_cons in Hg as [Hp Hg].
    destruct (IH Hg) as (tr & g' & Hrun & Hfin).
    destruct (run_work_prefix p (p :: g) 0 []) as [tr0 Hrun0];
      [done|by rewrite app_nil_r|]. simpl in Hrun0.
    destruct (run_lift [] g tr g' Hg Hrun) as [tr' Hrun'].
    exists (tr0 ++ tr'), ([] :: g'). split.
    + by eapply run_app.
    + by constructor.
Qed.

Lemma phase_finish g :
  phase g -> exists tr g', group_run g tr g' /\ finished g'.
Proof.
  intros [w bs Hw Hbs|bs Hbs].
  - destruct (run_work_prefix w ((w ++ [barrier]) :: map (cons barrier) bs)
                0 [barrier] Hw eq_refl) as [tr0 Hrun0]. simpl in Hrun0.
    destruct (run_finish ([] :: bs)) as (tr1 & g' & Hrun1 & Hfin).
    { constructor; [constructor|done]. }
    exists (tr0 ++ Released :: tr1), g'. split; [|done].
    eapply run_app; [exact Hrun0|]. econstructor; [|exact Hrun1].
    rewrite <- (map_tail_cons_barrier bs) at 2.
    apply (step_barrier ([barrier] :: map (cons barrier) bs)); [done|].
    constructor; [done|]. apply Forall_forall. intros p Hp.
    apply list_elem_of_In, in_map_iff in Hp as (b & <- & _). done.
  - apply run_finish. constructor; [constructor|done].
Qed.

(** X21: When every rank of an initialized group runs a block under
    [main_process_first] (the blocks themselves not using the barrier),
    the group never gets stuck: from wherever an execution has got to,
    it can be continued until every rank is through, whether or not a
    block raised; and the outcome of each block is the outcome of its
    [with] statement. *)
Theorem main_process_first_completes {A} (W : World)
    (bodies : list (traced A)) (tr : list group_event) (g' : group) :
  Forall (fun b => no_barrier (fst b)) bodies ->
  group_run (all_main_process_first W bodies) tr g' ->
  (exists tr' g'', group_run g' tr' g'' /\ finished g'')
  /\ forall r body,
       bodies !! r = Some body ->
       snd (main_process_first (as_rank W (length bodies) r) body) = snd body.
Proof.
  intros Hb Hrun. split.
  - destruct bodies as [|b0 bs].
    + apply run_from_nil in Hrun as [_ ->]. exists [], [].
      split; constructor.
    + apply phase_finish.
      apply (run_phase _ _ _ (all_main_process_first_phase W b0 bs Hb) Hrun).
  - intros r body _. reflexivity.
Qed.

Lemma main_process_first_completes_witness :
  Forall (fun b : traced unit => no_barrier (fst b)) Demo3.bodies /\
  group_run (all_main_process_first Demo.world Demo3.bodies)
    [Did 0 0] [[barrier]; [barrier; work 0; work 1]] /\
  (exists tr' g'',
     group_run [[barrier]; [barrier; work 0; work 1]] tr' g''
     /\ finished g'')
  /\ forall r body,
       Demo3.bodies !! r = Some body ->
       snd (main_process_first
              (as_rank Demo.world (length Demo3.bodies) r) body) = snd body.
Proof.
  assert (Hb : Forall (fun b : traced unit => no_barrier (fst b)) Demo3.bodies).
  { repeat constructor; discriminate. }
  assert (Hrun : group_run (all_main_process_first Demo.world Demo3.bodies)
                   [Did 0 0] [[barrier]; [barrier; work 0; work 1]]).
  { apply (run_step [[work 0; barrier]; [barrier; work 0; work 1]] _
             [[barrier]; [barrier; work 0; work 1]]);
      [exact (step_work [[work 0; barrier]; [barrier; work 0; work 1]]
                0 0 [barrier] eq_refl)|].
    apply run_done. }
  split; [exact Hb|]. split; [exact Hrun|].
  exact (main_process_first_completes Demo.world Demo3.bodies _ _ Hb Hrun).
Defined.

(** ** Seeding *)

Lemma mod64_small z : 0 <= z < 2 ^ 64 -> z mod 2 ^ 64 = z.
Proof. intros H. by apply Z.mod_small. Qed.

Lemma torch_seed_ok_range s :
  - 2 ^ 63 <= s < 2 ^ 64 -> torch_seed_ok s = true.
Proof.
  intros H. unfold torch_seed_ok. apply andb_true_intro.
  split; [apply Z.leb_le|apply Z.ltb_lt]; lia.
Qed.

Lemma set_random_seed_in_range device seed st :
  0 <= seed + 4 < 2 ^ 32 ->
  set_random_seed device seed st
  = Return {| torch_seed := Some ((seed + 1) mod 2 ^ 64);
              cuda_seeds := fun _ => Some (seed + 5);
              numpy_seed := Some (seed + 4);
              python_seed := Some (seed + 6) |}.
Proof.
  intros H. unfold set_random_seed, torch_manual_seed, cuda_manual_seed,
    cuda_manual_seed_all, numpy_random_seed, random_seed.
  assert (Hn : (0 <=? seed + 4) && (seed + 4 <? 2 ^ 32) = true).
  { apply andb_true_intro. split; [apply Z.leb_le|apply Z.ltb_lt]; lia. }
  rewrite (torch_seed_ok_range (seed + 1)) by lia. cbn [obind].
  rewrite (torch_seed_ok_range (seed + 2)) by lia. cbn [obind].
  rewrite (torch_seed_ok_range (seed + 3)) by lia. cbn [obind].
  rewrite Hn. cbn [obind].
  rewrite (torch_seed_ok_range (seed + 5)) by lia. cbn.
  rewrite (mod64_small (seed + 5)) by lia.
  rewrite Z.abs_eq by lia. reflexivity.
Qed.

Lemma set_random_seed_out_of_range device seed st :
  ~ 0 <= seed + 4 < 2 ^ 32 ->
  exists e, set_random_seed device seed st = Throw (Builtin e).
Proof.
  intros H. unfold set_random_seed, torch_manual_seed, cuda_manual_seed,
    cuda_manual_seed_all, numpy_random_seed.
  destruct (torch_seed_ok (seed + 1)); simpl; [|eauto].
  destruct (torch_seed_ok (seed + 2)); simpl; [|eauto].
  destruct (torch_seed_ok (seed + 3)); simpl; [|eauto].
  assert (Hn : (0 <=? seed + 4) && (seed + 4 <? 2 ^ 32) = false).
  { apply andb_false_iff.
    destruct (Z.leb_spec 0 (seed + 4)); [right|left; reflexivity].
    apply Z.ltb_ge. lia. }
  rewrite Hn. simpl. eauto.
Qed.

(** X22: [set_random_seed(seed)] returns exactly when [seed + 4] is a 32-bit
    number (numpy's seed), and raises otherwise.  When it returns, the
    CPU generator of torch is seeded with [seed + 1] (taken as an
    unsigned 64-bit number), every CUDA device
    with [seed + 5], numpy with [seed + 4] and [random] with [seed + 6]:
    the seeds [seed + 2] and [seed + 3] given to the CUDA devices are
    overwritten before any number is drawn. *)
Theorem seeding_outcome (device seed : Z) (st : rng_seeds) :
  match set_random_seed device seed st with
  | Return st' =>
      0 <= seed + 4 < 2 ^ 32
      /\ torch_seed st' = Some ((seed + 1) mod 2 ^ 64)
      /\ (forall d, cuda_seeds st' d = Some (seed + 5))
      /\ numpy_seed st' = Some (seed + 4)
      /\ python_seed st' = Some (seed + 6)
  | Throw e => ~ 0 <= seed + 4 < 2 ^ 32 /\ exists e', e = Builtin e'
  end.
Proof.
  destruct (decide (0 <= seed + 4 < 2 ^ 32)) as [H|H].
  - rewrite set_random_seed_in_range by done. simpl. repeat split; lia.
  - destruct (set_random_seed_out_of_range device seed st H) as [e ->].
    split; [done|eauto].
Qed.


(** ** [system_startup] *)

Lemma system_startup_inv H idx g cfg p su cfg' p' :
  system_startup H idx g cfg p = Return (su, cfg', p') ->
  match run_seed cfg with
  | Some s =>
      set_random_seed (current_device p) (s + 10 * idx) (seeds p)
      = Return (seeds p')
  | None => seeds p' = seeds p
  end
  /\ torch_hasattr H (run_dtype cfg) = true
  /\ (cuda_is_available H = true \/ run_dryrun cfg = true)
  /\ su = {| setup_device := if cuda_is_available H then cuda idx else cpu;
             setup_dtype := run_dtype cfg;
             setup_memory_format :=
               if String.eqb (run_memory cfg) "contiguous"
               then contiguous_format else channels_last |}
  /\ cudnn_benchmark p' = run_benchmark cfg && negb (run_deterministic cfg)
  /\ cudnn_deterministic p'
     = run_deterministic cfg || cudnn_deterministic p
  /\ deterministic_algorithms p'
     = run_deterministic cfg || deterministic_algorithms p
  /\ (if cuda_is_available H
      then current_device p' = idx /\ 0 <= idx < host_device_count H
      else current_device p' = current_device p)
  /\ (if setup_dist (run_setup cfg) then
        process_group p = None
        /\ exists q rank,
             resolve_rank H q (run_setup cfg) idx g = Return rank
             /\ process_group p'
                = Some (setup_world_size (run_setup cfg), rank)
             /\ cfg' = with_setup cfg (with_rank (run_setup cfg) rank)
      else process_group p' = process_group p /\ cfg' = cfg).
Proof.
  unfold system_startup. intros Hs.
  apply obind_Return in Hs as (p1 & Hseed & Hs).
  destruct (torch_hasattr H (run_dtype cfg)) eqn:Hattr; [|discriminate].
  cbn [negb] in Hs.
  apply obind_Return in Hs as (p2 & Hdev & Hs).
  assert (Hp1 :
    match run_seed cfg with
    | Some s =>
        set_random_seed (current_device p) (s + 10 * idx) (seeds p)
        = Return (seeds p1)
    | None => seeds p1 = seeds p
    end
    /\ cudnn_benchmark p1 = run_benchmark cfg && negb (run_deterministic cfg)
    /\ cudnn_deterministic p1 = run_deterministic cfg || cudnn_deterministic p
    /\ deterministic_algorithms p1
       = run_deterministic cfg || deterministic_algorithms p
    /\ current_device p1 = current_device p
    /\ process_group p1 = process_group p).
  { destruct (run_deterministic cfg); destruct (run_seed cfg) as [s|];
      cbn in Hseed |- *;
      try (apply obind_Return in Hseed as (sd & Hsd & Hseed));
      injection Hseed as <-; cbn; rewrite ?andb_true_r, ?andb_false_r;
      repeat split; done. }
  clear Hseed. destruct Hp1 as (Hseed & Hb & Hd & Ha & Hcur & Hpg).
  assert (Hp2 :
    seeds p2 = seeds p1
    /\ cudnn_benchmark p2 = cudnn_benchmark p1
    /\ cudnn_deterministic p2 = cudnn_deterministic p1
    /\ deterministic_algorithms p2 = deterministic_algorithms p1
    /\ process_group p2 = process_group p1
    /\ (if cuda_is_available H
        then current_device p2 = idx /\ 0 <= idx < host_device_count H
        else current_device p2 = current_device p1)).
  { destruct (cuda_is_available H).
    - destruct ((0 <=? idx) && (idx <? host_device_count H)) eqn:Hr;
        [|discriminate].
      injection Hdev as <-. cbn. repeat split; try done; lia.
    - injection Hdev as <-. repeat split; done. }
  clear Hdev. destruct Hp2 as (Hseed2 & Hb2 & Hd2 & Ha2 & Hpg2 & Hcur2).
  destruct (negb (cuda_is_available H) && negb (run_dryrun cfg)) eqn:Hgpu;
    [discriminate|].
  assert (Hav : cuda_is_available H = true \/ run_dryrun cfg = true).
  { destruct (cuda_is_available H); [by left|].
    destruct (run_dryrun cfg); [by right|discriminate]. }
  assert (Hfin :
    seeds p' = seeds p2
    /\ cudnn_benchmark p' = cudnn_benchmark p2
    /\ cudnn_deterministic p' = cudnn_deterministic p2
    /\ deterministic_algorithms p' = deterministic_algorithms p2
    /\ current_device p' = current_device p2
    /\ su = {| setup_device := if cuda_is_available H then cuda idx else cpu;
               setup_dtype := run_dtype cfg;
               setup_memory_format :=
                 if String.eqb (run_memory cfg) "contiguous"
                 then contiguous_format else channels_last |}
    /\ (if setup_dist (run_setup cfg) then
          process_group p2 = None
          /\ exists q rank,
               resolve_rank H q (run_setup cfg) idx g = Return rank
               /\ process_group p'
                  = Some (setup_world_size (run_setup cfg), rank)
               /\ cfg' = with_setup cfg (with_rank (run_setup cfg) rank)
        else process_group p' = process_group p2 /\ cfg' = cfg)).
  { destruct (setup_dist (run_setup cfg)).
    - apply obind_Return in Hs as (rank & Hrank & Hs).
      destruct (setup_MASTER_PORT (run_setup cfg));
        destruct (setup_MASTER_ADDR (run_setup cfg));
        cbn in Hs;
        (destruct (process_group p2) eqn:Hg2; [discriminate|]);
        injection Hs as <- <- <-; cbn; repeat split; eauto.
    - injection Hs as <- <- <-. repeat split; done. }
  destruct Hfin as (Hseed3 & Hb3 & Hd3 & Ha3 & Hcur3 & Hsu & Hdist).
  split.
  { destruct (run_seed cfg); congruence. }
  split; [done|]. split; [done|]. split; [done|].
  split; [congruence|]. split; [congruence|]. split; [congruence|].
  split.
  { destruct (cuda_is_available H); [|congruence].
    destruct Hcur2 as [Hc2 Hr2]. split; [congruence|done]. }
  destruct (setup_dist (run_setup cfg)).
  - destruct Hdist as (Hnone & q & rank & Hr & Hg & Hc).
    split; [congruence|]. eauto.
  - destruct Hdist as [Hg Hc]. split; congruence.
Qed.

(** X23: A process that [system_startup] lets through runs on a GPU or in a
    dry run, on the device of its own index; cudnn's benchmark mode is on
    only if configured and not overridden by the deterministic mode, which
    switches on cudnn's deterministic mode and torch's deterministic
    algorithms; and outside distributed mode no process group is created
    and the configuration is left as it was. *)
Theorem startup_postconditions (H : Host) (idx g : Z) (cfg : cfg_run)
    (p : process) (su : setup) (cfg' : cfg_run) (p' : process) :
  system_startup H idx g cfg p = Return (su, cfg', p') ->
  (cuda_is_available H = true \/ run_dryrun cfg = true)
  /\ setup_device su = (if cuda_is_available H then cuda idx else cpu)
  /\ setup_dtype su = run_dtype cfg
  /\ torch_hasattr H (run_dtype cfg) = true
  /\ (cuda_is_available H = true ->
      current_device p' = idx /\ 0 <= idx < host_device_count H)
  /\ cudnn_benchmark p' = run_benchmark cfg && negb (run_deterministic cfg)
  /\ (run_deterministic cfg = true ->
      cudnn_deterministic p' = true /\ deterministic_algorithms p' = true)
  /\ (setup_dist (run_setup cfg) = false ->
      process_group p' = process_group p /\ cfg' = cfg).
Proof.
  intros Hs. apply system_startup_inv in Hs
    as (_ & Hattr & Hav & -> & Hb & Hd & Ha & Hcur & Hdist).
  split; [done|]. split; [done|]. split; [done|]. split; [done|].
  split. { intros Hc. by rewrite Hc in Hcur. }
  split; [done|].
  split. { intros Hdet. rewrite Hdet in Hd, Ha. done. }
  intros Hnd. by rewrite Hnd in Hdist.
Qed.

Lemma startup_postconditions_witness :
  exists su cfg' p',
    system_startup (Demo4.host 2) 1 2
      (Demo4.run (Some 233) (Demo4.setup_of false 1 0)) Demo4.proc
    = Return (su, cfg', p')
    /\ cudnn_benchmark p' = false
    /\ (cuda_is_available (Demo4.host 2) = true
        \/ run_dryrun (Demo4.run (Some 233) (Demo4.setup_of false 1 0)) = true)
    /\ setup_device su
       = (if cuda_is_available (Demo4.host 2) then cuda 1 else cpu)
    /\ setup_dtype su
       = run_dtype (Demo4.run (Some 233) (Demo4.setup_of false 1 0))
    /\ torch_hasattr (Demo4.host 2)
         (run_dtype (Demo4.run (Some 233) (Demo4.setup_of false 1 0))) = true
    /\ (cuda_is_available (Demo4.host 2) = true ->
        current_device p' = 1 /\ 0 <= 1 < host_device_count (Demo4.host 2))
    /\ cudnn_benchmark p'
       = run_benchmark (Demo4.run (Some 233) (Demo4.setup_of false 1 0))
         && negb (run_deterministic
                    (Demo4.run (Some 233) (Demo4.setup_of false 1 0)))
    /\ (run_deterministic (Demo4.run (Some 233) (Demo4.setup_of false 1 0))
        = true ->
        cudnn_deterministic p' = true /\ deterministic_algorithms p' = true)
    /\ (setup_dist (run_setup (Demo4.run (Some 233) (Demo4.setup_of false 1 0)))
        = false ->
        process_group p' = process_group Demo4.proc
        /\ cfg' = Demo4.run (Some 233) (Demo4.setup_of false 1 0)).
Proof.
  eexists. eexists. eexists. split; [vm_compute; reflexivity|].
  split; [reflexivity|].
  eapply (startup_postconditions (Demo4.host 2) 1 2
            (Demo4.run (Some 233) (Demo4.setup_of false 1 0)) Demo4.proc).
  vm_compute. reflexivity.
Defined.

Lemma set_random_seed_Return device v st sd :
  set_random_seed device v st = Return sd ->
  0 <= v + 4 < 2 ^ 32
  /\ sd = {| torch_seed := Some ((v + 1) mod 2 ^ 64);
             cuda_seeds := fun _ => Some (v + 5);
             numpy_seed := Some (v + 4);
             python_seed := Some (v + 6) |}.
Proof.
  intros Hs. destruct (decide (0 <= v + 4 < 2 ^ 32)) as [Hr|Hr].
  - rewrite set_random_seed_in_range in Hs by done. split; [done|congruence].
  - destruct (set_random_seed_out_of_range device v st Hr) as [e He].
    congruence.
Qed.

Lemma mod64_inj a b :
  - 2 ^ 63 <= a < 2 ^ 63 -> - 2 ^ 63 <= b < 2 ^ 63 ->
  a mod 2 ^ 64 = b mod 2 ^ 64 -> a = b.
Proof.
  intros Ha Hb Hm.
  pose proof (Z.div_mod a (2 ^ 64) ltac:(lia)) as Ea.
  pose proof (Z.div_mod b (2 ^ 64) ltac:(lia)) as Eb.
  pose proof (Z.mod_pos_bound a (2 ^ 64) ltac:(lia)) as Ba.
  pose proof (Z.mod_pos_bound b (2 ^ 64) ltac:(lia)) as Bb.
  rewrite Hm in Ea. nia.
Qed.

(** X24: Two processes started from configurations with the same seed: if
    they have the same local index they seed every generator alike,
    whatever their node and rank; if their indices differ, each of torch's
    CPU generator, the CUDA devices, numpy and [random] is seeded
    differently in the two. *)
Theorem process_seeds (H1 H2 : Host) (i1 g1 i2 g2 : Z) (cfg1 cfg2 : cfg_run)
    (p1 p2 : process) (su1 su2 : setup) (cfg1' cfg2' : cfg_run)
    (p1' p2' : process) (s : Z) :
  run_seed cfg1 = Some s -> run_seed cfg2 = Some s ->
  system_startup H1 i1 g1 cfg1 p1 = Return (su1, cfg1', p1') ->
  system_startup H2 i2 g2 cfg2 p2 = Return (su2, cfg2', p2') ->
  (i1 = i2 -> seeds p1' = seeds p2')
  /\ (i1 <> i2 ->
      torch_seed (seeds p1') <> torch_seed (seeds p2')
      /\ (forall d d', cuda_seeds (seeds p1') d <> cuda_seeds (seeds p2') d')
      /\ numpy_seed (seeds p1') <> numpy_seed (seeds p2')
      /\ python_seed (seeds p1') <> python_seed (seeds p2')).
Proof.
  intros Hs1 Hs2 Hr1 Hr2.
  apply system_startup_inv in Hr1 as (Hsd1 & _).
  apply system_startup_inv in Hr2 as (Hsd2 & _).
  rewrite Hs1 in Hsd1. rewrite Hs2 in Hsd2.
  apply set_random_seed_Return in Hsd1 as [Hv1 ->].
  apply set_random_seed_Return in Hsd2 as [Hv2 ->].
  split; [by intros ->|]. intros Hne. simpl.
  split.
  { intros [= Hm]. apply mod64_inj in Hm; lia. }
  split; [intros _ _ [= Hm]; lia|].
  split; intros [= Hm]; lia.
Qed.

Lemma process_seeds_witness :
  exists su1 cfg1' p1' su2 cfg2' p2',
    run_seed (Demo4.run (Some 233) (Demo4.setup_of false 1 0)) = Some 233 /\
    system_startup (Demo4.host 2) 0 2
      (Demo4.run (Some 233) (Demo4.setup_of false 1 0)) Demo4.proc
    = Return (su1, cfg1', p1') /\
    system_startup (Demo4.host 2) 1 2
      (Demo4.run (Some 233) (Demo4.setup_of false 1 0)) Demo4.proc
    = Return (su2, cfg2', p2') /\
    numpy_seed (seeds p1') = Some 237 /\
    numpy_seed (seeds p2') = Some 247 /\
    (0 = 1 -> seeds p1' = seeds p2')
    /\ (0 <> 1 ->
        torch_seed (seeds p1') <> torch_seed (seeds p2')
        /\ (forall d d', cuda_seeds (seeds p1') d <> cuda_seeds (seeds p2') d')
        /\ numpy_seed (seeds p1') <> numpy_seed (seeds p2')
        /\ python_seed (seeds p1') <> python_seed (seeds p2')).
Proof.
  do 6 eexists. split; [reflexivity|].
  split; [vm_compute; reflexivity|]. split; [vm_compute; reflexivity|].
  split; [reflexivity|]. split; [reflexivity|].
  eapply (process_seeds (Demo4.host 2) (Demo4.host 2) 0 2 1 2
            (Demo4.run (Some 233) (Demo4.setup_of false 1 0))
            (Demo4.run (Some 233) (Demo4.setup_of false 1 0))
            Demo4.proc Demo4.proc _ _ _ _ _ _ 233);
    [reflexivity|reflexivity|vm_compute; reflexivity|vm_compute; reflexivity].
Defined.

(** ** [job_startup] *)

Lemma job_startup_inv H p cfg cfg' launches :
  job_startup H p cfg = Return (cfg', launches) ->
  run_seed cfg'
  = Some (default (randint_item H 0 (2 ^ 32 - 1)) (run_seed cfg))
  /\ setup_dist (run_setup cfg') = setup_dist (run_setup cfg)
  /\ setup_rank (run_setup cfg') = setup_rank (run_setup cfg)
  /\ exists n,
       (if setup_dist (run_setup cfg)
           && String.eqb (setup_url (run_setup cfg)) "env://"
           && (setup_world_size (run_setup cfg) =? -1)
        then environ_int H p "WORLD_SIZE" = Return n
        else n = setup_world_size (run_setup cfg))
       /\ (if setup_dist (run_setup cfg) && (1 <? host_device_count H) then
             setup_world_size (run_setup cfg') = host_device_count H * n
             /\ launches
                = map (fun i : nat => (Z.of_nat i, host_device_count H))
                    (seq 0 (Z.to_nat (host_device_count H)))
           else setup_world_size (run_setup cfg') = n
                /\ launches = [(0, 1)]).
Proof.
  unfold job_startup. intros Hj.
  apply obind_Return in Hj as (cfg1 & H1 & Hj).
  assert (Hc1 :
    run_seed cfg1
    = Some (default (randint_item H 0 (2 ^ 32 - 1)) (run_seed cfg))
    /\ setup_dist (run_setup cfg1) = setup_dist (run_setup cfg)
    /\ setup_rank (run_setup cfg1) = setup_rank (run_setup cfg)
    /\ exists n,
         (if setup_dist (run_setup cfg)
             && String.eqb (setup_url (run_setup cfg)) "env://"
             && (setup_world_size (run_setup cfg) =? -1)
          then environ_int H p "WORLD_SIZE" = Return n
          else n = setup_world_size (run_setup cfg))
         /\ setup_world_size (run_setup cfg1) = n).
  { destruct (run_seed cfg) as [s|] eqn:Hseed; cbn in H1 |- *;
      (destruct (setup_dist (run_setup cfg)) eqn:Hd; cbn in H1 |- *;
       [|injection H1 as <-; cbn; rewrite ?Hseed, ?Hd; eauto 10]);
      apply obind_Return in H1 as (cfg0 & H0 & H1);
      (destruct (String.eqb (setup_url (run_setup cfg)) "env://"
                 && (setup_world_size (run_setup cfg) =? -1)) eqn:He;
       [apply obind_Return in H0 as (n & Hn & H0)|]);
      injection H0 as <-; cbn in H1;
      (destruct (substring_in "tcp://" _ && substring_in "?" _));
      injection H1 as <-; cbn; rewrite ?Hseed, ?Hd; eauto 10. }
  destruct Hc1 as (Hs1 & Hd1 & Hr1 & n & Hn & Hw1).
  rewrite Hd1 in Hj.
  destruct (setup_dist (run_setup cfg) && (1 <? host_device_count H));
    injection Hj as <- <-; cbn; rewrite ?Hs1, ?Hd1, ?Hr1, ?Hw1; eauto 10.
Qed.

Lemma resolve_rank_int H q s idx g r :
  setup_rank s = RankInt r -> r <> -1 ->
  resolve_rank H q s idx g
  = Return (if 1 <? g then r * g + idx else r).
Proof.
  intros Hr Hne. unfold resolve_rank. rewrite Hr.
  destruct (Z.eqb_spec r (-1)); [done|]. by rewrite andb_false_r.
Qed.

(** X25: Ranks across the job.  On a node with rank [R] among [N] nodes, in
    distributed mode with the rank and the number of nodes given as
    numbers, [job_startup] launches one process per GPU (a single one when
    there are fewer than two GPUs), and every process that
    [system_startup] lets through joins a group of [G * N] processes with
    rank [R * G + i], [G] being the number of processes of the node and
    [i] the index of the process.  The rank lies inside the group and
    determines the node and the index, so with the same [G] on every node
    no two processes of the job share a rank. *)
Theorem node_ranks (H : Host) (p : process) (cfg cfg' : cfg_run)
    (launches : list (Z * Z)) (R : Z) :
  setup_dist (run_setup cfg) = true ->
  setup_rank (run_setup cfg) = RankInt R ->
  0 <= R < setup_world_size (run_setup cfg) ->
  job_startup H p cfg = Return (cfg', launches) ->
  launches = map (fun i : nat => (Z.of_nat i, Z.max 1 (host_device_count H)))
               (seq 0 (Z.to_nat (Z.max 1 (host_device_count H))))
  /\ forall i g q su cfg'' q',
       In (i, g) launches ->
       system_startup H i g cfg' q = Return (su, cfg'', q') ->
       process_group q'
       = Some (Z.max 1 (host_device_count H) * setup_world_size (run_setup cfg),
               R * Z.max 1 (host_device_count H) + i)
       /\ 0 <= R * Z.max 1 (host_device_count H) + i
          < Z.max 1 (host_device_count H) * setup_world_size (run_setup cfg)
       /\ (R * Z.max 1 (host_device_count H) + i)
          / Z.max 1 (host_device_count H) = R
       /\ (R * Z.max 1 (host_device_count H) + i)
          mod Z.max 1 (host_device_count H) = i.
Proof.
  intros Hd Hr HR Hj.
  apply job_startup_inv in Hj as (_ & Hd' & Hr' & n & Hn & Hl).
  rewrite Hd in *. rewrite Hr in Hr'.
  assert (Hws : (setup_world_size (run_setup cfg) =? -1) = false)
    by (apply Z.eqb_neq; lia).
  rewrite Hws, andb_false_r in Hn. subst n. cbn [andb] in Hl.
  set (G := host_device_count H) in *.
  set (N := setup_world_size (run_setup cfg)) in *.
  assert (Hlaunch :
    launches = map (fun i : nat => (Z.of_nat i, Z.max 1 G))
                 (seq 0 (Z.to_nat (Z.max 1 G)))
    /\ setup_world_size (run_setup cfg') = Z.max 1 G * N).
  { destruct (Z.ltb_spec 1 G) as [HG|HG]; destruct Hl as [Hw ->].
    - rewrite Z.max_r by lia. done.
    - rewrite Z.max_l by lia. split; [reflexivity|lia]. }
  destruct Hlaunch as [-> Hw]. split; [reflexivity|].
  intros i g q su cfg'' q' Hin Hs.
  apply in_map_iff in Hin as (k & [= <- <-] & Hk). apply in_seq in Hk.
  apply system_startup_inv in Hs as (_ & _ & _ & _ & _ & _ & _ & _ & Hdist).
  rewrite Hd' in Hdist. destruct Hdist as (_ & q0 & rank & Hrank & Hg & _).
  rewrite (resolve_rank_int _ _ _ _ _ R Hr') in Hrank by lia.
  injection Hrank as <-. rewrite Hg, Hw.
  assert (Hrk : (if 1 <? Z.max 1 G then R * Z.max 1 G + Z.of_nat k else R)
                = R * Z.max 1 G + Z.of_nat k).
  { destruct (Z.ltb_spec 1 (Z.max 1 G)); [done|].
    assert (Z.max 1 G = 1) as -> by lia. lia. }
  rewrite Hrk. split; [done|]. split; [nia|].
  split.
  - apply eq_sym, (Z.div_unique _ _ R (Z.of_nat k)); lia.
  - apply eq_sym, (Z.mod_unique _ _ R (Z.of_nat k)); lia.
Qed.

Lemma node_ranks_witness :
  exists cfg' launches,
    setup_dist (run_setup (Demo4.run (Some 233) (Demo4.setup_of true 3 1)))
    = true /\
    setup_rank (run_setup (Demo4.run (Some 233) (Demo4.setup_of true 3 1)))
    = RankInt 1 /\
    0 <= 1 < setup_world_size
               (run_setup (Demo4.run (Some 233) (Demo4.setup_of true 3 1))) /\
    job_startup (Demo4.host 2) Demo4.proc
      (Demo4.run (Some 233) (Demo4.setup_of true 3 1))
    = Return (cfg', launches) /\
    launches = [(0, 2); (1, 2)] /\
    (exists su cfg'' q',
       system_startup (Demo4.host 2) 1 2 cfg' Demo4.proc
       = Return (su, cfg'', q') /\ process_group q' = Some (6, 3)) /\
    launches
    = map (fun i : nat =>
             (Z.of_nat i, Z.max 1 (host_device_count (Demo4.host 2))))
        (seq 0 (Z.to_nat (Z.max 1 (host_device_count (Demo4.host 2)))))
    /\ forall i g q su cfg'' q',
         In (i, g) launches ->
         system_startup (Demo4.host 2) i g cfg' q = Return (su, cfg'', q') ->
         process_group q'
         = Some (Z.max 1 (host_device_count (Demo4.host 2))
                 * setup_world_size
                     (run_setup (Demo4.run (Some 233) (Demo4.setup_of true 3 1))),
                 1 * Z.max 1 (host_device_count (Demo4.host 2)) + i)
         /\ 0 <= 1 * Z.max 1 (host_device_count (Demo4.host 2)) + i
            < Z.max 1 (host_device_count (Demo4.host 2))
              * setup_world_size
                  (run_setup (Demo4.run (Some 233) (Demo4.setup_of true 3 1)))
         /\ (1 * Z.max 1 (host_device_count (Demo4.host 2)) + i)
            / Z.max 1 (host_device_count (Demo4.host 2)) = 1
         /\ (1 * Z.max 1 (host_device_count (Demo4.host 2)) + i)
            mod Z.max 1 (host_device_count (Demo4.host 2)) = i.
Proof.
  eexists. eexists. split; [reflexivity|]. split; [reflexivity|].
  split; [vm_compute; split; [discriminate|reflexivity]|].
  split; [vm_compute; reflexivity|]. split; [reflexivity|].
  split.
  { eexists. eexists. eexists. split; [vm_compute; reflexivity|reflexivity]. }
  eapply (node_ranks (Demo4.host 2) Demo4.proc
            (Demo4.run (Some 233) (Demo4.setup_of true 3 1)) _ _ 1);
    [reflexivity|reflexivity
    |vm_compute; split; [discriminate|reflexivity]
    |vm_compute; reflexivity].
Defined.

Lemma set_random_seed_too_large device v st :
  2 ^ 32 - 4 <= v -> v + 5 < 2 ^ 64 ->
  set_random_seed device v st
  = Throw (Builtin (ValueError "Seed must be between 0 and 2**32 - 1")).
Proof.
  intros Hlo Hhi. unfold set_random_seed, torch_manual_seed, cuda_manual_seed,
    cuda_manual_seed_all, numpy_random_seed.
  rewrite (torch_seed_ok_range (v + 1)) by lia. cbn [obind].
  rewrite (torch_seed_ok_range (v + 2)) by lia. cbn [obind].
  rewrite (torch_seed_ok_range (v + 3)) by lia. cbn [obind].
  assert (Hn : (0 <=? v + 4) && (v + 4 <? 2 ^ 32) = false).
  { apply andb_false_iff. right. apply Z.ltb_ge. lia. }
  cbn [numpy_seed python_seed torch_seed cuda_seeds]. rewrite Hn. reflexivity.
Qed.

Lemma system_startup_seed_too_large H idx g cfg p s :
  run_seed cfg = Some s ->
  2 ^ 32 - 4 <= s + 10 * idx -> s + 10 * idx + 5 < 2 ^ 64 ->
  system_startup H idx g cfg p
  = Throw (Builtin (ValueError "Seed must be between 0 and 2**32 - 1")).
Proof.
  intros Hs Hlo Hhi. unfold system_startup. rewrite Hs.
  rewrite set_random_seed_too_large by done. reflexivity.
Qed.

(** X26: A seed drawn by [job_startup] can stop the job: the draw is from
    [0, 2 ** 32 - 1), and when it is one of the three largest values
    every process the job launches fails in [system_startup] with the
    [ValueError] of numpy's seeding, since [seed + 4] no longer fits 32
    bits. *)
Theorem drawn_seed_can_stop_the_job (H : Host) (p : process)
    (cfg cfg' : cfg_run) (launches : list (Z * Z)) :
  run_seed cfg = None ->
  2 ^ 32 - 4 <= randint_item H 0 (2 ^ 32 - 1) < 2 ^ 32 - 1 ->
  host_device_count H < 2 ^ 32 ->
  job_startup H p cfg = Return (cfg', launches) ->
  launches <> []
  /\ forall i g H' q,
       In (i, g) launches ->
       system_startup H' i g cfg' q
       = Throw (Builtin (ValueError "Seed must be between 0 and 2**32 - 1")).
Proof.
  intros Hnone Hdraw HG Hj.
  apply job_startup_inv in Hj as (Hseed & _ & _ & n & _ & Hl).
  rewrite Hnone in Hseed. simpl in Hseed.
  assert (Hidx : launches <> []
                 /\ forall i g, In (i, g) launches -> 0 <= i < 2 ^ 32).
  { destruct (setup_dist (run_setup cfg) && (1 <? host_device_count H)) eqn:E;
      destruct Hl as [_ ->].
    - apply andb_prop in E as [_ E]. apply Z.ltb_lt in E. split.
      + destruct (Z.to_nat (host_device_count H)) eqn:E'; [lia|done].
      + intros i g Hin. apply in_map_iff in Hin as (k & [= <- <-] & Hk).
        apply in_seq in Hk. lia.
    - split; [done|]. intros i g [[= <- <-]|[]]. lia. }
  destruct Hidx as [Hne Hidx]. split; [done|].
  intros i g H' q Hin. specialize (Hidx i g Hin).
  apply (system_startup_seed_too_large H' i g cfg' q _ Hseed); lia.
Qed.

Lemma drawn_seed_can_stop_the_job_witness :
  exists cfg' launches,
    run_seed (Demo4.run None (Demo4.setup_of false 1 0)) = None /\
    2 ^ 32 - 4 <= randint_item (Demo4.host 1) 0 (2 ^ 32 - 1) < 2 ^ 32 - 1 /\
    host_device_count (Demo4.host 1) < 2 ^ 32 /\
    job_startup (Demo4.host 1) Demo4.proc
      (Demo4.run None (Demo4.setup_of false 1 0)) = Return (cfg', launches) /\
    run_seed cfg' = Some 4294967294 /\
    launches <> []
    /\ forall i g H' q,
         In (i, g) launches ->
         system_startup H' i g cfg' q
         = Throw (Builtin (ValueError "Seed must be between 0 and 2**32 - 1")).
Proof.
  eexists. eexists. split; [reflexivity|].
  split; [vm_compute; split; [discriminate|reflexivity]|].
  split; [reflexivity|]. split; [vm_compute; reflexivity|].
  split; [reflexivity|].
  eapply (drawn_seed_can_stop_the_job (Demo4.host 1) Demo4.proc
            (Demo4.run None (Demo4.setup_of false 1 0)));
    [reflexivity|vm_compute; split; [discriminate|reflexivity]
    |reflexivity|vm_compute; reflexivity].
Defined.

(** ** Result tables *)

Lemma save_to_table_dirs fs out_dir fs1 :
  (if negb (bool_decide (out_dir ∈ fs_dirs fs))
   then makedirs fs out_dir else Return fs) = Return fs1 ->
  fs_files fs1 = fs_files fs /\ out_dir ∈ fs_dirs fs1.
Proof.
  destruct (bool_decide (out_dir ∈ fs_dirs fs)) eqn:Hd; simpl.
  - intros [= <-]. split; [done|]. by apply bool_decide_eq_true_1 in Hd.
  - unfold makedirs. destruct (String.eqb out_dir EmptyString).
    { intros Hx. discriminate Hx. }
    destruct (bool_decide (is_Some _)).
    { intros Hx. discriminate Hx. }
    intros [= <-]. simpl.
    split; [done|]. apply list_elem_of_here.
Qed.

(** X27: A dry run of [save_to_table] leaves every table file as it is: no
    header and no row is written, and no file is created.  The output
    directory is created all the same. *)
Theorem dry_run_writes_no_table (fs : filesystem) (out_dir table_name : string)
    (kwargs : list (string * pyval)) (fs' : filesystem) :
  save_to_table fs out_dir table_name true kwargs = Return fs' ->
  fs_files fs' = fs_files fs /\ out_dir ∈ fs_dirs fs'.
Proof.
  unfold save_to_table. intros H.
  apply obind_Return in H as (fs1 & H1 & H).
  apply save_to_table_dirs in H1 as [Hf Hd]. cbn [negb] in H.
  assert (Hfs : fs' = fs1).
  { destruct (has_header fs1 _); by injection H. }
  by subst fs'.
Qed.

Lemma dry_run_writes_no_table_witness :
  exists fs',
    save_to_table {| fs_dirs := []; fs_files := [] |} "tables" "runs" true
      [("name"%string, VStr "run1"); ("seed"%string, VNum (PInt 233))]
    = Return fs' /\
    fs_dirs fs' = ["tables"%string] /\
    fs_files fs' = fs_files {| fs_dirs := []; fs_files := [] |}
    /\ "tables"%string ∈ fs_dirs fs'.
Proof.
  eexists. split; [vm_compute; reflexivity|]. split; [reflexivity|].
  apply (dry_run_writes_no_table {| fs_dirs := []; fs_files := [] |}
           "tables" "runs"
           [("name"%string, VStr "run1"); ("seed"%string, VNum (PInt 233))]).
  vm_compute. reflexivity.
Defined.

Lemma dict_set_twice {A} (d : list (string * A)) k v v' :
  dict_set (dict_set d k v) k v' = dict_set d k v'.
Proof.
  induction d as [|[k0 v0] d IH]; simpl.
  - by rewrite String.eqb_refl.
  - destruct (String.eqb_spec k0 k) as [->|Hne]; simpl.
    + by rewrite String.eqb_refl.
    + destruct (String.eqb_spec k0 k); [done|]. by rewrite IH.
Qed.

Lemma save_to_table_files fs out_dir table_name kwargs fs' :
  save_to_table fs out_dir table_name false kwargs = Return fs' ->
  fs_files fs'
  = dict_set (fs_files fs) (table_path out_dir table_name)
      (match dict_get (fs_files fs) (table_path out_dir table_name) with
       | Some (header :: rows) => header :: rows
       | _ => [map VStr (map fst kwargs)]
       end ++ [map snd kwargs]).
Proof.
  unfold save_to_table. intros H.
  apply obind_Return in H as (fs1 & H1 & H).
  apply save_to_table_dirs in H1 as [Hf _]. cbn [negb] in H.
  injection H as <-. unfold append_file, write_file, has_header. rewrite Hf.
  destruct (dict_get (fs_files fs) (table_path out_dir table_name))
    as [[|header rows]|] eqn:Hg; cbn; rewrite ?Hf, ?Hg, ?dict_get_set_eq; cbn;
    rewrite ?dict_set_twice; reflexivity.
Qed.

(** X28: Outside a dry run [save_to_table] appends exactly one row, the values
    of the keyword arguments in their order, to the table file: below the
    rows the file holds when it has a first row, and below a new header of
    the argument names when the file is missing or empty.  Rows already
    in the file are never rewritten and the header is never compared with
    the argument names; every other file is left as it is. *)
Theorem save_to_table_appends (fs : filesystem) (out_dir table_name : string)
    (kwargs : list (string * pyval)) (fs' : filesystem) :
  save_to_table fs out_dir table_name false kwargs = Return fs' ->
  dict_get (fs_files fs') (table_path out_dir table_name)
  = Some (match dict_get (fs_files fs) (table_path out_dir table_name) with
          | Some (header :: rows) => header :: rows
          | _ => [map VStr (map fst kwargs)]
          end ++ [map snd kwargs])
  /\ forall other,
       other <> table_path out_dir table_name ->
       dict_get (fs_files fs') other = dict_get (fs_files fs) other.
Proof.
  intros H. rewrite (save_to_table_files _ _ _ _ _ H). split.
  - apply dict_get_set_eq.
  - intros other Hne. by apply dict_get_set_ne.
Qed.

Lemma save_to_table_appends_witness :
  exists fs',
    save_to_table
      {| fs_dirs := ["tables"%string];
         fs_files := [("tables/table_runs.csv"%string,
                       [[VStr "name"]; [VStr "run0"]])] |}
      "tables" "runs" false
      [("name"%string, VStr "run1"); ("seed"%string, VNum (PInt 233))]
    = Return fs' /\
    dict_get (fs_files fs') "tables/table_runs.csv"
    = Some [[VStr "name"]; [VStr "run0"]; [VStr "run1"; VNum (PInt 233)]] /\
    dict_get (fs_files fs') (table_path "tables" "runs")
    = Some (match dict_get
                    (fs_files
                       {| fs_dirs := ["tables"%string];
                          fs_files := [("tables/table_runs.csv"%string,
                                        [[VStr "name"]; [VStr "run0"]])] |})
                    (table_path "tables" "runs") with
            | Some (header :: rows) => header :: rows
            | _ => [map VStr
                      (map fst [("name"%string, VStr "run1");
                                ("seed"%string, VNum (PInt 233))])]
            end ++ [map snd [("name"%string, VStr "run1");
                             ("seed"%string, VNum (PInt 233))]])
    /\ forall other,
         other <> table_path "tables" "runs" ->
         dict_get (fs_files fs') other
         = dict_get
             (fs_files
                {| fs_dirs := ["tables"%string];
                   fs_files := [("tables/table_runs.csv"%string,
                                 [[VStr "name"]; [VStr "run0"]])] |}) other.
Proof.
  eexists. split; [vm_compute; reflexivity|]. split; [reflexivity|].
  apply (save_to_table_appends
           {| fs_dirs := ["tables"%string];
              fs_files := [("tables/table_runs.csv"%string,
                            [[VStr "name"]; [VStr "run0"]])] |}
           "tables" "runs"
           [("name"%string, VStr "run1"); ("seed"%string, VNum (PInt 233))]).
  vm_compute. reflexivity.
Defined.

Lemma iteration_at_keys stats step :
  map fst (iteration_at stats step) = map fst stats.
Proof. unfold iteration_at. rewrite map_map. reflexivity. Qed.

Lemma iteration_at_values stats step :
  map snd (iteration_at stats step)
  = map (fun kv => default VNone (snd kv !! step)) stats.
Proof. unfold iteration_at. rewrite map_map. reflexivity. Qed.

Lemma save_steps_files fs name stats steps fs' :
  save_steps fs name false stats steps = Return fs' ->
  dict_get (fs_files fs') (table_path "." (name ++ "_convergence_results"))
  = match steps with
    | [] =>
        dict_get (fs_files fs)
          (table_path "." (name ++ "_convergence_results"))
    | _ :: _ =>
        Some (match dict_get (fs_files fs)
                      (table_path "." (name ++ "_convergence_results")) with
              | Some (header :: rows) => header :: rows
              | _ => [map VStr (map fst stats)]
              end
              ++ map (fun step =>
                        map (fun kv => default VNone (snd kv !! step)) stats)
                   steps)
    end.
Proof.
  revert fs. induction steps as [|step steps IH]; intros fs H.
  - by injection H as <-.
  - cbn [save_steps] in H. apply obind_Return in H as (fs1 & H1 & H).
    apply save_to_table_files in H1. specialize (IH fs1 H).
    rewrite IH, H1, dict_get_set_eq.
    rewrite iteration_at_keys, iteration_at_values.
    destruct steps as [|step' steps]; [reflexivity|]. f_equal.
    destruct (dict_get (fs_files fs) _) as [[|header rows]|]; cbn;
      by rewrite <- ?app_assoc.
Qed.

(** X29: The convergence table of a run.  Outside a dry run the first part of
    [save_summary] adds one row per training step, as many as there are
    entries of [train_loss], below the rows the table file already has, or
    below a header of the statistic names when the file is missing or
    empty.  Every row has one cell per statistic, in the order of the
    statistics, and a statistic with no entry at a step contributes
    [None].  With no training step nothing is written. *)
Theorem convergence_table_rows (fs : filesystem) (name : string)
    (stats : list (string * list pyval)) (train_loss : list pyval)
    (fs' : filesystem) :
  dict_get stats "train_loss" = Some train_loss ->
  save_convergence_table fs name false stats = Return fs' ->
  dict_get (fs_files fs') (table_path "." (name ++ "_convergence_results"))
  = match train_loss with
    | [] =>
        dict_get (fs_files fs)
          (table_path "." (name ++ "_convergence_results"))
    | _ :: _ =>
        Some (match dict_get (fs_files fs)
                      (table_path "." (name ++ "_convergence_results")) with
              | Some (header :: rows) => header :: rows
              | _ => [map VStr (map fst stats)]
              end
              ++ map (fun step =>
                        map (fun kv => default VNone (snd kv !! step)) stats)
                   (seq 0 (length train_loss)))
    end.
Proof.
  intros Ht H. unfold save_convergence_table in H. rewrite Ht in H.
  rewrite (save_steps_files _ _ _ _ _ H).
  destruct train_loss; reflexivity.
Qed.

Lemma convergence_table_rows_witness :
  exists fs',
    dict_get Demo4.stats "train_loss"
    = Some [VNum (PInt 3); VNum (PInt 2); VNum (PInt 1)] /\
    save_convergence_table Demo4.fs0 "run" false Demo4.stats = Return fs' /\
    dict_get (fs_files fs') "./table_run_convergence_results.csv"
    = Some [[VStr "train_loss"; VStr "valid_acc"];
            [VNum (PInt 3); VNum (PInt 50)];
            [VNum (PInt 2); VNum (PInt 60)];
            [VNum (PInt 1); VNone]] /\
    dict_get (fs_files fs') (table_path "." ("run" ++ "_convergence_results"))
    = match [VNum (PInt 3); VNum (PInt 2); VNum (PInt 1)] with
      | [] =>
          dict_get (fs_files Demo4.fs0)
            (table_path "." ("run" ++ "_convergence_results"))
      | _ :: _ =>
          Some (match dict_get (fs_files Demo4.fs0)
                        (table_path "." ("run" ++ "_convergence_results")) with
                | Some (header :: rows) => header :: rows
                | _ => [map VStr (map fst Demo4.stats)]
                end
                ++ map (fun step =>
                          map (fun kv => default VNone (snd kv !! step))
                            Demo4.stats)
                     (seq 0 (length [VNum (PInt 3); VNum (PInt 2);
                                     VNum (PInt 1)])))
      end.
Proof.
  eexists. split; [reflexivity|]. split; [vm_compute; reflexivity|].
  split; [reflexivity|].
  apply (convergence_table_rows Demo4.fs0 "run" Demo4.stats
           [VNum (PInt 3); VNum (PInt 2); VNum (PInt 1)]);
    [reflexivity|vm_compute; reflexivity].
Defined.
